(** * The control daemon of the Small Radio Telescope

    A shallow embedding of [srt/daemon/daemon.py]
    (class [SmallRadioTelescopeDaemon]) and the properties of its pointing
    operations, its recorder control, its calibration loading and its command
    interpreter.

    Conventions of the embedding.
    - Python floats are IEEE binary64 numbers: Rocq's primitive [float].
    - A Python [str] is a [string] of 8-bit characters (ASCII text).
    - The attributes of [self] that change are the fields of [Daemon]; the
      settings read once from the configuration are the fields of [Config].
    - A method is a computation in the monad [M]: it threads the daemon
      state and either returns a value or raises a Python exception; what was
      written before the exception stays written.
    - Calls that leave the object ([sleep], the arrival wait, starting and
      terminating a recorder task) are appended to the field [trace], in
      program order.  Each assignment of [rotor_cmd_location] is recorded
      there as well.
    - The methods are embedded as the command thread runs them, the other
      threads standing still; the bodies of the ephemeris loop and of the
      parameter relay are embedded as single rounds.  The rotor loop and the
      status loop are not embedded.
    - The arrival wait of a pointing method, which only the rotor thread can
      end, is the event [Await]: the embedding goes on behind it as the code
      does once the antenna has arrived, and says nothing of whether it
      does.  [Val] is therefore read as "no exception was raised", and what
      is in the state and the trace behind an [Await] is reached only if
      that wait ends.
    - [log_message] keeps the messages without their time stamps, and the
      clock that [time()] reads is the field [clock], in microseconds.
    - The bounds check of the motor driver, [np.cos], the builtin [float],
      the calibration run, the XML-RPC server of the signal processing and
      the start of its process are parameters of the methods. *)

From Stdlib Require Import ZArith Floats Ascii String List Lia Bool.
From stdpp Require Import base option gmap strings list.

Import ListNotations.
Local Open Scope Z_scope.

(** ** Python strings *)

Module Py.

Definition is_space (c : ascii) : bool :=
  let n := nat_of_ascii c in
  ((9 <=? n)%nat && (n <=? 13)%nat) || (28 <=? n)%nat && (n <=? 32)%nat.

Definition is_upper (c : ascii) : bool :=
  let n := nat_of_ascii c in (65 <=? n)%nat && (n <=? 90)%nat.

Definition is_digit (c : ascii) : bool :=
  let n := nat_of_ascii c in (48 <=? n)%nat && (n <=? 57)%nat.

Definition lower_char (c : ascii) : ascii :=
  if is_upper c then ascii_of_nat (nat_of_ascii c + 32) else c.

(** [s.lower()] *)
Fixpoint lower (s : string) : string :=
  match s with
  | EmptyString => EmptyString
  | String c s' => String (lower_char c) (lower s')
  end.

Fixpoint lstrip (s : string) : string :=
  match s with
  | EmptyString => EmptyString
  | String c s' => if is_space c then lstrip s' else s
  end.

Fixpoint rev_string (acc s : string) : string :=
  match s with
  | EmptyString => acc
  | String c s' => rev_string (String c acc) s'
  end.

(** [s.strip()] *)
Definition strip (s : string) : string :=
  rev_string EmptyString (lstrip (rev_string EmptyString (lstrip s))).

(** [s.split(sep)] for a separator of one character: every occurrence
    cuts, so the result has one more piece than [s] has separators. *)
Fixpoint split (sep : ascii) (s : string) : list string :=
  match s with
  | EmptyString => [EmptyString]
  | String c s' =>
      if Ascii.eqb c sep then EmptyString :: split sep s'
      else match split sep s' with
           | p :: ps => String c p :: ps
           | [] => [String c EmptyString]
           end
  end.

(** [s.startswith(p)], [s.endswith(p)] *)
Fixpoint startswith (p s : string) : bool :=
  match p, s with
  | EmptyString, _ => true
  | String a p', String b s' => Ascii.eqb a b && startswith p' s'
  | String _ _, EmptyString => false
  end.

Definition endswith (p s : string) : bool :=
  startswith (rev_string EmptyString p) (rev_string EmptyString s).

Fixpoint drop (n : nat) (s : string) : string :=
  match n, s with
  | O, _ => s
  | S n', String _ s' => drop n' s'
  | S _, EmptyString => EmptyString
  end.

(** [s.replace(old, new)] for a non-empty [old]: leftmost occurrences,
    not overlapping.  [fuel] bounds the number of characters looked at. *)
Fixpoint replace_fuel (fuel : nat) (old new s : string) : string :=
  match fuel with
  | O => s
  | S fuel' =>
      match s with
      | EmptyString => EmptyString
      | String c s' =>
          if startswith old s
          then String.append new (replace_fuel fuel' old new (drop (String.length old) s))
          else String c (replace_fuel fuel' old new s')
      end
  end.

Definition replace (old new s : string) : string :=
  replace_fuel (String.length s) old new s.

Fixpoint all_chars (p : ascii -> bool) (s : string) : bool :=
  match s with
  | EmptyString => true
  | String c s' => p c && all_chars p s'
  end.

(** [s.isnumeric()] on ASCII text: not empty, decimal digits only. *)
Definition isnumeric (s : string) : bool :=
  match s with
  | EmptyString => false
  | _ => all_chars is_digit s
  end.

(** [int(s)] for a string of decimal digits. *)
Fixpoint digits_value (acc : Z) (s : string) : Z :=
  match s with
  | EmptyString => acc
  | String c s' => digits_value (10 * acc + (Z.of_nat (nat_of_ascii c) - 48)) s'
  end.

(** [l[-1]] *)
Definition last_item (l : list string) : option string := last l.

(** A field of [strptime]: one or two decimal digits, at most [max]. *)
Definition time_field (max : Z) (s : string) : option Z :=
  if isnumeric s && (String.length s <=? 2)%nat && (digits_value 0 s <=? max)
  then Some (digits_value 0 s) else None.

(** Seconds from the epoch to 1900-01-01T00:00:00, the date that
    [strptime] gives to a time of day. *)
Definition epoch_1900 : Z := -2208988800.

(** [datetime.strptime(s, "%H:%M:%S")], in microseconds since the epoch;
    [None] is its [ValueError]. *)
Definition strptime_HMS (s : string) : option Z :=
  match split ":" s with
  | [h; m; sec] =>
      match time_field 23 h, time_field 59 m, time_field 59 sec with
      | Some h, Some m, Some sec =>
          Some ((epoch_1900 + h * 3600 + m * 60 + sec) * 1000000)
      | _, _, _ => None
      end
  | _ => None
  end.

(** The proleptic Gregorian ordinal of January 1st of [year]
    ([date(year, 1, 1).toordinal()]). *)
Definition ordinal_of_year (year : Z) : Z :=
  let y := year - 1 in 365 * y + y / 4 - y / 100 + y / 400 + 1.

(** [datetime.strptime(s, "%Y:%j:%H:%M:%S")], in microseconds since the
    epoch (ordinal 719163); [None] is its [ValueError]. *)
Definition strptime_YjHMS (s : string) : option Z :=
  match split ":" s with
  | [y; j; h; m; sec] =>
      if isnumeric y && (String.length y =? 4)%nat
         && isnumeric j && (String.length j <=? 3)%nat then
        let year := digits_value 0 y in
        let julian := digits_value 0 j in
        let ordinal := julian - 1 + ordinal_of_year year in
        if (1 <=? year) && (1 <=? julian) && (julian <=? 366) && (ordinal <=? 3652059) then
          match time_field 23 h, time_field 59 m, time_field 59 sec with
          | Some h, Some m, Some sec =>
              Some (((ordinal - 719163) * 86400 + h * 3600 + m * 60 + sec) * 1000000)
          | _, _, _ => None
          end
        else None
      else None
  | _ => None
  end.

End Py.

(** ** Values, exceptions and the daemon state *)

(** An (azimuth, elevation) pair in degrees. *)
Definition azel : Type := float * float.

(** [tuple(map(add, p, q))] *)
Definition azel_add (p q : azel) : azel := ((p.1 + q.1)%float, (p.2 + q.2)%float).

(** The exception classes that the daemon's code can meet. *)
Inductive exn : Type :=
| IndexError | ValueError | JSONDecodeError | ConnectionRefusedError
| KeyError | FileNotFoundError | OverflowError | ZeroDivisionError | RuntimeError.

(** [isinstance(e, ValueError)]: [json.JSONDecodeError] derives from it. *)
Definition is_ValueError (e : exn) : bool :=
  match e with ValueError | JSONDecodeError => true | _ => false end.
Definition is_IndexError (e : exn) : bool :=
  match e with IndexError => true | _ => false end.
Definition is_ConnectionRefusedError (e : exn) : bool :=
  match e with ConnectionRefusedError => true | _ => false end.
Definition is_KeyError (e : exn) : bool :=
  match e with KeyError => true | _ => false end.
Definition is_RuntimeError (e : exn) : bool :=
  match e with RuntimeError => true | _ => false end.

(** What is put on [radio_queue] next to a parameter name. *)
Inductive value : Type :=
| VFloat (x : float)
| VFloats (xs : list float)
| VInt (n : Z)
| VBool (b : bool)
| VStr (s : string)
| VAzelLabel (az el : float).   (* f"azel_{az}_{el}" *)

(** The argument of [log_message]. *)
Inductive logged : Type :=
| Text (s : string)
| ObjectAtNotInBounds (p : azel)   (* f"Object at {p} Not in Motor Bounds" *)
| OffsetOutOfBounds (p : azel)     (* f"Offset {p} Out of Bounds" *)
| ExnStr (e : exn).                (* str(e) *)

(** The argument of [sleep]: a number of seconds, or the [total_seconds()]
    of a [timedelta], the [timedelta] being kept in microseconds. *)
Inductive duration : Type :=
| Seconds (s : float)
| Micros (us : Z).

(** The recorder tasks of [radio_task_starter], by constructor call. *)
Inductive task_ctor : Type :=
| RadioSaveRawTask (samp_rate : float) (directory : string) (name : option string)
| RadioSaveSpecRadTask (samp_rate : float) (num_bins : nat) (directory : string)
    (name : option string).

Inductive task_phase : Type := Created | Started | Terminated.

Record task : Type := { task_call : task_ctor; task_state : task_phase }.

(** [calibration.json] in the configuration directory. *)
Inductive file : Type :=
| NoFile                                   (* no such file *)
| NotJson                                  (* a file that is not JSON *)
| Json (cal_values_key : option (list float)) (cal_pwr_key : option float).

(** Calls that leave the object, and the assignments of the commanded
    position, in program order. *)
Inductive event : Type :=
| Sleep (d : duration)
| Await (target : azel)        (* while not azel_within_range(...): sleep(0.1) *)
| SetCmd (p : azel)            (* self.rotor_cmd_location = p *)
| TaskStart (t : task_ctor)
| TaskTerminate (t : task_ctor)
| CalibrateRun                 (* RadioCalibrateTask(...).start(); join(30) *)
| ProcessStart                 (* self.radio_process_task.start() *)
| ProcessTerminate.            (* self.radio_process_task.terminate() *)

Record Config : Type := {
  stow_location : azel;
  cal_location : azel;
  radio_num_bins : nat;
  radio_cf : float;
  radio_sf : float;
  radio_integ_cycles : Z;
  radio_autostart : bool;
  beamwidth : float;
  temp_sys : float;
  temp_cal : float;
  save_dir : string
}.

(** The motor driver of [rotor_control.rotors]: its bounds check. *)
Record Rotor : Type := { angles_within_bounds : float -> float -> bool }.

Record Daemon : Type := {
  cal_values : list float;
  cal_power : float;
  ephemeris_locations : gmap string azel;
  ephemeris_cmd_location : option string;
  rotor_location : azel;
  rotor_destination : azel;
  rotor_offsets : azel;
  rotor_cmd_location : azel;
  radio_center_frequency : float;
  radio_sample_frequency : float;
  radio_queue : list (string * value);
  radio_save_raw_task : option task;
  radio_save_spec_task : option task;
  current_queue_item : string;
  command_error_logs : list logged;
  calibration_json : file;
  clock : Z;                 (* time(), in microseconds since the epoch *)
  trace : list event
}.

Definition set_cal_values v (d : Daemon) : Daemon :=
  {| cal_values := v; cal_power := cal_power d;
     ephemeris_locations := ephemeris_locations d;
     ephemeris_cmd_location := ephemeris_cmd_location d;
     rotor_location := rotor_location d; rotor_destination := rotor_destination d;
     rotor_offsets := rotor_offsets d; rotor_cmd_location := rotor_cmd_location d;
     radio_center_frequency := radio_center_frequency d;
     radio_sample_frequency := radio_sample_frequency d;
     radio_queue := radio_queue d; radio_save_raw_task := radio_save_raw_task d;
     radio_save_spec_task := radio_save_spec_task d;
     current_queue_item := current_queue_item d;
     command_error_logs := command_error_logs d;
     calibration_json := calibration_json d; clock := clock d; trace := trace d |}.

Definition set_cal_power v (d : Daemon) : Daemon :=
  {| cal_values := cal_values d; cal_power := v;
     ephemeris_locations := ephemeris_locations d;
     ephemeris_cmd_location := ephemeris_cmd_location d;
     rotor_location := rotor_location d; rotor_destination := rotor_destination d;
     rotor_offsets := rotor_offsets d; rotor_cmd_location := rotor_cmd_location d;
     radio_center_frequency := radio_center_frequency d;
     radio_sample_frequency := radio_sample_frequency d;
     radio_queue := radio_queue d; radio_save_raw_task := radio_save_raw_task d;
     radio_save_spec_task := radio_save_spec_task d;
     current_queue_item := current_queue_item d;
     command_error_logs := command_error_logs d;
     calibration_json := calibration_json d; clock := clock d; trace := trace d |}.

Definition set_ephemeris_locations v (d : Daemon) : Daemon :=
  {| cal_values := cal_values d; cal_power := cal_power d; ephemeris_locations := v;
     ephemeris_cmd_location := ephemeris_cmd_location d; rotor_location :=
     rotor_location d; rotor_destination := rotor_destination d; rotor_offsets :=
     rotor_offsets d; rotor_cmd_location := rotor_cmd_location d;
     radio_center_frequency := radio_center_frequency d; radio_sample_frequency :=
     radio_sample_frequency d; radio_queue := radio_queue d; radio_save_raw_task :=
     radio_save_raw_task d; radio_save_spec_task := radio_save_spec_task d;
     current_queue_item := current_queue_item d; command_error_logs :=
     command_error_logs d; calibration_json := calibration_json d; clock := clock d;
     trace := trace d |}.

Definition set_ephemeris_cmd_location v (d : Daemon) : Daemon :=
  {| cal_values := cal_values d; cal_power := cal_power d; ephemeris_locations :=
     ephemeris_locations d; ephemeris_cmd_location := v; rotor_location :=
     rotor_location d; rotor_destination := rotor_destination d; rotor_offsets :=
     rotor_offsets d; rotor_cmd_location := rotor_cmd_location d;
     radio_center_frequency := radio_center_frequency d; radio_sample_frequency :=
     radio_sample_frequency d; radio_queue := radio_queue d; radio_save_raw_task :=
     radio_save_raw_task d; radio_save_spec_task := radio_save_spec_task d;
     current_queue_item := current_queue_item d; command_error_logs :=
     command_error_logs d; calibration_json := calibration_json d; clock := clock d;
     trace := trace d |}.

Definition set_rotor_location v (d : Daemon) : Daemon :=
  {| cal_values := cal_values d; cal_power := cal_power d; ephemeris_locations :=
     ephemeris_locations d; ephemeris_cmd_location := ephemeris_cmd_location d;
     rotor_location := v; rotor_destination := rotor_destination d; rotor_offsets :=
     rotor_offsets d; rotor_cmd_location := rotor_cmd_location d;
     radio_center_frequency := radio_center_frequency d; radio_sample_frequency :=
     radio_sample_frequency d; radio_queue := radio_queue d; radio_save_raw_task :=
     radio_save_raw_task d; radio_save_spec_task := radio_save_spec_task d;
     current_queue_item := current_queue_item d; command_error_logs :=
     command_error_logs d; calibration_json := calibration_json d; clock := clock d;
     trace := trace d |}.

Definition set_rotor_destination v (d : Daemon) : Daemon :=
  {| cal_values := cal_values d; cal_power := cal_power d; ephemeris_locations :=
     ephemeris_locations d; ephemeris_cmd_location := ephemeris_cmd_location d;
     rotor_location := rotor_location d; rotor_destination := v; rotor_offsets :=
     rotor_offsets d; rotor_cmd_location := rotor_cmd_location d;
     radio_center_frequency := radio_center_frequency d; radio_sample_frequency :=
     radio_sample_frequency d; radio_queue := radio_queue d; radio_save_raw_task :=
     radio_save_raw_task d; radio_save_spec_task := radio_save_spec_task d;
     current_queue_item := current_queue_item d; command_error_logs :=
     command_error_logs d; calibration_json := calibration_json d; clock := clock d;
     trace := trace d |}.

Definition set_rotor_offsets v (d : Daemon) : Daemon :=
  {| cal_values := cal_values d; cal_power := cal_power d; ephemeris_locations :=
     ephemeris_locations d; ephemeris_cmd_location := ephemeris_cmd_location d;
     rotor_location := rotor_location d; rotor_destination := rotor_destination d;
     rotor_offsets := v; rotor_cmd_location := rotor_cmd_location d;
     radio_center_frequency := radio_center_frequency d; radio_sample_frequency :=
     radio_sample_frequency d; radio_queue := radio_queue d; radio_save_raw_task :=
     radio_save_raw_task d; radio_save_spec_task := radio_save_spec_task d;
     current_queue_item := current_queue_item d; command_error_logs :=
     command_error_logs d; calibration_json := calibration_json d; clock := clock d;
     trace := trace d |}.

Definition set_rotor_cmd_location v (d : Daemon) : Daemon :=
  {| cal_values := cal_values d; cal_power := cal_power d; ephemeris_locations :=
     ephemeris_locations d; ephemeris_cmd_location := ephemeris_cmd_location d;
     rotor_location := rotor_location d; rotor_destination := rotor_destination d;
     rotor_offsets := rotor_offsets d; rotor_cmd_location := v;
     radio_center_frequency := radio_center_frequency d; radio_sample_frequency :=
     radio_sample_frequency d; radio_queue := radio_queue d; radio_save_raw_task :=
     radio_save_raw_task d; radio_save_spec_task := radio_save_spec_task d;
     current_queue_item := current_queue_item d; command_error_logs :=
     command_error_logs d; calibration_json := calibration_json d; clock := clock d;
     trace := trace d |}.

Definition set_radio_center_frequency v (d : Daemon) : Daemon :=
  {| cal_values := cal_values d; cal_power := cal_power d; ephemeris_locations :=
     ephemeris_locations d; ephemeris_cmd_location := ephemeris_cmd_location d;
     rotor_location := rotor_location d; rotor_destination := rotor_destination d;
     rotor_offsets := rotor_offsets d; rotor_cmd_location := rotor_cmd_location d;
     radio_center_frequency := v; radio_sample_frequency := radio_sample_frequency
     d; radio_queue := radio_queue d; radio_save_raw_task := radio_save_raw_task d;
     radio_save_spec_task := radio_save_spec_task d; current_queue_item :=
     current_queue_item d; command_error_logs := command_error_logs d;
     calibration_json := calibration_json d; clock := clock d; trace := trace d |}.

Definition set_radio_sample_frequency v (d : Daemon) : Daemon :=
  {| cal_values := cal_values d; cal_power := cal_power d; ephemeris_locations :=
     ephemeris_locations d; ephemeris_cmd_location := ephemeris_cmd_location d;
     rotor_location := rotor_location d; rotor_destination := rotor_destination d;
     rotor_offsets := rotor_offsets d; rotor_cmd_location := rotor_cmd_location d;
     radio_center_frequency := radio_center_frequency d; radio_sample_frequency :=
     v; radio_queue := radio_queue d; radio_save_raw_task := radio_save_raw_task d;
     radio_save_spec_task := radio_save_spec_task d; current_queue_item :=
     current_queue_item d; command_error_logs := command_error_logs d;
     calibration_json := calibration_json d; clock := clock d; trace := trace d |}.

Definition set_radio_queue v (d : Daemon) : Daemon :=
  {| cal_values := cal_values d; cal_power := cal_power d; ephemeris_locations :=
     ephemeris_locations d; ephemeris_cmd_location := ephemeris_cmd_location d;
     rotor_location := rotor_location d; rotor_destination := rotor_destination d;
     rotor_offsets := rotor_offsets d; rotor_cmd_location := rotor_cmd_location d;
     radio_center_frequency := radio_center_frequency d; radio_sample_frequency :=
     radio_sample_frequency d; radio_queue := v; radio_save_raw_task :=
     radio_save_raw_task d; radio_save_spec_task := radio_save_spec_task d;
     current_queue_item := current_queue_item d; command_error_logs :=
     command_error_logs d; calibration_json := calibration_json d; clock := clock d;
     trace := trace d |}.

Definition set_radio_save_raw_task v (d : Daemon) : Daemon :=
  {| cal_values := cal_values d; cal_power := cal_power d; ephemeris_locations :=
     ephemeris_locations d; ephemeris_cmd_location := ephemeris_cmd_location d;
     rotor_location := rotor_location d; rotor_destination := rotor_destination d;
     rotor_offsets := rotor_offsets d; rotor_cmd_location := rotor_cmd_location d;
     radio_center_frequency := radio_center_frequency d; radio_sample_frequency :=
     radio_sample_frequency d; radio_queue := radio_queue d; radio_save_raw_task :=
     v; radio_save_spec_task := radio_save_spec_task d; current_queue_item :=
     current_queue_item d; command_error_logs := command_error_logs d;
     calibration_json := calibration_json d; clock := clock d; trace := trace d |}.

Definition set_radio_save_spec_task v (d : Daemon) : Daemon :=
  {| cal_values := cal_values d; cal_power := cal_power d; ephemeris_locations :=
     ephemeris_locations d; ephemeris_cmd_location := ephemeris_cmd_location d;
     rotor_location := rotor_location d; rotor_destination := rotor_destination d;
     rotor_offsets := rotor_offsets d; rotor_cmd_location := rotor_cmd_location d;
     radio_center_frequency := radio_center_frequency d; radio_sample_frequency :=
     radio_sample_frequency d; radio_queue := radio_queue d; radio_save_raw_task :=
     radio_save_raw_task d; radio_save_spec_task := v; current_queue_item :=
     current_queue_item d; command_error_logs := command_error_logs d;
     calibration_json := calibration_json d; clock := clock d; trace := trace d |}.

Definition set_current_queue_item v (d : Daemon) : Daemon :=
  {| cal_values := cal_values d; cal_power := cal_power d; ephemeris_locations :=
     ephemeris_locations d; ephemeris_cmd_location := ephemeris_cmd_location d;
     rotor_location := rotor_location d; rotor_destination := rotor_destination d;
     rotor_offsets := rotor_offsets d; rotor_cmd_location := rotor_cmd_location d;
     radio_center_frequency := radio_center_frequency d; radio_sample_frequency :=
     radio_sample_frequency d; radio_queue := radio_queue d; radio_save_raw_task :=
     radio_save_raw_task d; radio_save_spec_task := radio_save_spec_task d;
     current_queue_item := v; command_error_logs := command_error_logs d;
     calibration_json := calibration_json d; clock := clock d; trace := trace d |}.

Definition set_command_error_logs v (d : Daemon) : Daemon :=
  {| cal_values := cal_values d; cal_power := cal_power d; ephemeris_locations :=
     ephemeris_locations d; ephemeris_cmd_location := ephemeris_cmd_location d;
     rotor_location := rotor_location d; rotor_destination := rotor_destination d;
     rotor_offsets := rotor_offsets d; rotor_cmd_location := rotor_cmd_location d;
     radio_center_frequency := radio_center_frequency d; radio_sample_frequency :=
     radio_sample_frequency d; radio_queue := radio_queue d; radio_save_raw_task :=
     radio_save_raw_task d; radio_save_spec_task := radio_save_spec_task d;
     current_queue_item := current_queue_item d; command_error_logs := v;
     calibration_json := calibration_json d; clock := clock d; trace := trace d |}.

Definition set_calibration_json v (d : Daemon) : Daemon :=
  {| cal_values := cal_values d; cal_power := cal_power d; ephemeris_locations :=
     ephemeris_locations d; ephemeris_cmd_location := ephemeris_cmd_location d;
     rotor_location := rotor_location d; rotor_destination := rotor_destination d;
     rotor_offsets := rotor_offsets d; rotor_cmd_location := rotor_cmd_location d;
     radio_center_frequency := radio_center_frequency d; radio_sample_frequency :=
     radio_sample_frequency d; radio_queue := radio_queue d; radio_save_raw_task :=
     radio_save_raw_task d; radio_save_spec_task := radio_save_spec_task d;
     current_queue_item := current_queue_item d; command_error_logs :=
     command_error_logs d; calibration_json := v; clock := clock d; trace := trace d
     |}.

Definition set_trace v (d : Daemon) : Daemon :=
  {| cal_values := cal_values d; cal_power := cal_power d; ephemeris_locations :=
     ephemeris_locations d; ephemeris_cmd_location := ephemeris_cmd_location d;
     rotor_location := rotor_location d; rotor_destination := rotor_destination d;
     rotor_offsets := rotor_offsets d; rotor_cmd_location := rotor_cmd_location d;
     radio_center_frequency := radio_center_frequency d; radio_sample_frequency :=
     radio_sample_frequency d; radio_queue := radio_queue d; radio_save_raw_task :=
     radio_save_raw_task d; radio_save_spec_task := radio_save_spec_task d;
     current_queue_item := current_queue_item d; command_error_logs :=
     command_error_logs d; calibration_json := calibration_json d; clock := clock d;
     trace := v |}.

(** ** The monad of methods *)

Inductive result (A : Type) : Type :=
| Val (a : A)
| Raise (e : exn).
Arguments Val {A} a.
Arguments Raise {A} e.

Definition M (A : Type) : Type := Daemon -> result A * Daemon.

Definition ret {A} (a : A) : M A := fun d => (Val a, d).

Definition bind {A B} (m : M A) (k : A -> M B) : M B :=
  fun d => match m d with
           | (Val a, d') => k a d'
           | (Raise e, d') => (Raise e, d')
           end.

Definition raise {A} (e : exn) : M A := fun d => (Raise e, d).

(** [self.x] *)
Definition gets {A} (field : Daemon -> A) : M A := fun d => (Val (field d), d).

(** [self.x = v], through one of the setters above. *)
Definition modify (f : Daemon -> Daemon) : M unit := fun d => (Val tt, f d).

(** [try: m  except <classes>: handler] *)
Definition try_except {A} (m : M A) (caught : exn -> bool) (handler : exn -> M A) : M A :=
  fun d => match m d with
           | (Val a, d') => (Val a, d')
           | (Raise e, d') => if caught e then handler e d' else (Raise e, d')
           end.

Declare Scope daemon_scope.
Delimit Scope daemon_scope with daemon.
Notation "x <- m ;; k" := (bind m (fun x => k))
  (at level 100, m at next level, right associativity) : daemon_scope.
Notation "m ;; k" := (bind m (fun _ => k))
  (at level 100, right associativity) : daemon_scope.
Local Open Scope daemon_scope.

(** [for x in xs: body(x)] *)
Fixpoint for_each {A} (xs : list A) (body : A -> M unit) : M unit :=
  match xs with
  | [] => ret tt
  | x :: xs' => body x ;; for_each xs' body
  end.

(** [float(n)] for a Python int. *)
Definition float_of_Z (n : Z) : float :=
  if n <? 0 then (- PrimFloat.of_uint63 (Uint63.of_Z (- n)))%float
  else PrimFloat.of_uint63 (Uint63.of_Z n).

(** [np.pi] *)
Definition np_pi : float := 0x1.921fb54442d18p+1%float.

Definition emit (e : event) : M unit := modify (fun d => set_trace (trace d ++ [e]) d).

(** [a / b] for two Python ints, [b] positive: the quotient, rounded to the
    nearest float. *)
Definition int_truediv (a b : Z) : float :=
  match a, b with
  | Z0, Zpos _ => 0%float
  | Zpos m, Zpos n =>
      SF2Prim (SFdiv prec emax (S754_finite false m 0) (S754_finite false n 0))
  | Zneg m, Zpos n =>
      SF2Prim (SFdiv prec emax (S754_finite true m 0) (S754_finite false n 0))
  | _, _ => nan
  end.

(** [timedelta.total_seconds()], for a [timedelta] of [us] microseconds. *)
Definition total_seconds (us : Z) : float := int_truediv us (10 ^ 6).

(** The float that [sleep] is called with. *)
Definition seconds_of (t : duration) : float :=
  match t with
  | Seconds s => s
  | Micros us => total_seconds us
  end.

(** [time.sleep(t)], as CPython 3.11 converts its argument: a not-a-number
    is a [ValueError]; the seconds are multiplied by 10^9, and a product
    outside of [-2^63, 2^63] is an [OverflowError]; then a negative time is
    a [ValueError], as is the product 2^63 itself, which the conversion to
    the 64-bit count of nanoseconds wraps to the least one.  What the
    operating system does with a time that its clock cannot hold is not
    part of the embedding: the properties of a sleep of a time read from a
    line are stated for less than 2^62 ns. *)
Definition sleep (t : duration) : M unit :=
  let secs := seconds_of t in
  let ns := (secs * 1e9)%float in
  if PrimFloat.is_nan secs then raise ValueError
  else if (ns <? -0x1p+63)%float || (0x1p+63 <? ns)%float then raise OverflowError
  else if (secs <? 0)%float || (ns =? 0x1p+63)%float then raise ValueError
  else emit (Sleep t).

(** [self.radio_queue.put((name, v))] *)
Definition radio_put (name : string) (v : value) : M unit :=
  modify (fun d => set_radio_queue (radio_queue d ++ [(name, v)]) d).

(** [self.rotor_cmd_location = p] *)
Definition assign_rotor_cmd_location (p : azel) : M unit :=
  modify (set_rotor_cmd_location p) ;; emit (SetCmd p).

(** [while not azel_within_range(self.rotor_location, self.rotor_cmd_location):
    sleep(0.1)]: the wait for the rotor thread to bring the antenna to the
    commanded position.  The command thread writes nothing in this loop; the
    event marks the place, and what follows it is what the code does once the
    wait has ended. *)
Definition await_arrival : M unit :=
  target <- gets rotor_cmd_location ;; emit (Await target).

(** [self.ephemeris_locations[object_id]] *)
Definition locate (object_id : string) : M azel :=
  table <- gets ephemeris_locations ;;
  match table !! object_id with
  | Some p => ret p
  | None => raise KeyError
  end.

(** [parts[i]] *)
Definition item (parts : list string) (i : nat) : M string :=
  match nth_error parts i with
  | Some s => ret s
  | None => raise IndexError
  end.

(** ** The methods of [SmallRadioTelescopeDaemon] *)

Section Daemon.

Variable cfg : Config.
Variable rotor : Rotor.
(** [np.cos] *)
Variable np_cos : float -> float.
(** The builtin [float(s)]; [None] is its [ValueError]. *)
Variable py_float : string -> option float.
(** What a run of [RadioCalibrateTask] leaves in [calibration.json]. *)
Variable radio_calibrate : file -> file.
(** What a call to the XML-RPC server of the signal processing raises, if it
    raises. *)
Variable rpc_server : string * value -> option exn.
(** What [self.radio_process_task.start()] raises, if it raises. *)
Variable radio_process_start : option exn.

Definition within (p : azel) : bool := angles_within_bounds rotor p.1 p.2.

Definition log_message (message : logged) : M unit :=
  modify (fun d => set_command_error_logs (command_error_logs d ++ [message]) d).

Definition point_at_offset (az_off el_off : float) : M unit :=
  let new_rotor_offsets := (az_off, el_off) in
  rotor_destination_ <- gets rotor_destination ;;
  let new_rotor_cmd_location := azel_add rotor_destination_ new_rotor_offsets in
  if within new_rotor_cmd_location then
    modify (set_rotor_offsets new_rotor_offsets) ;;
    assign_rotor_cmd_location new_rotor_cmd_location ;;
    await_arrival
  else
    log_message (OffsetOutOfBounds new_rotor_offsets).

(** One round of the loop of [n_point_scan]. *)
Definition n_point_scan_round (object_id : string) (scan : nat) : M unit :=
  new_rotor_destination <- locate object_id ;;
  let i := Z.of_nat scan / 5 - 2 in
  let j := Z.of_nat scan mod 5 - 2 in
  let el_dif := (float_of_Z i * beamwidth cfg * 0.5)%float in
  let az_dif_scalar := np_cos ((new_rotor_destination.2 + el_dif) * np_pi / 180.0)%float in
  let az_dif := (float_of_Z j * beamwidth cfg * 0.5 / az_dif_scalar)%float in
  let new_rotor_offsets := (az_dif, el_dif) in
  (if within new_rotor_destination then
     modify (set_rotor_destination new_rotor_destination) ;;
     point_at_offset new_rotor_offsets.1 new_rotor_offsets.2
   else ret tt) ;;
  sleep (Seconds 5).

Definition n_point_scan (object_id : string) : M unit :=
  modify (set_ephemeris_cmd_location None) ;;
  radio_put "soutrack" (VStr object_id) ;;
  for_each (seq 0 25) (n_point_scan_round object_id) ;;
  modify (set_rotor_offsets (0.0, 0.0)%float) ;;
  modify (set_ephemeris_cmd_location (Some object_id)).

(** One round of the loop of [beam_switch]. *)
Definition beam_switch_round (new_rotor_destination : azel) (j : nat) : M unit :=
  radio_put "beam_switch" (VInt (Z.of_nat j + 1)) ;;
  let az_dif_scalar := np_cos (new_rotor_destination.2 * np_pi / 180.0)%float in
  let az_dif := (float_of_Z (Z.of_nat j mod 3 - 1) * beamwidth cfg / az_dif_scalar)%float in
  let new_rotor_offsets := (az_dif, 0%float) in   (* the int 0, as a float *)
  (if within new_rotor_destination then
     modify (set_rotor_destination new_rotor_destination) ;;
     point_at_offset new_rotor_offsets.1 new_rotor_offsets.2
   else ret tt) ;;
  sleep (Seconds 5).

Definition beam_switch (object_id : string) : M unit :=
  modify (set_ephemeris_cmd_location None) ;;
  radio_put "soutrack" (VStr object_id) ;;
  new_rotor_destination <- locate object_id ;;
  for_each (seq 0 3) (beam_switch_round new_rotor_destination) ;;
  modify (set_rotor_offsets (0.0, 0.0)%float) ;;
  radio_put "beam_switch" (VInt 0) ;;
  modify (set_ephemeris_cmd_location (Some object_id)).

Definition point_at_object (object_id : string) : M unit :=
  modify (set_rotor_offsets (0.0, 0.0)%float) ;;
  radio_put "soutrack" (VStr object_id) ;;
  new_rotor_cmd_location <- locate object_id ;;
  if within new_rotor_cmd_location then
    modify (set_ephemeris_cmd_location (Some object_id)) ;;
    modify (set_rotor_destination new_rotor_cmd_location) ;;
    assign_rotor_cmd_location new_rotor_cmd_location ;;
    await_arrival
  else
    log_message (Text ("Object " +:+ object_id +:+ " Not in Motor Bounds")) ;;
    modify (set_ephemeris_cmd_location None).

Definition point_at_azel (az el : float) : M unit :=
  modify (set_ephemeris_cmd_location None) ;;
  modify (set_rotor_offsets (0.0, 0.0)%float) ;;
  radio_put "soutrack" (VAzelLabel az el) ;;
  let new_rotor_destination := (az, el) in
  let new_rotor_cmd_location := new_rotor_destination in
  if within new_rotor_cmd_location then
    modify (set_rotor_destination new_rotor_destination) ;;
    assign_rotor_cmd_location new_rotor_cmd_location ;;
    await_arrival
  else
    log_message (ObjectAtNotInBounds new_rotor_cmd_location).

Definition stow : M unit :=
  modify (set_ephemeris_cmd_location None) ;;
  radio_put "soutrack" (VStr "at_stow") ;;
  modify (set_rotor_offsets (0.0, 0.0)%float) ;;
  modify (set_rotor_destination (stow_location cfg)) ;;
  assign_rotor_cmd_location (stow_location cfg) ;;
  await_arrival.

Definition calibrate : M unit :=
  emit CalibrateRun ;;
  modify (fun d => set_calibration_json (radio_calibrate (calibration_json d)) d) ;;
  input_file <- gets calibration_json ;;
  match input_file with
  | NoFile => raise FileNotFoundError
  | NotJson => raise JSONDecodeError
  | Json cal_values_key cal_pwr_key =>
      (match cal_values_key with
       | Some v => modify (set_cal_values v)
       | None => raise KeyError
       end) ;;
      (match cal_pwr_key with
       | Some v => modify (set_cal_power v)
       | None => raise KeyError
       end) ;;
      cal_power_ <- gets cal_power ;;
      radio_put "cal_pwr" (VFloat cal_power_) ;;
      cal_values_ <- gets cal_values ;;
      radio_put "cal_values" (VFloats cal_values_) ;;
      log_message (Text "Calibration Done")
  end.

Definition start_recording (name : option string) : M unit :=
  raw <- gets radio_save_raw_task ;;
  spec <- gets radio_save_spec_task ;;
  match raw, spec with
  | None, None =>
      radio_sample_frequency_ <- gets radio_sample_frequency ;;
      if match name with None => true | Some n => negb (Py.endswith ".rad" n) end then
        let call := RadioSaveRawTask radio_sample_frequency_ (save_dir cfg) name in
        modify (set_radio_save_raw_task (Some {| task_call := call; task_state := Created |})) ;;
        modify (set_radio_save_raw_task (Some {| task_call := call; task_state := Started |})) ;;
        emit (TaskStart call)
      else
        let name := match name with
                    | Some n => if String.eqb n "*.rad" then None else name
                    | None => name
                    end in
        let call := RadioSaveSpecRadTask radio_sample_frequency_ (radio_num_bins cfg)
                      (save_dir cfg) name in
        modify (set_radio_save_spec_task (Some {| task_call := call; task_state := Created |}))
  | _, _ => log_message (Text "Cannot Start Recording - Already Recording")
  end.

(** [task.terminate()] on the task held in an attribute. *)
Definition terminate (t : task) : task :=
  {| task_call := task_call t; task_state := Terminated |}.

Definition stop_recording : M unit :=
  raw <- gets radio_save_raw_task ;;
  (match raw with
   | Some t =>
       modify (set_radio_save_raw_task (Some (terminate t))) ;;
       emit (TaskTerminate (task_call t)) ;;
       modify (set_radio_save_raw_task None)
   | None => ret tt
   end) ;;
  spec <- gets radio_save_spec_task ;;
  match spec with
  | Some t =>
      modify (set_radio_save_spec_task (Some (terminate t))) ;;
      emit (TaskTerminate (task_call t)) ;;
      modify (set_radio_save_spec_task None)
  | None => ret tt
  end.

Definition set_freq (frequency : float) : M unit :=
  modify (set_radio_center_frequency frequency) ;;
  radio_center_frequency_ <- gets radio_center_frequency ;;
  radio_put "freq" (VFloat radio_center_frequency_).

Definition set_samp_rate (samp_rate : float) : M unit :=
  raw <- gets radio_save_raw_task ;;
  (match raw with
   | Some t =>
       modify (set_radio_save_raw_task (Some (terminate t))) ;;
       emit (TaskTerminate (task_call t))
   | None => ret tt
   end) ;;
  modify (set_radio_sample_frequency samp_rate) ;;
  radio_sample_frequency_ <- gets radio_sample_frequency ;;
  radio_put "samp_rate" (VFloat radio_sample_frequency_).

(** [keep_running] is a local variable of the method. *)
Definition quit : M unit :=
  let keep_running := false in
  radio_put "is_running" (VBool keep_running).

(** One round of [update_ephemeris_location], after the tracker has been
    refreshed where due: [fresh] is what [get_all_azimuth_elevation()]
    returns. *)
Definition update_ephemeris_location_round (fresh : gmap string azel) : M unit :=
  modify (set_ephemeris_locations fresh) ;;
  tracked <- gets ephemeris_cmd_location ;;
  (match tracked with
   | Some object_id =>
       new_rotor_destination <- locate object_id ;;
       rotor_offsets_ <- gets rotor_offsets ;;
       let new_rotor_cmd_location := azel_add new_rotor_destination rotor_offsets_ in
       if within new_rotor_destination && within new_rotor_cmd_location then
         modify (set_rotor_destination new_rotor_destination) ;;
         assign_rotor_cmd_location new_rotor_cmd_location
       else
         log_message (Text ("Object " +:+ object_id +:+ " moved out of motor bounds")) ;;
         modify (set_ephemeris_cmd_location None)
   | None => ret tt
   end) ;;
  sleep (Seconds 1).

(** The call [getattr(rpc_server, f"set_{method}")(value)]. *)
Definition rpc_call : Type := string * value.

(** The head of a round of [update_radio_settings]:
    [method, value = self.radio_queue.get()] and the call that
    [getattr(rpc_server, f"set_{method}")] forms; [None] when the queue is
    empty and [get()] blocks. *)
Definition update_radio_settings_round (d : Daemon) : option (rpc_call * Daemon) :=
  match radio_queue d with
  | [] => None
  | (method, v) :: rest => Some (("set_" +:+ method, v), set_radio_queue rest d)
  end.

(** How the relay thread stands. *)
Inductive relay_state : Type :=
| RelayRunning (d : Daemon)              (* between two rounds *)
| RelayWaiting (d : Daemon)              (* in [radio_queue.get()], queue empty *)
| RelayDied (e : exn) (d : Daemon).      (* an exception left [update_radio_settings] *)

(** [update_radio_settings], for at most [rounds] rounds of its
    [while True:] take an entry, make the call, [sleep(0.1)].  Nothing in
    the loop handles what [call(value)] raises.  The result has the calls
    made, in their order. *)
Fixpoint update_radio_settings (rounds : nat) (d : Daemon) : list rpc_call * relay_state :=
  match rounds with
  | O => ([], RelayRunning d)
  | S fuel' =>
      match update_radio_settings_round d with
      | None => ([], RelayWaiting d)
      | Some (call, d') =>
          match rpc_server call with
          | Some e => ([call], RelayDied e d')
          | None =>
              match sleep (Seconds 0x1.999999999999ap-4) d' with
              | (Val _, d'') =>
                  let (calls, state) := update_radio_settings fuel' d'' in
                  (call :: calls, state)
              | (Raise e, d'') => ([call], RelayDied e d'')
              end
          end
      end
  end.

(** The loading of the calibration in [__init__]. *)
Definition init_calibration : M unit :=
  modify (set_cal_values (repeat 1.0%float (radio_num_bins cfg))) ;;
  (if (temp_sys cfg + temp_cal cfg =? 0)%float then raise ZeroDivisionError
   else modify (set_cal_power (1.0 / (temp_sys cfg + temp_cal cfg))%float)) ;;
  input_file <- gets calibration_json ;;
  match input_file with
  | NoFile => ret tt
  | NotJson => raise JSONDecodeError
  | Json cal_values_key cal_pwr_key =>
      try_except
        (match cal_values_key with
         | Some v =>
             if (length v =? radio_num_bins cfg)%nat then
               modify (set_cal_values v) ;;
               match cal_pwr_key with
               | Some p => modify (set_cal_power p)
               | None => raise KeyError
               end
             else ret tt
         | None => raise KeyError
         end)
        is_KeyError
        (fun _ => ret tt)
  end.

(** [__init__]: the state of a new daemon, given the calibration file, the
    table of the ephemeris tracker and the clock. *)
Definition init (input_file : file) (table : gmap string azel) (now : Z)
  : result unit * Daemon :=
  init_calibration
    {| cal_values := []; cal_power := 0%float;
       ephemeris_locations := table;
       ephemeris_cmd_location := None;
       rotor_location := stow_location cfg;
       rotor_destination := stow_location cfg;
       rotor_offsets := (0.0, 0.0)%float;
       rotor_cmd_location := azel_add (stow_location cfg) (0.0, 0.0)%float;
       radio_center_frequency := radio_cf cfg;
       radio_sample_frequency := radio_sf cfg;
       radio_queue := [];
       radio_save_raw_task := None;
       radio_save_spec_task := None;
       current_queue_item := "None";
       command_error_logs := [];
       calibration_json := input_file;
       clock := now;
       trace := [] |}.

(** One day, in microseconds. *)
Definition day_us : Z := 86400 * 1000000.

(** [while time_val < now: time_val += timedelta(days=1)] *)
Fixpoint roll_days (fuel : nat) (time_val now : Z) : Z :=
  match fuel with
  | O => time_val
  | S fuel' =>
      if time_val <? now then roll_days fuel' (time_val + day_us) now else time_val
  end.

Definition next_occurrence (time_val now : Z) : Z :=
  roll_days (Z.to_nat ((now - time_val) / day_us + 1)) time_val now.

(** [float(s)] *)
Definition to_float (s : string) : M float :=
  match py_float s with
  | Some x => ret x
  | None => raise ValueError
  end.

(** The branches of the command loop, from [command_parts = ...] on. *)
Definition dispatch (command : string) : M unit :=
  let command_parts := Py.split " " command in
  let first := hd EmptyString command_parts in
  let final := default EmptyString (Py.last_item command_parts) in
  let command_name := Py.lower first in
  table <- gets ephemeris_locations ;;
  if bool_decide (is_Some (table !! first)) then
    if String.eqb final "n" then n_point_scan first
    else if String.eqb final "b" then beam_switch first
    else point_at_object first
  else if String.eqb command_name "stow" then stow
  else if String.eqb command_name "cal" then
    point_at_azel (cal_location cfg).1 (cal_location cfg).2
  else if String.eqb command_name "calibrate" then calibrate
  else if String.eqb command_name "quit" then quit
  else if String.eqb command_name "record" then
    start_recording
      (if (length command_parts <=? 1)%nat then None else nth_error command_parts 1)
  else if String.eqb command_name "roff" then stop_recording
  else if String.eqb command_name "freq" then
    tok <- item command_parts 1 ;;
    x <- to_float tok ;;
    set_freq (x * float_of_Z (10 ^ 6))%float
  else if String.eqb command_name "samp" then
    tok <- item command_parts 1 ;;
    x <- to_float tok ;;
    set_samp_rate (x * float_of_Z (10 ^ 6))%float
  else if String.eqb command_name "azel" then
    tok1 <- item command_parts 1 ;;
    az <- to_float tok1 ;;
    tok2 <- item command_parts 2 ;;
    el <- to_float tok2 ;;
    point_at_azel az el
  else if String.eqb command_name "offset" then
    tok1 <- item command_parts 1 ;;
    az <- to_float tok1 ;;
    tok2 <- item command_parts 2 ;;
    el <- to_float tok2 ;;
    point_at_offset az el
  else if Py.isnumeric command_name then
    x <- to_float command_name ;;
    sleep (Seconds x)
  else if String.eqb command_name "wait" then
    tok <- item command_parts 1 ;;
    x <- to_float tok ;;
    sleep (Seconds x)
  else if String.eqb (hd EmptyString (Py.split ":" command_name)) "lst" then
    let time_string := Py.replace "LST:" "" command_name in
    match Py.strptime_HMS time_string with
    | None => raise ValueError
    | Some time_val =>
        now <- gets clock ;;
        let time_val := next_occurrence time_val now in
        let time_delta := time_val - now in
        sleep (Micros time_delta)
    end
  else if (length (Py.split ":" command_name) =? 5)%nat then
    match Py.strptime_YjHMS command_name with
    | None => raise ValueError
    | Some time_val =>
        now <- gets clock ;;
        let time_delta := time_val - now in
        sleep (Micros time_delta)
    end
  else
    log_message (Text ("Command Not Identified '" +:+ command +:+ "'")).

(** [command[0]] of a command that is not empty. *)
Definition first_char (command : string) : ascii :=
  match command with
  | String c _ => c
  | EmptyString => "000"%char
  end.

(** [elif command[0] == ":": command = command[1:].strip()] *)
Definition unprefixed (command : string) : string :=
  if Ascii.eqb (first_char command) ":" then Py.strip (Py.drop 1 command)
  else command.

(** The body of the [try] of the command loop, for the line [command] taken
    from [command_queue]. *)
Definition command_try (command : string) : M unit :=
  modify (set_current_queue_item "None") ;;
  log_message (Text ("Running Command '" +:+ command +:+ "'")) ;;
  modify (set_current_queue_item command) ;;
  if (String.length command <? 2)%nat || Ascii.eqb (first_char command) "*" then
    ret tt
  else
    dispatch (unprefixed command).

(** The classes of the three [except] clauses. *)
Definition handled (e : exn) : bool :=
  is_IndexError e || is_ValueError e || is_ConnectionRefusedError e.

(** One round of the command loop: the [try] and its handlers. *)
Definition command_round (command : string) : M unit :=
  try_except (command_try command) handled (fun e => log_message (ExnStr e)).

(** The settings sent to the signal processing before the loops start. *)
Definition send_settings : M unit :=
  d <- gets (fun d => d) ;;
  for_each
    [ ("Frequency", ("freq", VFloat (radio_center_frequency d)));
      ("Sample Rate", ("samp_rate", VFloat (radio_sample_frequency d)));
      ("Motor Azimuth", ("motor_az", VFloat (rotor_location d).1));
      ("Motor Elevation", ("motor_el", VFloat (rotor_location d).2));
      ("Object Tracking", ("soutrack", VStr "at_stow"));
      ("System Temp", ("tsys", VFloat (temp_sys cfg)));
      ("Calibration Temp", ("tcal", VFloat (temp_cal cfg)));
      ("Calibration Power", ("cal_pwr", VFloat (cal_power d)));
      ("Calibration Values", ("cal_values", VFloats (cal_values d)));
      ("Is Running", ("is_running", VBool true)) ]
    (fun '(name, (param, v)) =>
       log_message (Text ("Setting " +:+ name)) ;; radio_put param v).

(** What follows the command loop: "On End, Return to Stow and End
    Recordings". *)
Definition shutdown : M unit :=
  stow ;;
  stop_recording ;;
  if radio_autostart cfg then emit ProcessTerminate else ret tt.

(** How the command loop stands once the lines of [queue] are used up. *)
Inductive loop_state : Type :=
| Waiting (d : Daemon)           (* in [command_queue.get()], queue empty *)
| Ended (r : result unit) (d : Daemon)   (* loop left, [shutdown] run *)
| Died (e : exn) (d : Daemon).   (* an exception left [srt_daemon_main] *)

(** [while keep_running: ...] of [srt_daemon_main], then the shutdown.
    No statement of the loop body assigns [keep_running].  With no line
    left, the round has assigned ["None"] to [current_queue_item] and is in
    [command_queue.get()]. *)
Fixpoint command_loop (keep_running : bool) (queue : list string) (d : Daemon)
  : loop_state :=
  if keep_running then
    match queue with
    | [] => Waiting (set_current_queue_item "None" d)
    | command :: queue' =>
        match command_round command d with
        | (Val _, d') => command_loop keep_running queue' d'
        | (Raise e, d') => Died e d'
        end
    end
  else
    let (r, d') := shutdown d in Ended r d'.

(** [self.radio_process_task.start()] *)
Definition start_radio_process : M unit :=
  emit ProcessStart ;;
  match radio_process_start with
  | Some e => raise e
  | None => ret tt
  end.

Definition srt_daemon_main (queue : list string) (d : Daemon) : loop_state :=
  match ((if radio_autostart cfg then
            try_except start_radio_process is_RuntimeError
              (fun e => log_message (ExnStr e)) ;;
            sleep (Seconds 5)
          else ret tt) ;;
         send_settings) d with
  | (Val _, d') => let keep_running := true in command_loop keep_running queue d'
  | (Raise e, d') => Died e d'
  end.

End Daemon.

(** ** A station to run the methods on *)

Module Station.

(** Modelled from the spec: the bounds check of the motor driver
    ([Rotor.angles_within_bounds], in [rotor_control/rotors.py]), as the
    configured azimuth and elevation travel limits, both ends included. *)
Definition in_limits (limits : float * float) (angle : float) : bool :=
  (limits.1 <=? angle)%float && (angle <=? limits.2)%float.

Definition limits_rotor (az_limits el_limits : float * float) : Rotor :=
  {| angles_within_bounds := fun az el =>
       in_limits el_limits el && in_limits az_limits az |}.

(** A stand-in for [np.cos]: the Taylor polynomial of degree 8. *)
Definition cos_taylor (x : float) : float :=
  let x2 := (x * x)%float in
  (1 - x2 / 2 * (1 - x2 / 12 * (1 - x2 / 30 * (1 - x2 / 56))))%float.

(** A stand-in for the builtin [float]: digits, with an optional fraction. *)
Definition decimal_float (s : string) : option float :=
  match Py.split "." s with
  | [a] =>
      if Py.isnumeric a then Some (float_of_Z (Py.digits_value 0 a)) else None
  | [a; b] =>
      if Py.isnumeric a && Py.isnumeric b then
        Some (float_of_Z (Py.digits_value 0 a)
              + float_of_Z (Py.digits_value 0 b)
                / float_of_Z (10 ^ Z.of_nat (String.length b)))%float
      else None
  | _ => None
  end.

Definition cfg : Config :=
  {| stow_location := (0, 0)%float;
     cal_location := (180, 45)%float;
     radio_num_bins := 4;
     radio_cf := 1420000000%float;
     radio_sf := 2400000%float;
     radio_integ_cycles := 1000;
     radio_autostart := true;
     beamwidth := 5%float;
     temp_sys := 171%float;
     temp_cal := 290%float;
     save_dir := "~/Desktop/SRT-Saves" |}.

Definition rotor : Rotor := limits_rotor (0, 360)%float (0, 90)%float.

Definition table : gmap string azel :=
  <["Sun" := (180, 45)%float]> (<["Cas_A" := (358, 0)%float]>
    (<["Zenith" := (120, 88)%float]> (<["Below" := (90, -10)%float]> ∅))).

(** The daemon as [__init__] leaves it, with no calibration on disk, at
    23:59:59 UTC of 2020-01-01. *)
Definition fresh : Daemon := (init cfg NoFile table 1577923199000000).2.

(** The same station with its stow position below the elevation limits. *)
Definition low_stow_cfg : Config :=
  {| stow_location := (0, -5)%float;
     cal_location := cal_location cfg;
     radio_num_bins := radio_num_bins cfg;
     radio_cf := radio_cf cfg;
     radio_sf := radio_sf cfg;
     radio_integ_cycles := radio_integ_cycles cfg;
     radio_autostart := radio_autostart cfg;
     beamwidth := beamwidth cfg;
     temp_sys := temp_sys cfg;
     temp_cal := temp_cal cfg;
     save_dir := save_dir cfg |}.

(** The same station with temperatures whose sum is zero. *)
Definition cold_cfg : Config :=
  {| stow_location := stow_location cfg;
     cal_location := cal_location cfg;
     radio_num_bins := radio_num_bins cfg;
     radio_cf := radio_cf cfg;
     radio_sf := radio_sf cfg;
     radio_integ_cycles := radio_integ_cycles cfg;
     radio_autostart := radio_autostart cfg;
     beamwidth := beamwidth cfg;
     temp_sys := 0%float;
     temp_cal := 0%float;
     save_dir := save_dir cfg |}.

(** The daemon while it tracks the Sun. *)
Definition tracking_sun : Daemon := (point_at_object rotor "Sun" fresh).2.

End Station.

(** ** What the claims are stated with *)

(** The calibration document [{cal_values: ..., cal_pwr: ...}] as a file;
    [None] is no file. *)
Definition persisted (doc : option (list float * float)) : file :=
  match doc with
  | Some (values, power) => Json (Some values) (Some power)
  | None => NoFile
  end.

(** The neutral calibration profile. *)
Definition neutral_profile (cfg : Config) : list float * float :=
  (repeat 1.0%float (radio_num_bins cfg), (1.0 / (temp_sys cfg + temp_cal cfg))%float).

(** The state in which the daemon takes up the next command after the
    lines [queue], whatever became of them. *)
Definition after_commands (round : string -> M unit) (queue : list string) (d : Daemon)
  : Daemon :=
  fold_left (fun d command => (round command d).2) queue d.

(** The name that [dispatch] compares with its keywords, for a line of the
    command queue. *)
Definition command_name_of (command : string) : string :=
  Py.lower (hd EmptyString (Py.split " " (unprefixed command))).

(** A name that takes the raw branch of [start_recording]. *)
Definition raw_name (name : option string) : bool :=
  match name with
  | None => true
  | Some n => negb (Py.endswith ".rad" n)
  end.

(** A method keeps the relation [R] when every run of it, returning or
    raising, leaves a state related to the one it started from. *)
Definition keeps (R : Daemon -> Daemon -> Prop) {A} (m : M A) : Prop :=
  forall d, R d (m d).2.

(** An assignment of the commanded position is within the bounds. *)
Definition in_bounds_event (rotor : Rotor) (e : event) : Prop :=
  match e with
  | SetCmd p => within rotor p = true
  | _ => True
  end.

(** The trace has grown, by commanded positions within the bounds only. *)
Definition commands_within (rotor : Rotor) (d d' : Daemon) : Prop :=
  exists events, trace d' = trace d ++ events /\ Forall (in_bounds_event rotor) events.

(** A raw recorder task that was held is still held. *)
Definition recorder_held (d d' : Daemon) : Prop :=
  is_Some (radio_save_raw_task d) -> is_Some (radio_save_raw_task d').

(** The operations that assign the commanded position after a bounds
    check: the pointing methods but [stow], and the round of the ephemeris
    loop. *)
Inductive pointing : Type :=
| PointAtObject (object_id : string)
| PointAtAzel (az el : float)
| PointAtOffset (az_off el_off : float)
| NPointScan (object_id : string)
| BeamSwitch (object_id : string)
| EphemerisRound (fresh : gmap string azel).

Definition run_pointing (cfg : Config) (rotor : Rotor) (np_cos : float -> float)
    (op : pointing) : M unit :=
  match op with
  | PointAtObject object_id => point_at_object rotor object_id
  | PointAtAzel az el => point_at_azel rotor az el
  | PointAtOffset az_off el_off => point_at_offset rotor az_off el_off
  | NPointScan object_id => n_point_scan cfg rotor np_cos object_id
  | BeamSwitch object_id => beam_switch cfg rotor np_cos object_id
  | EphemerisRound fresh => update_ephemeris_location_round rotor fresh
  end.

(** The offsets of the cell [(i, j)] of the scan grid about an object at
    [p]: [i] half beamwidths in elevation, [j] half beamwidths in azimuth
    over the cosine of the elevation that comes of it. *)
Definition grid_offset (cfg : Config) (np_cos : float -> float) (p : azel) (i j : Z)
  : azel :=
  let el_dif := (float_of_Z i * beamwidth cfg * 0.5)%float in
  ((float_of_Z j * beamwidth cfg * 0.5 / np_cos ((p.2 + el_dif) * np_pi / 180.0))%float,
   el_dif).

(** The grid indices, row by row: [i] and [j] from -2 to 2. *)
Definition grid : list (Z * Z) :=
  flat_map (fun i => map (fun j => (i, j)) [-2; -1; 0; 1; 2]) [-2; -1; 0; 1; 2].

(** The offsets of leg [k] of the beam switch about an object at [p]: [k]
    beamwidths in azimuth over the cosine of the elevation. *)
Definition beam_offset (cfg : Config) (np_cos : float -> float) (p : azel) (k : Z)
  : azel :=
  ((float_of_Z k * beamwidth cfg / np_cos (p.2 * np_pi / 180.0))%float, 0%float).

(** What one cell or leg leaves in the trace and in the log, from the
    destination [p] with the offsets [off]: commanded and awaited when
    within the bounds, logged as rejected otherwise, and dwelt on for five
    seconds in both cases. *)
Definition visit (rotor : Rotor) (p off : azel) : list event :=
  (if within rotor (azel_add p off)
   then [SetCmd (azel_add p off); Await (azel_add p off)] else [])
  ++ [Sleep (Seconds 5)].

Definition rejection (rotor : Rotor) (p off : azel) : list logged :=
  if within rotor (azel_add p off) then [] else [OffsetOutOfBounds off].

(** ** What the further properties are stated with *)

(** The calls that the relay makes for the entries of a queue. *)
Definition calls_of (queue : list (string * value)) : list rpc_call :=
  map (fun entry => (("set_" +:+ entry.1)%string, entry.2)) queue.

(** The daemon as the relay thread has left it. *)
Definition relay_daemon (state : relay_state) : Daemon :=
  match state with
  | RelayRunning d | RelayWaiting d | RelayDied _ d => d
  end.

(** The sleep that ends a round of the relay. *)
Definition relay_pause : event := Sleep (Seconds 0x1.999999999999ap-4).

(** At most one of the two recorder attributes holds a task. *)
Definition one_recorder (d : Daemon) : Prop :=
  radio_save_raw_task d = None \/ radio_save_spec_task d = None.

Definition one_recorder_kept (d d' : Daemon) : Prop :=
  one_recorder d -> one_recorder d'.

(** The log, the radio queue and the trace have grown at their ends. *)
Definition only_appends (d d' : Daemon) : Prop :=
  (exists logs, command_error_logs d' = command_error_logs d ++ logs) /\
  (exists puts, radio_queue d' = radio_queue d ++ puts) /\
  (exists events, trace d' = trace d ++ events).

(** The table of objects is the same, and the tracked object is the one it
    was, or none, or one of [allowed]. *)
Definition tracks_only (allowed : string -> Prop) (d d' : Daemon) : Prop :=
  ephemeris_locations d' = ephemeris_locations d /\
  (ephemeris_cmd_location d' = ephemeris_cmd_location d \/
   ephemeris_cmd_location d' = None \/
   exists id, allowed id /\ ephemeris_cmd_location d' = Some id).

(** The tracked object, if any, is an object of the table. *)
Definition tracks_known (d : Daemon) : Prop :=
  forall id, ephemeris_cmd_location d = Some id -> is_Some (ephemeris_locations d !! id).

(** A method is mild when every exception that it raises is of a class
    that the command loop handles. *)
Definition mild {A} (m : M A) : Prop :=
  forall d, match (m d).1 with
            | Val _ => True
            | Raise e => handled e = true
            end.

(** A line whose name is not [calibrate], not [wait], not a number and not a
    time stamp of five fields. *)
Definition safe_line (line : string) : Prop :=
  command_name_of line <> "calibrate"%string /\
  command_name_of line <> "wait"%string /\
  Py.isnumeric (command_name_of line) = false /\
  length (Py.split ":" (command_name_of line)) <> 5%nat.

(** The events by which [stop_recording] ends the tasks held. *)
Definition terminations (d : Daemon) : list event :=
  match radio_save_raw_task d with
  | Some t => [TaskTerminate (task_call t)]
  | None => []
  end
  ++ match radio_save_spec_task d with
     | Some t => [TaskTerminate (task_call t)]
     | None => []
     end.

(** * Properties *)

(** ** Stowing *)

(** C10: in every state, [stow] returns with the destination and the
    commanded position set to the configured stow location, the offsets
    zeroed and the tracked object cleared, and it asks no rotor whether the
    stow location is within bounds: the commanded position is committed also
    where a rotor's bounds check rejects it. *)
Theorem stow_unconditional (cfg : Config) (rotor : Rotor) (d : Daemon) :
  let out := stow cfg d in
  out.1 = Val tt /\
  rotor_destination out.2 = stow_location cfg /\
  rotor_cmd_location out.2 = stow_location cfg /\
  rotor_offsets out.2 = (0.0, 0.0)%float /\
  ephemeris_cmd_location out.2 = None /\
  trace out.2 = trace d ++ [SetCmd (stow_location cfg); Await (stow_location cfg)] /\
  (within rotor (stow_location cfg) = false ->
   within rotor (rotor_cmd_location out.2) = false).
Proof.
  cbv zeta. unfold stow, assign_rotor_cmd_location, await_arrival, radio_put,
    emit, modify, gets, bind. cbn.
  rewrite <- app_assoc. cbn. repeat split; auto.
Qed.

(** ** Calibration at startup *)

(** With a sum of the two temperatures that is not zero, the neutral
    power is computed and the calibration file is looked at. *)
Lemma init_calibration_divides (cfg : Config) (d : Daemon) :
  (temp_sys cfg + temp_cal cfg =? 0)%float = false ->
  init_calibration cfg d =
    (input_file <- gets calibration_json ;;
     match input_file with
     | NoFile => ret tt
     | NotJson => raise JSONDecodeError
     | Json cal_values_key cal_pwr_key =>
         try_except
           (match cal_values_key with
            | Some v =>
                if (length v =? radio_num_bins cfg)%nat then
                  modify (set_cal_values v) ;;
                  match cal_pwr_key with
                  | Some p => modify (set_cal_power p)
                  | None => raise KeyError
                  end
                else ret tt
            | None => raise KeyError
            end)
           is_KeyError
           (fun _ => ret tt)
     end)
      (set_cal_power (1.0 / (temp_sys cfg + temp_cal cfg))%float
         (set_cal_values (repeat 1.0%float (radio_num_bins cfg)) d)).
Proof.
  intros Hsum. unfold init_calibration. unfold bind at 1 2. cbn [modify].
  rewrite Hsum. reflexivity.
Qed.

(** With a sum of zero, the division raises before the file is looked at. *)
Lemma init_calibration_zero (cfg : Config) (d : Daemon) :
  (temp_sys cfg + temp_cal cfg =? 0)%float = true ->
  init_calibration cfg d =
    (Raise ZeroDivisionError, set_cal_values (repeat 1.0%float (radio_num_bins cfg)) d).
Proof.
  intros Hsum. unfold init_calibration. unfold bind at 1 2. cbn [modify].
  rewrite Hsum. reflexivity.
Qed.

(** C8: at startup, with temperatures whose sum is not zero, a persisted
    calibration document whose [cal_values] has as many entries as the
    configured number of bins is loaded, values and power; with no
    document, or one of another length, the profile is the neutral one:
    every gain factor 1.0 and power 1/(Tsys+Tcal). *)
Theorem calibration_at_startup (cfg : Config) (table : gmap string azel) (now : Z)
    (doc : option (list float * float)) :
  (temp_sys cfg + temp_cal cfg =? 0)%float = false ->
  let out := init cfg (persisted doc) table now in
  out.1 = Val tt /\
  (cal_values out.2, cal_power out.2) =
    match doc with
    | Some (values, power) =>
        if (length values =? radio_num_bins cfg)%nat then (values, power)
        else neutral_profile cfg
    | None => neutral_profile cfg
    end.
Proof.
  intros Hsum. cbv zeta. unfold init. rewrite (init_calibration_divides cfg _ Hsum).
  destruct doc as [[values power]|].
  - unfold persisted, try_except, bind, modify, gets. cbn.
    destruct (length values =? radio_num_bins cfg)%nat; cbn; split; reflexivity.
  - cbn. split; reflexivity.
Qed.

Lemma calibration_at_startup_witness :
  let out := init Station.cfg (persisted (Some ([1; 2; 3; 4]%float, 2%float)))
               Station.table 0 in
  out.1 = Val tt /\
  (cal_values out.2, cal_power out.2) = ([1; 2; 3; 4]%float, 2%float).
Proof.
  exact (calibration_at_startup Station.cfg Station.table 0
           (Some ([1; 2; 3; 4]%float, 2%float)) eq_refl).
Defined.

(** X1: at startup, with temperatures whose sum is not zero, a document
    without the key [cal_pwr] leaves the loaded values next to the neutral
    power; one without [cal_values] leaves the neutral profile; a file that
    is not JSON makes [__init__] raise.  With temperatures whose sum is
    zero, [__init__] raises [ZeroDivisionError] whatever the file. *)
Lemma calibration_from_partial_documents (cfg zero : Config) (table : gmap string azel)
    (now : Z) (values : list float) (power : option float) (any : file) :
  (temp_sys cfg + temp_cal cfg =? 0)%float = false ->
  (temp_sys zero + temp_cal zero =? 0)%float = true ->
  let partial := init cfg (Json (Some values) None) table now in
  let keyless := init cfg (Json None power) table now in
  partial.1 = Val tt /\
  (cal_values partial.2, cal_power partial.2) =
    (if (length values =? radio_num_bins cfg)%nat then (values, (neutral_profile cfg).2)
     else neutral_profile cfg) /\
  keyless.1 = Val tt /\
  (cal_values keyless.2, cal_power keyless.2) = neutral_profile cfg /\
  (init cfg NotJson table now).1 = Raise JSONDecodeError /\
  (init zero any table now).1 = Raise ZeroDivisionError.
Proof.
  intros Hsum Hzero. cbv zeta. unfold init.
  rewrite !(init_calibration_divides cfg _ Hsum), (init_calibration_zero zero _ Hzero).
  unfold try_except, bind, modify, gets. cbn.
  destruct (length values =? radio_num_bins cfg)%nat; cbn; repeat split; reflexivity.
Qed.

Lemma calibration_from_partial_documents_witness :
  (cal_values (init Station.cfg (Json (Some [1; 2; 3; 4]%float) None) Station.table 0).2
   = [1; 2; 3; 4]%float) /\
  (init Station.cold_cfg NoFile Station.table 0).1 = Raise ZeroDivisionError.
Proof.
  pose proof (calibration_from_partial_documents Station.cfg Station.cold_cfg Station.table 0
                [1; 2; 3; 4]%float None NoFile eq_refl eq_refl) as H.
  cbv zeta in H. destruct H as (_ & Hpartial & _ & _ & _ & Hzero).
  split; [exact (f_equal fst Hpartial) | exact Hzero].
Defined.

(** ** Recording *)

Lemma start_recording_raw (cfg : Config) (name : option string) (d : Daemon) :
  radio_save_raw_task d = None ->
  radio_save_spec_task d = None ->
  raw_name name = true ->
  let call := RadioSaveRawTask (radio_sample_frequency d) (save_dir cfg) name in
  start_recording cfg name d =
    (Val tt,
     set_trace (trace d ++ [TaskStart call])
       (set_radio_save_raw_task (Some {| task_call := call; task_state := Started |})
          (set_radio_save_raw_task (Some {| task_call := call; task_state := Created |}) d))).
Proof.
  intros Hraw Hspec Hname. unfold start_recording, bind, gets.
  rewrite Hraw, Hspec. destruct name as [n|]; cbv beta iota.
  - unfold raw_name in Hname. rewrite Hname. reflexivity.
  - reflexivity.
Qed.

Lemma start_recording_spec (cfg : Config) (n : string) (d : Daemon) :
  radio_save_raw_task d = None ->
  radio_save_spec_task d = None ->
  Py.endswith ".rad" n = true ->
  let call := RadioSaveSpecRadTask (radio_sample_frequency d) (radio_num_bins cfg)
                (save_dir cfg) (if String.eqb n "*.rad" then None else Some n) in
  start_recording cfg (Some n) d =
    (Val tt, set_radio_save_spec_task (Some {| task_call := call; task_state := Created |}) d).
Proof.
  intros Hraw Hspec Hname. unfold start_recording, bind, gets.
  rewrite Hraw, Hspec. cbv beta iota. rewrite Hname. reflexivity.
Qed.

Lemma start_recording_refused (cfg : Config) (name : option string) (d : Daemon) :
  is_Some (radio_save_raw_task d) \/ is_Some (radio_save_spec_task d) ->
  start_recording cfg name d =
    (Val tt,
     set_command_error_logs
       (command_error_logs d ++ [Text "Cannot Start Recording - Already Recording"]) d).
Proof.
  intros [[t Ht] | [t Ht]]; unfold start_recording, bind, gets; rewrite Ht.
  - reflexivity.
  - destruct (radio_save_raw_task d); reflexivity.
Qed.

(** C7, as the code has it: with no recorder active, [record] with a name
    that ends in [.rad] builds the spectral-format recorder task and keeps
    it, with no name for [*.rad], but does not start it: the task stays as
    constructed and the trace gains no [TaskStart], while the handle now
    makes every later [record] be refused.  Any other name, or none, builds
    and starts the raw-format recorder task. *)
Theorem record_rad_not_started (cfg : Config) (n : string) (other : option string)
    (d : Daemon) :
  radio_save_raw_task d = None ->
  radio_save_spec_task d = None ->
  Py.endswith ".rad" n = true ->
  raw_name other = true ->
  let spec := (start_recording cfg (Some n) d).2 in
  let raw := (start_recording cfg other d).2 in
  radio_save_spec_task spec =
    Some {| task_call := RadioSaveSpecRadTask (radio_sample_frequency d) (radio_num_bins cfg)
                           (save_dir cfg) (if String.eqb n "*.rad" then None else Some n);
            task_state := Created |} /\
  radio_save_raw_task spec = None /\
  trace spec = trace d /\
  (forall again, (start_recording cfg again spec).2 =
     set_command_error_logs
       (command_error_logs spec ++ [Text "Cannot Start Recording - Already Recording"]) spec) /\
  radio_save_raw_task raw =
    Some {| task_call := RadioSaveRawTask (radio_sample_frequency d) (save_dir cfg) other;
            task_state := Started |} /\
  radio_save_spec_task raw = None /\
  trace raw =
    trace d ++ [TaskStart (RadioSaveRawTask (radio_sample_frequency d) (save_dir cfg) other)] /\
  (forall again, (start_recording cfg again raw).2 =
     set_command_error_logs
       (command_error_logs raw ++ [Text "Cannot Start Recording - Already Recording"]) raw).
Proof.
  intros Hraw Hspec Hn Hother. cbv zeta.
  rewrite (start_recording_spec cfg n d Hraw Hspec Hn).
  rewrite (start_recording_raw cfg other d Hraw Hspec Hother). cbv zeta.
  repeat match goal with |- _ /\ _ => split end; try reflexivity.
  - exact Hraw.
  - intros again. rewrite start_recording_refused; [reflexivity | right; cbn; eauto].
  - exact Hspec.
Qed.

Lemma record_rad_not_started_witness :
  let d := Station.fresh in
  radio_save_spec_task (start_recording Station.cfg (Some "test.rad") d).2 =
    Some {| task_call := RadioSaveSpecRadTask 2400000 4 "~/Desktop/SRT-Saves" (Some "test.rad");
            task_state := Created |} /\
  trace (start_recording Station.cfg (Some "test.rad") d).2 = [].
Proof.
  pose proof (record_rad_not_started Station.cfg "test.rad" (Some "test.raw") Station.fresh
                eq_refl eq_refl eq_refl eq_refl) as H.
  cbv zeta in H. destruct H as (H1 & _ & H3 & _).
  split; [exact H1 | exact H3].
Defined.

(** ** Relations kept by the methods *)

Section Keeps.

Context (R : relation Daemon) `{!PreOrder R}.

Lemma keeps_ret {A} (a : A) : keeps R (ret a).
Proof. intros d. reflexivity. Qed.

Lemma keeps_raise {A} (e : exn) : keeps R (@raise A e).
Proof. intros d. reflexivity. Qed.

Lemma keeps_gets {A} (field : Daemon -> A) : keeps R (gets field).
Proof. intros d. reflexivity. Qed.

Lemma keeps_modify (f : Daemon -> Daemon) : (forall d, R d (f d)) -> keeps R (modify f).
Proof. intros H d. apply H. Qed.

Lemma keeps_bind {A B} (m : M A) (k : A -> M B) :
  keeps R m -> (forall a, keeps R (k a)) -> keeps R (bind m k).
Proof.
  intros Hm Hk d. unfold bind. specialize (Hm d).
  destruct (m d) as [[a | e] d']; cbn in *.
  - etransitivity; [exact Hm | apply Hk].
  - exact Hm.
Qed.

Lemma keeps_try_except {A} (m : M A) caught (handler : exn -> M A) :
  keeps R m -> (forall e, keeps R (handler e)) -> keeps R (try_except m caught handler).
Proof.
  intros Hm Hh d. unfold try_except. specialize (Hm d).
  destruct (m d) as [[a | e] d']; cbn in *.
  - exact Hm.
  - destruct (caught e); [etransitivity; [exact Hm | apply Hh] | exact Hm].
Qed.

Lemma keeps_for_each {A} (xs : list A) (body : A -> M unit) :
  (forall x, keeps R (body x)) -> keeps R (for_each xs body).
Proof.
  intros Hbody. induction xs as [| x xs IH]; cbn [for_each].
  - apply keeps_ret.
  - apply keeps_bind; [apply Hbody | intros _; exact IH].
Qed.

Lemma keeps_locate (object_id : string) : keeps R (locate object_id).
Proof.
  unfold locate. apply keeps_bind; [apply keeps_gets | intros table].
  destruct (table !! object_id); [apply keeps_ret | apply keeps_raise].
Qed.

Lemma keeps_item (parts : list string) (i : nat) : keeps R (item parts i).
Proof. unfold item. destruct (nth_error parts i); [apply keeps_ret | apply keeps_raise]. Qed.

Lemma keeps_to_float (py_float : string -> option float) (s : string) :
  keeps R (to_float py_float s).
Proof. unfold to_float. destruct (py_float s); [apply keeps_ret | apply keeps_raise]. Qed.

End Keeps.

#[global] Instance commands_within_preorder (rotor : Rotor) : PreOrder (commands_within rotor).
Proof.
  split.
  - intros d. exists []. rewrite app_nil_r. auto.
  - intros a b c (e1 & H1 & F1) (e2 & H2 & F2). exists (e1 ++ e2).
    rewrite H2, H1, app_assoc. split; [reflexivity | apply Forall_app; auto].
Qed.

#[global] Instance recorder_held_preorder : PreOrder recorder_held.
Proof.
  split.
  - intros d H. exact H.
  - intros a b c Hab Hbc H. auto.
Qed.

(** The structure of a method, taken apart down to its assignments and
    calls. *)
Ltac keeps_step :=
  lazymatch goal with
  | |- keeps _ (bind _ _) => refine (keeps_bind _ _ _ _ _); [ | intros ? ]
  | |- keeps _ (ret _) => refine (keeps_ret _ _)
  | |- keeps _ (raise _) => refine (keeps_raise _ _)
  | |- keeps _ (gets _) => refine (keeps_gets _ _)
  | |- keeps _ (locate _) => refine (keeps_locate _ _)
  | |- keeps _ (item _ _) => refine (keeps_item _ _ _)
  | |- keeps _ (to_float _ _) => refine (keeps_to_float _ _ _)
  | |- keeps _ (try_except _ _ _) => refine (keeps_try_except _ _ _ _ _ _); [ | intros ? ]
  | |- keeps _ (for_each _ _) => refine (keeps_for_each _ _ _ _); intros ?
  | |- keeps _ (if ?b then _ else _) => destruct b eqn:?
  | |- keeps _ (match ?x with _ => _ end) => destruct x eqn:?
  | |- keeps _ ((fun _ => _) _) => cbv beta
  | |- keeps _ (let _ := _ in _) => cbv zeta
  end.

Lemma same_trace_within (rotor : Rotor) (f : Daemon -> Daemon) :
  (forall d, trace (f d) = trace d) -> keeps (commands_within rotor) (modify f).
Proof.
  intros H d. exists []. cbn. rewrite H, app_nil_r. auto.
Qed.

Lemma emit_within (rotor : Rotor) (e : event) :
  in_bounds_event rotor e -> keeps (commands_within rotor) (emit e).
Proof. intros H d. exists [e]. cbn. auto. Qed.

Lemma same_task_held (f : Daemon -> Daemon) :
  (forall d, radio_save_raw_task (f d) = radio_save_raw_task d) ->
  keeps recorder_held (modify f).
Proof. intros H d. unfold recorder_held. cbn. rewrite H. auto. Qed.

Lemma some_task_held (f : Daemon -> Daemon) :
  (forall d, is_Some (radio_save_raw_task (f d))) -> keeps recorder_held (modify f).
Proof. intros H d _. apply H. Qed.

Lemma sleep_held (t : duration) : keeps recorder_held (sleep t).
Proof.
  unfold sleep, emit. destruct t; repeat keeps_step;
    apply same_task_held; reflexivity.
Qed.

Create HintDb held discriminated.
#[export] Hint Resolve sleep_held : held.

Ltac held_leaf :=
  lazymatch goal with
  | |- keeps _ (modify _) =>
      first [ solve [apply same_task_held; intros; reflexivity]
            | solve [apply some_task_held; intros; cbn; eauto] ]
  | |- _ => solve [eauto with held]
  end.

Ltac held :=
  repeat first [ keeps_step
               | progress unfold emit, radio_put, log_message,
                   assign_rotor_cmd_location, await_arrival
               | held_leaf ].

Section MethodsHold.

Variable cfg : Config.
Variable rotor : Rotor.
Variable np_cos : float -> float.
Variable py_float : string -> option float.
Variable radio_calibrate : file -> file.

Lemma point_at_offset_held az el : keeps recorder_held (point_at_offset rotor az el).
Proof. unfold point_at_offset. held. Qed.
Hint Resolve point_at_offset_held : held.

Lemma n_point_scan_held id : keeps recorder_held (n_point_scan cfg rotor np_cos id).
Proof. unfold n_point_scan, n_point_scan_round. held. Qed.

Lemma beam_switch_held id : keeps recorder_held (beam_switch cfg rotor np_cos id).
Proof. unfold beam_switch, beam_switch_round. held. Qed.

Lemma point_at_object_held id : keeps recorder_held (point_at_object rotor id).
Proof. unfold point_at_object. held. Qed.

Lemma point_at_azel_held az el : keeps recorder_held (point_at_azel rotor az el).
Proof. unfold point_at_azel. held. Qed.

Lemma stow_held : keeps recorder_held (stow cfg).
Proof. unfold stow. held. Qed.

Lemma calibrate_held : keeps recorder_held (calibrate radio_calibrate).
Proof. unfold calibrate. held. Qed.

Lemma start_recording_held name : keeps recorder_held (start_recording cfg name).
Proof. unfold start_recording. held. Qed.

Lemma set_freq_held x : keeps recorder_held (set_freq x).
Proof. unfold set_freq. held. Qed.

Lemma set_samp_rate_held x : keeps recorder_held (set_samp_rate x).
Proof. unfold set_samp_rate. held. Qed.

Lemma quit_held : keeps recorder_held quit.
Proof. unfold quit. held. Qed.

Hint Resolve n_point_scan_held beam_switch_held point_at_object_held
  point_at_azel_held stow_held calibrate_held start_recording_held set_freq_held
  set_samp_rate_held quit_held : held.

Lemma dispatch_held (command : string) :
  Py.lower (hd EmptyString (Py.split " " command)) <> "roff"%string ->
  keeps recorder_held (dispatch cfg rotor np_cos py_float radio_calibrate command).
Proof.
  intros Hname. unfold dispatch. held.
  exfalso. apply Hname. apply String.eqb_eq. assumption.
Qed.

Lemma command_round_held (command : string) :
  command_name_of command <> "roff"%string ->
  keeps recorder_held (command_round cfg rotor np_cos py_float radio_calibrate command).
Proof.
  intros Hname. unfold command_round, command_try. held.
  apply dispatch_held. exact Hname.
Qed.

End MethodsHold.

Lemma after_commands_held cfg rotor np_cos py_float radio_calibrate
    (queue : list string) (d : Daemon) :
  Forall (fun command => command_name_of command <> "roff"%string) queue ->
  recorder_held d
    (after_commands (command_round cfg rotor np_cos py_float radio_calibrate) queue d).
Proof.
  intros Hqueue. revert d.
  induction Hqueue as [| command queue Hname _ IH]; intros d; cbn.
  - reflexivity.
  - etransitivity; [ | apply IH].
    apply command_round_held. exact Hname.
Qed.

Lemma stop_recording_clears (d : Daemon) :
  (stop_recording d).1 = Val tt /\
  radio_save_raw_task (stop_recording d).2 = None /\
  radio_save_spec_task (stop_recording d).2 = None.
Proof.
  unfold stop_recording, bind, gets, modify, emit, ret. cbn.
  destruct (radio_save_raw_task d) eqn:Hr; cbn;
    destruct (radio_save_spec_task d) eqn:Hs; cbn; rewrite ?Hr, ?Hs; auto.
Qed.

(** C9: when [set_samp_rate] is called while a raw recorder task is held,
    the task is terminated and the attribute keeps holding it; through
    every sequence of command lines none of which is a [roff] it stays
    held, so that each [start_recording] after them is refused with the
    message "Cannot Start Recording - Already Recording" and changes nothing
    else; [stop_recording] then clears both recorder attributes. *)
Theorem samp_rate_blocks_recording (cfg : Config) (rotor : Rotor)
    (np_cos : float -> float) (py_float : string -> option float)
    (radio_calibrate : file -> file) (t : task) (rate : float)
    (queue : list string) (d : Daemon) :
  radio_save_raw_task d = Some t ->
  Forall (fun command => command_name_of command <> "roff"%string) queue ->
  let d1 := (set_samp_rate rate d).2 in
  let d2 := after_commands (command_round cfg rotor np_cos py_float radio_calibrate)
              queue d1 in
  let d3 := (stop_recording d2).2 in
  radio_save_raw_task d1 = Some (terminate t) /\
  trace d1 = trace d ++ [TaskTerminate (task_call t)] /\
  is_Some (radio_save_raw_task d2) /\
  (forall name,
     start_recording cfg name d2 =
       (Val tt,
        set_command_error_logs
          (command_error_logs d2 ++ [Text "Cannot Start Recording - Already Recording"])
          d2)) /\
  radio_save_raw_task d3 = None /\ radio_save_spec_task d3 = None.
Proof.
  intros Hraw Hqueue. cbv zeta.
  assert (H1 : radio_save_raw_task (set_samp_rate rate d).2 = Some (terminate t)).
  { unfold set_samp_rate, bind, gets. cbn. rewrite Hraw. reflexivity. }
  assert (H2 : is_Some (radio_save_raw_task
                 (after_commands (command_round cfg rotor np_cos py_float radio_calibrate)
                    queue (set_samp_rate rate d).2))).
  { apply after_commands_held; [exact Hqueue | rewrite H1; eauto]. }
  repeat match goal with |- _ /\ _ => split end.
  - exact H1.
  - unfold set_samp_rate, bind, gets. cbn. rewrite Hraw. reflexivity.
  - exact H2.
  - intros name. apply start_recording_refused. left. exact H2.
  - apply stop_recording_clears.
  - apply stop_recording_clears.
Qed.

Lemma samp_rate_blocks_recording_witness :
  let d := (start_recording Station.cfg None Station.fresh).2 in
  let round := command_round Station.cfg Station.rotor Station.cos_taylor
                 Station.decimal_float (fun f => f) in
  is_Some (radio_save_raw_task
             (after_commands round ["record"; "freq 1420.0"]%string
                (set_samp_rate 2000000 d).2)).
Proof.
  refine (proj1 (proj2 (proj2
    (samp_rate_blocks_recording Station.cfg Station.rotor Station.cos_taylor
       Station.decimal_float (fun f => f)
       {| task_call := RadioSaveRawTask 2400000 "~/Desktop/SRT-Saves" None;
          task_state := Started |}
       2000000 ["record"; "freq 1420.0"]%string
       (start_recording Station.cfg None Station.fresh).2 eq_refl _)))).
  repeat constructor; intros H; vm_compute in H; discriminate.
Defined.

(** ** The command loop *)

Lemma not_an_object (d : Daemon) (name : string) :
  ephemeris_locations d !! name = None ->
  bool_decide (is_Some (ephemeris_locations d !! name)) = false.
Proof.
  intros H. rewrite H. apply bool_decide_eq_false_2. intros [p Hp]. discriminate.
Qed.

Lemma command_loop_goes_on cfg rotor np_cos py_float radio_calibrate
    (queue : list string) (d : Daemon) :
  match command_loop cfg rotor np_cos py_float radio_calibrate true queue d with
  | Ended _ _ => False
  | Waiting _ | Died _ _ => True
  end.
Proof.
  revert d. induction queue as [| command queue IH]; intros d; cbn.
  - exact I.
  - destruct (command_round cfg rotor np_cos py_float radio_calibrate command d)
      as [[[] | e] d'].
    + apply IH.
    + exact I.
Qed.

Lemma quit_round cfg rotor np_cos py_float radio_calibrate (d : Daemon) :
  ephemeris_locations d !! "quit"%string = None ->
  command_round cfg rotor np_cos py_float radio_calibrate "quit" d =
    (Val tt,
     set_radio_queue (radio_queue d ++ [("is_running"%string, VBool false)])
       (set_current_queue_item "quit"%string
          (set_command_error_logs
             (command_error_logs d ++ [Text "Running Command 'quit'"])
             (set_current_queue_item "None"%string d)))).
Proof.
  intros H. apply not_an_object in H.
  unfold command_round, command_try, try_except, bind, modify, log_message, dispatch, gets.
  simpl.
  unfold bind. simpl. rewrite H. reflexivity.
Qed.

(** C3, as the code has it: [quit] assigns a local variable of its own and
    puts [("is_running", False)] on the radio queue.  The command round of
    the line "quit" returns with that entry queued and with neither a stow
    nor a recorder halt; the loop then takes up the next line, and it never
    leaves through its condition, whatever the lines.  The queued entry is
    taken by the parameter relay, which forwards it as [set_is_running]. *)
Theorem quit_leaves_loop_running (cfg : Config) (rotor : Rotor)
    (np_cos : float -> float) (py_float : string -> option float)
    (radio_calibrate : file -> file) (rest : list string) (d : Daemon) :
  ephemeris_locations d !! "quit"%string = None ->
  let loop := command_loop cfg rotor np_cos py_float radio_calibrate in
  let round := command_round cfg rotor np_cos py_float radio_calibrate "quit" d in
  round.1 = Val tt /\
  radio_queue round.2 = radio_queue d ++ [("is_running"%string, VBool false)] /\
  trace round.2 = trace d /\
  rotor_cmd_location round.2 = rotor_cmd_location d /\
  radio_save_raw_task round.2 = radio_save_raw_task d /\
  radio_save_spec_task round.2 = radio_save_spec_task d /\
  loop true ("quit"%string :: rest) d = loop true rest round.2 /\
  (forall queue d', match loop true queue d' with
                    | Ended _ _ => False
                    | Waiting _ | Died _ _ => True
                    end) /\
  (forall d' behind,
     radio_queue d' = ("is_running"%string, VBool false) :: behind ->
     update_radio_settings_round d' =
       Some (("set_is_running"%string, VBool false), set_radio_queue behind d')).
Proof.
  intros H. cbv zeta.
  repeat match goal with |- _ /\ _ => split end;
    try (rewrite (quit_round _ _ _ _ _ d H); reflexivity).
  - cbn [command_loop]. rewrite (quit_round _ _ _ _ _ d H). reflexivity.
  - intros queue d'. apply command_loop_goes_on.
  - intros d' behind Hq. unfold update_radio_settings_round. rewrite Hq. reflexivity.
Qed.

Lemma quit_leaves_loop_running_witness :
  radio_queue
    (command_round Station.cfg Station.rotor Station.cos_taylor Station.decimal_float
       (fun f => f) "quit" Station.fresh).2 = [("is_running"%string, VBool false)].
Proof.
  exact (proj1 (proj2
    (quit_leaves_loop_running Station.cfg Station.rotor Station.cos_taylor
       Station.decimal_float (fun f => f) [] Station.fresh eq_refl))).
Defined.

Lemma calibrate_round_without_file cfg rotor np_cos py_float radio_calibrate (d : Daemon) :
  ephemeris_locations d !! "calibrate"%string = None ->
  radio_calibrate (calibration_json d) = NoFile ->
  command_round cfg rotor np_cos py_float radio_calibrate "calibrate" d =
    (Raise FileNotFoundError,
     set_calibration_json NoFile
       (set_trace (trace d ++ [CalibrateRun])
          (set_current_queue_item "calibrate"%string
             (set_command_error_logs
                (command_error_logs d ++ [Text "Running Command 'calibrate'"])
                (set_current_queue_item "None"%string d))))).
Proof.
  intros H Hfile. apply not_an_object in H.
  unfold command_round, command_try, try_except, bind, modify, log_message, dispatch, gets.
  simpl. unfold bind. simpl. rewrite H.
  unfold calibrate, bind, emit, modify, gets. simpl. rewrite Hfile. reflexivity.
Qed.

(** C2, as the code has it: the handlers of the command loop are for
    [IndexError], [ValueError] and [ConnectionRefusedError].  [calibrate]
    opens [calibration.json] without the test [is_file()] that [__init__]
    makes: when the calibration run has left no file, the line "calibrate"
    raises [FileNotFoundError], which no handler takes, and
    [srt_daemon_main] ends there, the lines behind it unread, with neither
    the stow nor the recorder halt of the shutdown. *)
Theorem missing_calibration_ends_daemon (cfg : Config) (rotor : Rotor)
    (np_cos : float -> float) (py_float : string -> option float)
    (radio_calibrate : file -> file) (rest : list string) (d : Daemon) :
  ephemeris_locations d !! "calibrate"%string = None ->
  radio_calibrate (calibration_json d) = NoFile ->
  exists d',
    command_loop cfg rotor np_cos py_float radio_calibrate true
      ("calibrate"%string :: rest) d = Died FileNotFoundError d' /\
    trace d' = trace d ++ [CalibrateRun] /\
    command_error_logs d' = command_error_logs d ++ [Text "Running Command 'calibrate'"].
Proof.
  intros H Hfile. eexists. cbn [command_loop].
  rewrite (calibrate_round_without_file _ _ _ _ _ d H Hfile).
  repeat split.
Qed.

Lemma missing_calibration_ends_daemon_witness :
  exists d',
    command_loop Station.cfg Station.rotor Station.cos_taylor Station.decimal_float
      (fun f => f) true ["calibrate"; "stow"]%string Station.fresh
    = Died FileNotFoundError d'.
Proof.
  destruct (missing_calibration_ends_daemon Station.cfg Station.rotor Station.cos_taylor
              Station.decimal_float (fun f => f) ["stow"%string] Station.fresh
              eq_refl eq_refl) as (d' & H & _).
  exists d'. exact H.
Defined.

(** *** What the handlers take *)

Lemma command_round_handles cfg rotor np_cos py_float radio_calibrate
    (command : string) (d : Daemon) :
  let round := command_round cfg rotor np_cos py_float radio_calibrate command d in
  match command_try cfg rotor np_cos py_float radio_calibrate command d with
  | (Val _, d') => round = (Val tt, d')
  | (Raise e, d') =>
      if handled e then
        round = (Val tt, set_command_error_logs (command_error_logs d' ++ [ExnStr e]) d')
      else round = (Raise e, d')
  end.
Proof.
  cbv zeta. unfold command_round, try_except.
  destruct (command_try cfg rotor np_cos py_float radio_calibrate command d)
    as [[[] | e] d']; [reflexivity |].
  destruct (handled e); reflexivity.
Qed.

(** A round that returns is followed by the next line of the queue. *)
Lemma command_loop_next cfg rotor np_cos py_float radio_calibrate
    (command : string) (rest : list string) (d d' : Daemon) :
  command_round cfg rotor np_cos py_float radio_calibrate command d = (Val tt, d') ->
  command_loop cfg rotor np_cos py_float radio_calibrate true (command :: rest) d =
  command_loop cfg rotor np_cos py_float radio_calibrate true rest d'.
Proof. intros H. cbn [command_loop]. rewrite H. reflexivity. Qed.

(** ** The time of day of [lst] *)

Lemma lower_char_not_upper (c : ascii) : Py.is_upper (Py.lower_char c) = false.
Proof.
  destruct c as [b0 b1 b2 b3 b4 b5 b6 b7].
  destruct b0, b1, b2, b3, b4, b5, b6, b7; reflexivity.
Qed.

Lemma lower_all_lower (s : string) :
  Py.all_chars (fun c => negb (Py.is_upper c)) (Py.lower s) = true.
Proof.
  induction s as [| c s IH]; cbn [Py.lower Py.all_chars].
  - reflexivity.
  - rewrite lower_char_not_upper, IH. reflexivity.
Qed.

Lemma replace_LST_lowercase (fuel : nat) (s : string) :
  Py.all_chars (fun c => negb (Py.is_upper c)) s = true ->
  Py.replace_fuel fuel "LST:" "" s = s.
Proof.
  revert s. induction fuel as [| fuel IH]; intros s Hs; [reflexivity |].
  destruct s as [| c s]; [reflexivity |].
  cbn [Py.all_chars] in Hs. apply andb_prop in Hs. destruct Hs as [Hc Hs].
  cbn [Py.replace_fuel Py.startswith].
  destruct (Ascii.eqb_spec "L" c) as [<- | _]; [discriminate Hc |].
  cbn [andb]. rewrite (IH s Hs). reflexivity.
Qed.

Lemma head_lst (s : string) :
  hd EmptyString (Py.split ":" s) = "lst"%string -> exists s', s = String "l" s'.
Proof.
  destruct s as [| c s]; cbn [Py.split]; [discriminate |].
  destruct (Ascii.eqb c ":"); [discriminate |].
  destruct (Py.split ":" s); cbn [hd]; intros [= -> _]; eauto.
Qed.

Lemma strptime_HMS_lst (s : string) :
  hd EmptyString (Py.split ":" s) = "lst"%string -> Py.strptime_HMS s = None.
Proof.
  unfold Py.strptime_HMS.
  destruct (Py.split ":" s) as [| h [| m [| sec [| ? ?]]]]; try reflexivity.
  cbn [hd]. intros ->. reflexivity.
Qed.

(** Every line that reaches the branch of [lst] leaves it by the
    [ValueError] of [strptime]: the name was put in lower case, so the
    text "LST:" is never found in it and the name itself is parsed. *)
Lemma dispatch_lst cfg rotor np_cos py_float radio_calibrate (command : string)
    (d : Daemon) :
  ephemeris_locations d !! hd EmptyString (Py.split " " command) = None ->
  hd EmptyString (Py.split ":" (Py.lower (hd EmptyString (Py.split " " command))))
    = "lst"%string ->
  dispatch cfg rotor np_cos py_float radio_calibrate command d = (Raise ValueError, d).
Proof.
  intros Hobj Hlst. apply not_an_object in Hobj.
  unfold dispatch, bind, gets. cbv zeta. rewrite Hobj.
  pose proof (lower_all_lower (hd EmptyString (Py.split " " command))) as Hlow.
  set (name := Py.lower (hd EmptyString (Py.split " " command))) in *.
  destruct (head_lst name Hlst) as [rest Hname].
  assert (Hkw : forall kw, hd EmptyString (Py.split ":" kw) <> "lst"%string ->
                           String.eqb name kw = false).
  { intros kw Hkw. destruct (String.eqb_spec name kw) as [<- | _]; [contradiction | reflexivity]. }
  rewrite !Hkw by (cbn; discriminate).
  replace (Py.isnumeric name) with false by (rewrite Hname; reflexivity).
  rewrite Hlst. cbn [String.eqb Ascii.eqb Bool.eqb].
  unfold Py.replace. rewrite (replace_LST_lowercase _ name Hlow).
  rewrite (strptime_HMS_lst name Hlst). reflexivity.
Qed.

(** C6, as the code has it: a line whose name begins with [lst] never
    sleeps.  Whatever follows (the line "lst 00:00:00" as well as
    "LST:00:00:00"), the round logs the line, then the [ValueError] of
    [strptime], and returns with the trace as it was: no [sleep] is
    called. *)
Theorem lst_never_sleeps (cfg : Config) (rotor : Rotor) (np_cos : float -> float)
    (py_float : string -> option float) (radio_calibrate : file -> file)
    (command : string) (d : Daemon) :
  (String.length command <? 2)%nat || Ascii.eqb (first_char command) "*" = false ->
  ephemeris_locations d !! hd EmptyString (Py.split " " (unprefixed command)) = None ->
  hd EmptyString (Py.split ":" (command_name_of command)) = "lst"%string ->
  let out := command_round cfg rotor np_cos py_float radio_calibrate command d in
  out.1 = Val tt /\
  trace out.2 = trace d /\
  command_error_logs out.2 =
    command_error_logs d
    ++ [Text ("Running Command '" +:+ command +:+ "'"); ExnStr ValueError].
Proof.
  intros Hlen Hobj Hlst. cbv zeta.
  pose proof (command_round_handles cfg rotor np_cos py_float radio_calibrate command d)
    as Hround.
  cbv zeta in Hround. unfold command_try in Hround.
  unfold bind at 1 2 3 in Hround. cbn [modify log_message] in Hround.
  rewrite Hlen in Hround.
  rewrite dispatch_lst in Hround by assumption.
  cbn in Hround. rewrite Hround. cbn. rewrite <- app_assoc. auto.
Qed.

Lemma lst_never_sleeps_witness :
  let out := command_round Station.cfg Station.rotor Station.cos_taylor
               Station.decimal_float (fun f => f) "lst 00:00:00" Station.fresh in
  trace out.2 = [] /\
  command_error_logs out.2 = [Text "Running Command 'lst 00:00:00'"; ExnStr ValueError].
Proof.
  destruct (lst_never_sleeps Station.cfg Station.rotor Station.cos_taylor
              Station.decimal_float (fun f => f) "lst 00:00:00" Station.fresh
              eq_refl eq_refl eq_refl) as (_ & Htrace & Hlogs).
  split; [exact Htrace | exact Hlogs].
Defined.

(** The loop that rolls a parsed time of day forward ends: with the fuel
    that [next_occurrence] gives it, it stops at the first day that is not
    in the past. *)
Lemma roll_days_reaches (fuel : nat) (time_val now : Z) :
  now - time_val < Z.of_nat fuel * day_us ->
  now <= roll_days fuel time_val now /\
  (time_val < now -> roll_days fuel time_val now < now + day_us).
Proof.
  revert time_val. induction fuel as [| fuel IH]; intros time_val Hfuel.
  - cbn [roll_days]. unfold day_us in *. lia.
  - cbn [roll_days]. destruct (Z.ltb_spec time_val now) as [Hpast | Hnow].
    + destruct (IH (time_val + day_us)) as [Hreach Hnext]; [unfold day_us in *; lia |].
      split; [exact Hreach |]. intros _.
      destruct (Z.lt_ge_cases (time_val + day_us) now) as [Hlt | Hge]; [auto |].
      destruct fuel as [| fuel']; cbn [roll_days].
      * lia.
      * destruct (Z.ltb_spec (time_val + day_us) now); lia.
    + lia.
Qed.

Lemma next_occurrence_reaches (time_val now : Z) :
  now <= next_occurrence time_val now /\
  (time_val < now -> next_occurrence time_val now < now + day_us).
Proof.
  unfold next_occurrence. apply roll_days_reaches.
  destruct (Z.lt_ge_cases now time_val) as [Hfuture | Hpast].
  - assert (0 <= Z.of_nat (Z.to_nat ((now - time_val) / day_us + 1)) * day_us)
      by (unfold day_us; lia).
    lia.
  - rewrite Z2Nat.id by (apply Z.add_nonneg_nonneg;
                         [apply Z.div_pos; unfold day_us; lia | lia]).
    pose proof (Z.mod_pos_bound (now - time_val) day_us ltac:(unfold day_us; lia)).
    pose proof (Z.div_mod (now - time_val) day_us ltac:(unfold day_us; lia)).
    lia.
Qed.

(** The rolling to the next day that follows the parsing would give the
    second that the line asks for at 23:59:59: the loss is in the parsing
    alone. *)
Lemma next_midnight_after_parsing :
  clock Station.fresh = 1577923199000000 /\
  match Py.strptime_HMS "00:00:00" with
  | Some time_val => next_occurrence time_val (clock Station.fresh) - clock Station.fresh
  | None => -1
  end = 1000000.
Proof. split; vm_compute; reflexivity. Qed.

(** ** The bounds of the commanded position *)

Lemma sleep_within (rotor : Rotor) (t : duration) : keeps (commands_within rotor) (sleep t).
Proof.
  unfold sleep. destruct t; repeat keeps_step; apply emit_within; exact I.
Qed.

Create HintDb within discriminated.
#[export] Hint Resolve sleep_within : within.

Ltac within_leaf :=
  lazymatch goal with
  | |- keeps _ (modify _) => solve [apply same_trace_within; intros; reflexivity]
  | |- keeps _ (emit _) =>
      apply emit_within; cbn [in_bounds_event];
      repeat match goal with
             | H : _ && _ = true |- _ => apply andb_prop in H; destruct H
             end;
      solve [trivial | assumption]
  | |- _ => solve [eauto with within]
  end.

Ltac within :=
  repeat first [ keeps_step
               | progress unfold radio_put, log_message, assign_rotor_cmd_location,
                   await_arrival
               | within_leaf ].

Section MethodsWithin.

Variable cfg : Config.
Variable rotor : Rotor.
Variable np_cos : float -> float.

Lemma point_at_offset_within az el :
  keeps (commands_within rotor) (point_at_offset rotor az el).
Proof. unfold point_at_offset. within. Qed.
Hint Resolve point_at_offset_within : within.

Lemma n_point_scan_within id :
  keeps (commands_within rotor) (n_point_scan cfg rotor np_cos id).
Proof. unfold n_point_scan, n_point_scan_round. within. Qed.

Lemma beam_switch_within id :
  keeps (commands_within rotor) (beam_switch cfg rotor np_cos id).
Proof. unfold beam_switch, beam_switch_round. within. Qed.

Lemma point_at_object_within id :
  keeps (commands_within rotor) (point_at_object rotor id).
Proof. unfold point_at_object. within. Qed.

Lemma point_at_azel_within az el :
  keeps (commands_within rotor) (point_at_azel rotor az el).
Proof. unfold point_at_azel. within. Qed.

Lemma update_ephemeris_location_round_within fresh :
  keeps (commands_within rotor) (update_ephemeris_location_round rotor fresh).
Proof. unfold update_ephemeris_location_round. within. Qed.

Lemma run_pointing_within op :
  keeps (commands_within rotor) (run_pointing cfg rotor np_cos op).
Proof.
  destruct op; cbn [run_pointing];
    auto using point_at_object_within, point_at_azel_within, point_at_offset_within,
      n_point_scan_within, beam_switch_within, update_ephemeris_location_round_within.
Qed.

End MethodsWithin.

Lemma point_at_object_rejected rotor (id : string) (p : azel) (d : Daemon) :
  ephemeris_locations d !! id = Some p ->
  within rotor p = false ->
  point_at_object rotor id d =
    (Val tt,
     set_ephemeris_cmd_location None
       (set_command_error_logs
          (command_error_logs d ++ [Text ("Object " +:+ id +:+ " Not in Motor Bounds")])
          (set_radio_queue (radio_queue d ++ [("soutrack"%string, VStr id)])
             (set_rotor_offsets (0.0, 0.0)%float d)))).
Proof.
  intros Hp Hout. unfold point_at_object, locate, bind, modify, radio_put, gets.
  simpl. rewrite Hp. simpl. rewrite Hout. reflexivity.
Qed.

Lemma point_at_azel_rejected rotor (az el : float) (d : Daemon) :
  within rotor (az, el) = false ->
  point_at_azel rotor az el d =
    (Val tt,
     set_command_error_logs (command_error_logs d ++ [ObjectAtNotInBounds (az, el)])
       (set_radio_queue (radio_queue d ++ [("soutrack"%string, VAzelLabel az el)])
          (set_rotor_offsets (0.0, 0.0)%float (set_ephemeris_cmd_location None d)))).
Proof.
  intros Hout. unfold point_at_azel, bind, modify, radio_put. cbv zeta.
  rewrite Hout. reflexivity.
Qed.

Lemma point_at_offset_rejected rotor (az_off el_off : float) (d : Daemon) :
  within rotor (azel_add (rotor_destination d) (az_off, el_off)) = false ->
  point_at_offset rotor az_off el_off d =
    (Val tt,
     set_command_error_logs
       (command_error_logs d ++ [OffsetOutOfBounds (az_off, el_off)]) d).
Proof.
  intros Hout. unfold point_at_offset, bind, gets. cbv zeta beta iota.
  rewrite Hout. reflexivity.
Qed.

Lemma point_at_offset_accepted rotor (az_off el_off : float) (d : Daemon) :
  within rotor (azel_add (rotor_destination d) (az_off, el_off)) = true ->
  let target := azel_add (rotor_destination d) (az_off, el_off) in
  point_at_offset rotor az_off el_off d =
    (Val tt,
     set_trace (trace d ++ [SetCmd target; Await target])
       (set_rotor_cmd_location target (set_rotor_offsets (az_off, el_off) d))).
Proof.
  intros Hin. unfold point_at_offset, bind, gets. cbv zeta beta iota.
  rewrite Hin. unfold assign_rotor_cmd_location, await_arrival, emit, bind, modify, gets.
  cbn. rewrite <- app_assoc. reflexivity.
Qed.

Lemma ephemeris_round_rejected rotor (fresh : gmap string azel) (id : string)
    (p : azel) (d : Daemon) :
  ephemeris_cmd_location d = Some id ->
  fresh !! id = Some p ->
  within rotor p && within rotor (azel_add p (rotor_offsets d)) = false ->
  update_ephemeris_location_round rotor fresh d =
    (Val tt,
     set_trace (trace d ++ [Sleep (Seconds 1)])
       (set_ephemeris_cmd_location None
          (set_command_error_logs
             (command_error_logs d
              ++ [Text ("Object " +:+ id +:+ " moved out of motor bounds")])
             (set_ephemeris_locations fresh d)))).
Proof.
  intros Hid Hp Hout.
  unfold update_ephemeris_location_round, locate, bind, modify, gets.
  simpl. rewrite Hid. simpl. rewrite Hp. simpl. rewrite Hout. reflexivity.
Qed.

(** ** The scans *)

Lemma sleep_five : sleep (Seconds 5) = emit (Sleep (Seconds 5)).
Proof. reflexivity. Qed.

(** A destination within the bounds, then the offsets of one cell or leg:
    the part that the two scans share. *)
Lemma offset_leg rotor (p off : azel) (d : Daemon) :
  exists d',
    (modify (set_rotor_destination p) ;;
     point_at_offset rotor off.1 off.2 ;;
     sleep (Seconds 5)) d = (Val tt, d') /\
    ephemeris_locations d' = ephemeris_locations d /\
    radio_queue d' = radio_queue d /\
    trace d' = trace d ++ visit rotor p off /\
    command_error_logs d' = command_error_logs d ++ rejection rotor p off.
Proof.
  unfold visit, rejection. destruct off as [az_off el_off].
  unfold bind at 1. cbn [modify fst snd].
  destruct (within rotor (azel_add p (az_off, el_off))) eqn:Hin.
  - unfold bind. rewrite point_at_offset_accepted by exact Hin.
    rewrite sleep_five. eexists. split; [reflexivity |].
    cbn. rewrite <- app_assoc, app_nil_r. auto.
  - unfold bind. rewrite point_at_offset_rejected by exact Hin.
    rewrite sleep_five. eexists. split; [reflexivity |].
    cbn. auto.
Qed.

Lemma n_point_scan_round_runs cfg rotor np_cos (id : string) (p : azel) (scan : nat)
    (d : Daemon) :
  ephemeris_locations d !! id = Some p ->
  within rotor p = true ->
  let off := grid_offset cfg np_cos p (Z.of_nat scan / 5 - 2) (Z.of_nat scan mod 5 - 2) in
  exists d',
    n_point_scan_round cfg rotor np_cos id scan d = (Val tt, d') /\
    ephemeris_locations d' = ephemeris_locations d /\
    radio_queue d' = radio_queue d /\
    trace d' = trace d ++ visit rotor p off /\
    command_error_logs d' = command_error_logs d ++ rejection rotor p off.
Proof.
  intros Hp Hin off.
  destruct (offset_leg rotor p off d) as (d' & Hrun & Hrest).
  exists d'. split; [ | exact Hrest].
  rewrite <- Hrun.
  unfold n_point_scan_round, locate, bind, gets. rewrite Hp.
  unfold ret. cbv beta iota zeta. rewrite Hin. reflexivity.
Qed.

Lemma n_point_scan_rounds_run cfg rotor np_cos (id : string) (p : azel)
    (scans : list nat) (d : Daemon) :
  ephemeris_locations d !! id = Some p ->
  within rotor p = true ->
  let cell scan :=
    grid_offset cfg np_cos p (Z.of_nat scan / 5 - 2) (Z.of_nat scan mod 5 - 2) in
  exists d',
    for_each scans (n_point_scan_round cfg rotor np_cos id) d = (Val tt, d') /\
    radio_queue d' = radio_queue d /\
    trace d' = trace d ++ concat (map (fun scan => visit rotor p (cell scan)) scans) /\
    command_error_logs d' =
      command_error_logs d ++ concat (map (fun scan => rejection rotor p (cell scan)) scans).
Proof.
  intros Hp Hin cell. revert d Hp.
  induction scans as [| scan scans IH]; intros d Hp.
  - exists d. cbn. rewrite !app_nil_r. auto.
  - destruct (n_point_scan_round_runs cfg rotor np_cos id p scan d Hp Hin)
      as (d1 & Hrun & Htable & Hqueue & Htrace & Hlogs).
    rewrite <- Htable in Hp.
    destruct (IH d1 Hp) as (d' & Hrest & Hqueue' & Htrace' & Hlogs').
    exists d'. cbn [for_each map concat]. unfold bind at 1. rewrite Hrun.
    split; [exact Hrest |].
    rewrite Hqueue', Htrace', Hlogs', Hqueue, Htrace, Hlogs, <- !app_assoc. auto.
Qed.

Lemma grid_of_scans :
  map (fun scan => (Z.of_nat scan / 5 - 2, Z.of_nat scan mod 5 - 2)) (seq 0 25) = grid.
Proof. reflexivity. Qed.

Lemma n_point_scan_runs cfg rotor np_cos (id : string) (p : azel) (d : Daemon) :
  ephemeris_locations d !! id = Some p ->
  within rotor p = true ->
  let cells := map (fun ij => grid_offset cfg np_cos p ij.1 ij.2) grid in
  exists d',
    n_point_scan cfg rotor np_cos id d = (Val tt, d') /\
    radio_queue d' = radio_queue d ++ [("soutrack"%string, VStr id)] /\
    trace d' = trace d ++ concat (map (visit rotor p) cells) /\
    command_error_logs d' = command_error_logs d ++ concat (map (rejection rotor p) cells) /\
    rotor_offsets d' = (0.0, 0.0)%float /\
    ephemeris_cmd_location d' = Some id.
Proof.
  intros Hp Hin cells.
  set (d0 := set_radio_queue (radio_queue d ++ [("soutrack"%string, VStr id)])
               (set_ephemeris_cmd_location None d)).
  destruct (n_point_scan_rounds_run cfg rotor np_cos id p (seq 0 25) d0 Hp Hin)
    as (d1 & Hrun & Hqueue & Htrace & Hlogs).
  eexists. split.
  - unfold n_point_scan. unfold bind at 1 2. cbn [modify radio_put].
    change (set_radio_queue _ (set_ephemeris_cmd_location None d)) with d0.
    unfold bind at 1. rewrite Hrun. reflexivity.
  - subst cells. rewrite <- grid_of_scans, !map_map.
    cbn [radio_queue trace command_error_logs rotor_offsets ephemeris_cmd_location
         set_ephemeris_cmd_location set_rotor_offsets].
    rewrite Hqueue, Htrace, Hlogs. repeat split.
Qed.

Lemma visits_all_within rotor (p : azel) (offsets : list azel) :
  Forall (fun off => within rotor (azel_add p off) = true) offsets ->
  concat (map (visit rotor p) offsets) =
  flat_map (fun off => [SetCmd (azel_add p off); Await (azel_add p off);
                        Sleep (Seconds 5)]) offsets.
Proof.
  induction 1 as [| off offsets Hoff _ IH]; [reflexivity |].
  cbn [map concat flat_map]. rewrite IH. unfold visit at 1. rewrite Hoff. reflexivity.
Qed.

(** C4, amended: for an object within the bounds, the n-point scan goes
    through the 25 cells of the grid [i, j] in -2..2, row by row, with the
    elevation offset [i * beamwidth / 2] and the azimuth offset
    [j * beamwidth / 2] over the cosine of the elevation with its offset.
    Each cell whose position is within the bounds is commanded and awaited;
    a cell whose position is outside them is logged as rejected and not
    commanded; each is dwelt on for five seconds.  At the end the offsets
    are (0, 0) and the object is the tracked one.  When every cell is within
    the bounds, all 25 are commanded. *)
Theorem n_point_scan_grid (cfg : Config) (rotor : Rotor) (np_cos : float -> float)
    (id : string) (p : azel) (d : Daemon) :
  ephemeris_locations d !! id = Some p ->
  within rotor p = true ->
  let out := n_point_scan cfg rotor np_cos id d in
  let cells := map (fun ij => grid_offset cfg np_cos p ij.1 ij.2) grid in
  out.1 = Val tt /\
  length cells = 25%nat /\
  trace out.2 = trace d ++ concat (map (visit rotor p) cells) /\
  command_error_logs out.2 =
    command_error_logs d ++ concat (map (rejection rotor p) cells) /\
  rotor_offsets out.2 = (0.0, 0.0)%float /\
  ephemeris_cmd_location out.2 = Some id /\
  (Forall (fun off => within rotor (azel_add p off) = true) cells ->
   trace out.2 =
     trace d
     ++ flat_map (fun off => [SetCmd (azel_add p off); Await (azel_add p off);
                              Sleep (Seconds 5)]) cells).
Proof.
  intros Hp Hin. cbv zeta.
  destruct (n_point_scan_runs cfg rotor np_cos id p d Hp Hin)
    as (d' & Hrun & _ & Htrace & Hlogs & Hoff & Hid).
  cbv zeta in Htrace, Hlogs. rewrite Hrun. cbn [fst snd].
  repeat match goal with |- _ /\ _ => split end; auto.
  intros Hall. rewrite Htrace, (visits_all_within rotor p _ Hall). reflexivity.
Qed.

Lemma n_point_scan_grid_witness :
  let out := n_point_scan Station.cfg Station.rotor Station.cos_taylor "Sun" Station.fresh in
  out.1 = Val tt /\
  rotor_offsets out.2 = (0.0, 0.0)%float /\
  ephemeris_cmd_location out.2 = Some "Sun"%string.
Proof.
  destruct (n_point_scan_grid Station.cfg Station.rotor Station.cos_taylor "Sun"
              (180, 45)%float Station.fresh eq_refl eq_refl)
    as (Hret & _ & _ & _ & Hoff & Hid & _).
  repeat split; assumption.
Defined.

(** C4 as stated fails for an object close to the elevation limit: Zenith,
    at elevation 88 under a limit of 90, is within the bounds, and the cell
    of the row [i = 2] above it is never commanded, whatever the cosine. *)
Lemma n_point_scan_counterexample :
  Station.table !! "Zenith"%string = Some (120, 88)%float /\
  within Station.rotor (120, 88)%float = true /\
  ~ (exists np_cos : float -> float,
       In (SetCmd (azel_add (120, 88)%float
                     (grid_offset Station.cfg np_cos (120, 88)%float 2 0)))
          (trace (n_point_scan Station.cfg Station.rotor np_cos "Zenith"
                    Station.fresh).2)).
Proof.
  split; [vm_compute; reflexivity |]. split; [reflexivity |].
  intros [np_cos Hcell].
  destruct (n_point_scan_within Station.cfg Station.rotor np_cos "Zenith" Station.fresh)
    as (events & Htrace & Hall).
  rewrite Htrace in Hcell. change (trace Station.fresh) with (@nil event) in Hcell.
  cbn [app] in Hcell.
  rewrite List.Forall_forall in Hall. apply Hall in Hcell.
  cbn [in_bounds_event] in Hcell. vm_compute in Hcell. discriminate Hcell.
Qed.

Lemma beam_switch_round_runs cfg rotor np_cos (p : azel) (j : nat) (d : Daemon) :
  within rotor p = true ->
  let off := beam_offset cfg np_cos p (Z.of_nat j mod 3 - 1) in
  exists d',
    beam_switch_round cfg rotor np_cos p j d = (Val tt, d') /\
    radio_queue d' = radio_queue d ++ [("beam_switch"%string, VInt (Z.of_nat j + 1))] /\
    trace d' = trace d ++ visit rotor p off /\
    command_error_logs d' = command_error_logs d ++ rejection rotor p off.
Proof.
  intros Hin off.
  set (d0 := set_radio_queue
               (radio_queue d ++ [("beam_switch"%string, VInt (Z.of_nat j + 1))]) d).
  destruct (offset_leg rotor p off d0) as (d' & Hrun & _ & Hqueue & Htrace & Hlogs).
  exists d'. split; [ | auto].
  rewrite <- Hrun.
  unfold beam_switch_round, radio_put, bind. cbn [modify]. cbv zeta.
  rewrite Hin. reflexivity.
Qed.

Lemma beam_switch_rounds_run cfg rotor np_cos (p : azel) (legs : list nat) (d : Daemon) :
  within rotor p = true ->
  let leg j := beam_offset cfg np_cos p (Z.of_nat j mod 3 - 1) in
  exists d',
    for_each legs (beam_switch_round cfg rotor np_cos p) d = (Val tt, d') /\
    radio_queue d' =
      radio_queue d ++ map (fun j => ("beam_switch"%string, VInt (Z.of_nat j + 1))) legs /\
    trace d' = trace d ++ concat (map (fun j => visit rotor p (leg j)) legs) /\
    command_error_logs d' =
      command_error_logs d ++ concat (map (fun j => rejection rotor p (leg j)) legs).
Proof.
  intros Hin leg. revert d.
  induction legs as [| j legs IH]; intros d.
  - exists d. cbn. rewrite !app_nil_r. auto.
  - destruct (beam_switch_round_runs cfg rotor np_cos p j d Hin)
      as (d1 & Hrun & Hqueue & Htrace & Hlogs).
    destruct (IH d1) as (d' & Hrest & Hqueue' & Htrace' & Hlogs').
    exists d'. cbn [for_each map concat]. unfold bind at 1. rewrite Hrun.
    split; [exact Hrest |].
    rewrite Hqueue', Htrace', Hlogs', Hqueue, Htrace, Hlogs, <- !app_assoc.
    repeat split; auto.
Qed.

Lemma beam_switch_runs cfg rotor np_cos (id : string) (p : azel) (d : Daemon) :
  ephemeris_locations d !! id = Some p ->
  within rotor p = true ->
  let legs := map (beam_offset cfg np_cos p) [-1; 0; 1] in
  exists d',
    beam_switch cfg rotor np_cos id d = (Val tt, d') /\
    radio_queue d' =
      radio_queue d
      ++ [("soutrack"%string, VStr id); ("beam_switch"%string, VInt 1);
          ("beam_switch"%string, VInt 2); ("beam_switch"%string, VInt 3);
          ("beam_switch"%string, VInt 0)] /\
    trace d' = trace d ++ concat (map (visit rotor p) legs) /\
    command_error_logs d' = command_error_logs d ++ concat (map (rejection rotor p) legs) /\
    rotor_offsets d' = (0.0, 0.0)%float /\
    ephemeris_cmd_location d' = Some id.
Proof.
  intros Hp Hin legs.
  set (d0 := set_radio_queue (radio_queue d ++ [("soutrack"%string, VStr id)])
               (set_ephemeris_cmd_location None d)).
  destruct (beam_switch_rounds_run cfg rotor np_cos p (seq 0 3) d0 Hin)
    as (d1 & Hrun & Hqueue & Htrace & Hlogs).
  eexists. split.
  - unfold beam_switch. unfold bind at 1 2. cbn [modify radio_put].
    change (set_radio_queue _ (set_ephemeris_cmd_location None d)) with d0.
    unfold locate, bind at 1 2, gets.
    change (ephemeris_locations d0) with (ephemeris_locations d). rewrite Hp.
    unfold ret at 1. unfold bind at 1. rewrite Hrun. reflexivity.
  - cbn [radio_queue trace command_error_logs rotor_offsets ephemeris_cmd_location
         set_ephemeris_cmd_location set_rotor_offsets set_radio_queue].
    rewrite Hqueue, Htrace, Hlogs. subst d0 legs. cbn [radio_queue set_radio_queue
      trace command_error_logs set_ephemeris_cmd_location].
    rewrite <- !app_assoc. repeat split.
Qed.

(** C5, amended: for an object within the bounds, the beam switch makes
    three legs with the azimuth offsets -1, 0 and +1 beamwidths over the
    cosine of the elevation and no elevation offset.  Each leg whose
    position is within the bounds is commanded and awaited; a leg whose
    position is outside them is logged as rejected and not commanded; each
    is dwelt on for five seconds.  The radio queue receives the tracking
    label and then exactly four [beam_switch] labels, 1, 2, 3 and 0 in
    that order; at the end the offsets are (0, 0) and the object is the
    tracked one.  When every leg is within the bounds, all three are
    commanded. *)
Theorem beam_switch_legs (cfg : Config) (rotor : Rotor) (np_cos : float -> float)
    (id : string) (p : azel) (d : Daemon) :
  ephemeris_locations d !! id = Some p ->
  within rotor p = true ->
  let out := beam_switch cfg rotor np_cos id d in
  let legs := map (beam_offset cfg np_cos p) [-1; 0; 1] in
  out.1 = Val tt /\
  radio_queue out.2 =
    radio_queue d
    ++ [("soutrack"%string, VStr id); ("beam_switch"%string, VInt 1);
        ("beam_switch"%string, VInt 2); ("beam_switch"%string, VInt 3);
        ("beam_switch"%string, VInt 0)] /\
  trace out.2 = trace d ++ concat (map (visit rotor p) legs) /\
  command_error_logs out.2 =
    command_error_logs d ++ concat (map (rejection rotor p) legs) /\
  rotor_offsets out.2 = (0.0, 0.0)%float /\
  ephemeris_cmd_location out.2 = Some id /\
  (Forall (fun off => within rotor (azel_add p off) = true) legs ->
   trace out.2 =
     trace d
     ++ flat_map (fun off => [SetCmd (azel_add p off); Await (azel_add p off);
                              Sleep (Seconds 5)]) legs).
Proof.
  intros Hp Hin. cbv zeta.
  destruct (beam_switch_runs cfg rotor np_cos id p d Hp Hin)
    as (d' & Hrun & Hqueue & Htrace & Hlogs & Hoff & Hid).
  cbv zeta in Htrace, Hlogs. rewrite Hrun. cbn [fst snd].
  repeat match goal with |- _ /\ _ => split end; auto.
  intros Hall. rewrite Htrace, (visits_all_within rotor p _ Hall). reflexivity.
Qed.

Lemma beam_switch_legs_witness :
  let out := beam_switch Station.cfg Station.rotor Station.cos_taylor "Sun" Station.fresh in
  out.1 = Val tt /\
  radio_queue out.2 =
    [("soutrack"%string, VStr "Sun"); ("beam_switch"%string, VInt 1);
     ("beam_switch"%string, VInt 2); ("beam_switch"%string, VInt 3);
     ("beam_switch"%string, VInt 0)].
Proof.
  destruct (beam_switch_legs Station.cfg Station.rotor Station.cos_taylor "Sun"
              (180, 45)%float Station.fresh eq_refl eq_refl)
    as (Hret & Hqueue & _).
  split; [exact Hret | exact Hqueue].
Defined.

(** C5 as stated fails for an object close to an azimuth limit: Cas A, at
    azimuth 358 under a limit of 360 and at elevation 0, is within the
    bounds, and with the cosine of 0 being 1 the third leg, five degrees
    further, is never commanded. *)
Lemma beam_switch_counterexample :
  Station.table !! "Cas_A"%string = Some (358, 0)%float /\
  within Station.rotor (358, 0)%float = true /\
  ~ (exists np_cos : float -> float,
       np_cos 0%float = 1%float /\
       In (SetCmd (azel_add (358, 0)%float
                     (beam_offset Station.cfg np_cos (358, 0)%float 1)))
          (trace (beam_switch Station.cfg Station.rotor np_cos "Cas_A"
                    Station.fresh).2)).
Proof.
  split; [vm_compute; reflexivity |]. split; [reflexivity |].
  intros (np_cos & Hcos & Hleg).
  destruct (beam_switch_within Station.cfg Station.rotor np_cos "Cas_A" Station.fresh)
    as (events & Htrace & Hall).
  rewrite Htrace in Hleg. change (trace Station.fresh) with (@nil event) in Hleg.
  cbn [app] in Hleg.
  rewrite List.Forall_forall in Hall. apply Hall in Hleg.
  cbn [in_bounds_event] in Hleg. unfold beam_offset in Hleg.
  change ((358, 0)%float.2 * np_pi / 180.0)%float with 0%float in Hleg.
  rewrite Hcos in Hleg. vm_compute in Hleg. discriminate Hleg.
Qed.

(** ** What the command loop does take *)

Lemma split_cons (sep : ascii) (s : string) :
  exists piece pieces, Py.split sep s = piece :: pieces.
Proof.
  induction s as [| c s (piece & pieces & IH)]; cbn [Py.split]; [eauto |].
  destruct (Ascii.eqb c sep); [eauto |]. rewrite IH. eauto.
Qed.

(** A line whose name is no object, no keyword, no number and no time is
    logged as not identified. *)
Lemma unidentified_command_logged cfg rotor np_cos py_float radio_calibrate
    (command : string) (d : Daemon) :
  let name := Py.lower (hd EmptyString (Py.split " " command)) in
  ephemeris_locations d !! hd EmptyString (Py.split " " command) = None ->
  Forall (fun keyword => name <> keyword)
    ["stow"; "cal"; "calibrate"; "quit"; "record"; "roff"; "freq"; "samp"; "azel";
     "offset"; "wait"]%string ->
  Py.isnumeric name = false ->
  hd EmptyString (Py.split ":" name) <> "lst"%string ->
  length (Py.split ":" name) <> 5%nat ->
  dispatch cfg rotor np_cos py_float radio_calibrate command d =
    (Val tt,
     set_command_error_logs
       (command_error_logs d ++ [Text ("Command Not Identified '" +:+ command +:+ "'")]) d).
Proof.
  intros name Hobj Hkeys Hnum Hlst Hfive. apply not_an_object in Hobj.
  unfold dispatch, bind, gets. cbv zeta. fold name. rewrite Hobj.
  repeat match goal with
         | H : Forall _ (_ :: _) |- _ =>
             let Hne := fresh "Hne" in
             apply Forall_cons_1 in H; destruct H as [Hne H];
             apply String.eqb_neq in Hne; rewrite Hne
         end.
  rewrite Hnum. apply String.eqb_neq in Hlst. rewrite Hlst.
  apply Nat.eqb_neq in Hfive. rewrite Hfive. reflexivity.
Qed.

(** A number that [float] does not take, after [freq]: the [ValueError] is
    logged, the round returns with nothing queued and nothing called, and
    the loop takes up the next line. *)
Lemma malformed_number_logged cfg rotor np_cos py_float radio_calibrate
    (args : string) (rest : list string) (d : Daemon) :
  ephemeris_locations d !! "freq"%string = None ->
  py_float (hd EmptyString (Py.split " " args)) = None ->
  let line := ("freq " +:+ args)%string in
  let out := command_round cfg rotor np_cos py_float radio_calibrate line d in
  out.1 = Val tt /\
  command_error_logs out.2 =
    command_error_logs d ++ [Text ("Running Command '" +:+ line +:+ "'"); ExnStr ValueError] /\
  radio_queue out.2 = radio_queue d /\
  trace out.2 = trace d /\
  command_loop cfg rotor np_cos py_float radio_calibrate true (line :: rest) d =
    command_loop cfg rotor np_cos py_float radio_calibrate true rest out.2.
Proof.
  intros Hobj Hbad. cbv zeta. apply not_an_object in Hobj.
  destruct (split_cons " " args) as (token & tokens & Hsplit).
  rewrite Hsplit in Hbad. cbn [hd] in Hbad.
  assert (Hround :
    command_round cfg rotor np_cos py_float radio_calibrate ("freq " +:+ args) d =
      (Val tt,
       set_command_error_logs
         ((command_error_logs d ++ [Text ("Running Command '" +:+ ("freq " +:+ args) +:+ "'")])
          ++ [ExnStr ValueError])
         (set_current_queue_item ("freq " +:+ args)
            (set_command_error_logs
               (command_error_logs d
                ++ [Text ("Running Command '" +:+ ("freq " +:+ args) +:+ "'")])
               (set_current_queue_item "None" d))))).
  { change ("freq " +:+ args)%string
      with (String "f" (String "r" (String "e" (String "q" (String " " args))))).
    unfold command_round, command_try, try_except, bind, modify, log_message, dispatch,
      gets, item, to_float.
    simpl. rewrite Hsplit. simpl. unfold bind. simpl. rewrite Hobj.
    simpl. rewrite Hbad. reflexivity. }
  cbn [command_loop]. rewrite Hround. cbn [fst snd].
  repeat match goal with |- _ /\ _ => split end; try reflexivity.
  cbn. rewrite <- app_assoc. reflexivity.
Qed.

(** An argument that is not there, after [freq]: the [IndexError] is
    logged and the round returns. *)
Lemma missing_argument_logged cfg rotor np_cos py_float radio_calibrate (d : Daemon) :
  ephemeris_locations d !! "freq"%string = None ->
  let out := command_round cfg rotor np_cos py_float radio_calibrate "freq" d in
  out.1 = Val tt /\
  command_error_logs out.2 =
    command_error_logs d ++ [Text "Running Command 'freq'"; ExnStr IndexError] /\
  radio_queue out.2 = radio_queue d /\
  trace out.2 = trace d.
Proof.
  intros Hobj. cbv zeta. apply not_an_object in Hobj.
  unfold command_round, command_try, try_except, bind, modify, log_message, dispatch,
    gets, item, to_float.
  simpl. unfold bind. simpl. rewrite Hobj. simpl. rewrite <- app_assoc. auto.
Qed.

(** ** Scans about an object outside the bounds *)

(** An n-point scan about an object that is outside the bounds commands
    nothing, dwells 25 times, and ends with the object as the tracked
    one, until the next round of the ephemeris loop clears it. *)
Lemma n_point_scan_outside_bounds cfg rotor np_cos (id : string) (p : azel)
    (d : Daemon) :
  ephemeris_locations d !! id = Some p ->
  within rotor p = false ->
  let out := n_point_scan cfg rotor np_cos id d in
  out.1 = Val tt /\
  trace out.2 = trace d ++ repeat (Sleep (Seconds 5)) 25 /\
  rotor_cmd_location out.2 = rotor_cmd_location d /\
  ephemeris_cmd_location out.2 = Some id.
Proof.
  intros Hp Hout. cbv zeta.
  set (d0 := set_radio_queue (radio_queue d ++ [("soutrack"%string, VStr id)])
               (set_ephemeris_cmd_location None d)).
  assert (Hround : forall scan d1,
            ephemeris_locations d1 !! id = Some p ->
            n_point_scan_round cfg rotor np_cos id scan d1 =
              (Val tt, set_trace (trace d1 ++ [Sleep (Seconds 5)]) d1)).
  { intros scan d1 Hp1. unfold n_point_scan_round, locate, bind, gets. rewrite Hp1.
    unfold ret. cbv beta iota zeta. rewrite Hout. reflexivity. }
  assert (Hloop : forall scans d1,
            ephemeris_locations d1 !! id = Some p ->
            exists d',
              for_each scans (n_point_scan_round cfg rotor np_cos id) d1 = (Val tt, d') /\
              trace d' = trace d1 ++ repeat (Sleep (Seconds 5)) (length scans) /\
              rotor_cmd_location d' = rotor_cmd_location d1).
  { induction scans as [| scan scans IH]; intros d1 Hp1.
    - exists d1. cbn. rewrite app_nil_r. auto.
    - destruct (IH (set_trace (trace d1 ++ [Sleep (Seconds 5)]) d1) Hp1)
        as (d' & Hrun & Htrace & Hcmd).
      exists d'. cbn [for_each]. unfold bind. rewrite (Hround scan d1 Hp1), Hrun.
      split; [reflexivity |]. rewrite Htrace, Hcmd. cbn. rewrite <- app_assoc. auto. }
  destruct (Hloop (seq 0 25) d0 Hp) as (d' & Hrun & Htrace & Hcmd).
  assert (Hscan : n_point_scan cfg rotor np_cos id d =
                    (Val tt, set_ephemeris_cmd_location (Some id)
                               (set_rotor_offsets (0.0, 0.0)%float d'))).
  { unfold n_point_scan. unfold bind at 1 2. cbn [modify radio_put].
    change (set_radio_queue _ (set_ephemeris_cmd_location None d)) with d0.
    unfold bind at 1. rewrite Hrun. reflexivity. }
  rewrite Hscan. cbn. rewrite Htrace, Hcmd. auto.
Qed.

(** * Further properties of the methods *)

(** ** Calibration runs *)

(** X2: when the calibration run leaves a document with both keys,
    [calibrate] takes its values and power as they are, of whatever length,
    queues the power and then the values for the signal processing and logs
    "Calibration Done"; a restart on the same file, under a configuration
    whose temperatures do not add up to zero, loads the same profile when
    the length is the configured number of bins, and the neutral one
    otherwise. *)
Theorem calibrate_loads_document (cfg : Config) (radio_calibrate : file -> file)
    (table : gmap string azel) (now : Z) (values : list float) (power : float)
    (d : Daemon) :
  radio_calibrate (calibration_json d) = Json (Some values) (Some power) ->
  (temp_sys cfg + temp_cal cfg =? 0)%float = false ->
  let out := calibrate radio_calibrate d in
  let restart := (init cfg (calibration_json out.2) table now).2 in
  out.1 = Val tt /\
  cal_values out.2 = values /\
  cal_power out.2 = power /\
  radio_queue out.2 =
    radio_queue d ++ [("cal_pwr"%string, VFloat power); ("cal_values"%string, VFloats values)] /\
  command_error_logs out.2 = command_error_logs d ++ [Text "Calibration Done"] /\
  trace out.2 = trace d ++ [CalibrateRun] /\
  (cal_values restart, cal_power restart) =
    (if (length values =? radio_num_bins cfg)%nat then (cal_values out.2, cal_power out.2)
     else neutral_profile cfg).
Proof.
  intros Hfile Hsum. cbv zeta.
  assert (Hrun : calibrate radio_calibrate d =
            (Val tt,
             set_command_error_logs (command_error_logs d ++ [Text "Calibration Done"])
               (set_radio_queue
                  ((radio_queue d ++ [("cal_pwr"%string, VFloat power)])
                   ++ [("cal_values"%string, VFloats values)])
                  (set_cal_power power
                     (set_cal_values values
                        (set_calibration_json (Json (Some values) (Some power))
                           (set_trace (trace d ++ [CalibrateRun]) d))))))).
  { unfold calibrate, bind, emit, modify, gets. simpl. rewrite Hfile. reflexivity. }
  rewrite Hrun. cbn [fst snd].
  repeat match goal with |- _ /\ _ => split end; try reflexivity.
  - cbn. rewrite <- app_assoc. reflexivity.
  - unfold init. rewrite (init_calibration_divides cfg _ Hsum).
    unfold try_except, bind, modify, gets. cbn.
    destruct (length values =? radio_num_bins cfg)%nat; reflexivity.
Qed.

Lemma calibrate_loads_document_witness :
  let out := calibrate (fun _ => Json (Some [2; 3]%float) (Some 0.5%float)) Station.fresh in
  cal_values out.2 = [2; 3]%float /\ cal_power out.2 = 0.5%float.
Proof.
  destruct (calibrate_loads_document Station.cfg
              (fun _ => Json (Some [2; 3]%float) (Some 0.5%float)) Station.table 0
              [2; 3]%float 0.5%float Station.fresh eq_refl eq_refl)
    as (_ & Hvalues & Hpower & _).
  split; [exact Hvalues | exact Hpower].
Defined.

(** X3: when the calibration run leaves a document without the key
    [cal_pwr], [calibrate] raises [KeyError] with the values already
    replaced and the power as it was, and with nothing queued and nothing
    logged; without the key [cal_values] it raises [KeyError] before any
    assignment; and for a file that is not JSON it raises the decoding
    error, which is a [ValueError] and so is logged by the command loop. *)
Theorem calibrate_partial_document (values : list float) (power : option float)
    (d : Daemon) :
  let partial := calibrate (fun _ => Json (Some values) None) d in
  let keyless := calibrate (fun _ => Json None power) d in
  let garbled := calibrate (fun _ => NotJson) d in
  partial.1 = Raise KeyError /\
  cal_values partial.2 = values /\
  cal_power partial.2 = cal_power d /\
  radio_queue partial.2 = radio_queue d /\
  command_error_logs partial.2 = command_error_logs d /\
  keyless.1 = Raise KeyError /\
  cal_values keyless.2 = cal_values d /\
  cal_power keyless.2 = cal_power d /\
  garbled.1 = Raise JSONDecodeError /\
  handled KeyError = false /\
  handled JSONDecodeError = true.
Proof.
  cbv zeta. unfold calibrate, bind, emit, modify, gets. cbn.
  repeat split.
Qed.

(** ** Radio settings and recorders *)

(** X4: a line [freq] followed by a number that [float] takes sets the
    centre frequency to that number of MHz in Hz and queues it under the
    name "freq"; the sample rate, the recorders, the pointing and the trace
    stay as they were, and only the line itself is logged. *)
Theorem freq_line_sets_frequency (cfg : Config) (rotor : Rotor)
    (np_cos : float -> float) (py_float : string -> option float)
    (radio_calibrate : file -> file) (args : string) (x : float) (d : Daemon) :
  ephemeris_locations d !! "freq"%string = None ->
  py_float (hd EmptyString (Py.split " " args)) = Some x ->
  let line := ("freq " +:+ args)%string in
  let hz := (x * float_of_Z (10 ^ 6))%float in
  let out := command_round cfg rotor np_cos py_float radio_calibrate line d in
  out.1 = Val tt /\
  radio_center_frequency out.2 = hz /\
  radio_queue out.2 = radio_queue d ++ [("freq"%string, VFloat hz)] /\
  radio_sample_frequency out.2 = radio_sample_frequency d /\
  radio_save_raw_task out.2 = radio_save_raw_task d /\
  radio_save_spec_task out.2 = radio_save_spec_task d /\
  rotor_cmd_location out.2 = rotor_cmd_location d /\
  trace out.2 = trace d /\
  command_error_logs out.2 =
    command_error_logs d ++ [Text ("Running Command '" +:+ line +:+ "'")].
Proof.
  intros Hobj Hnum. cbv zeta. apply not_an_object in Hobj.
  destruct (split_cons " " args) as (token & tokens & Hsplit).
  rewrite Hsplit in Hnum. cbn [hd] in Hnum.
  change ("freq " +:+ args)%string
    with (String "f" (String "r" (String "e" (String "q" (String " " args))))).
  unfold command_round, command_try, try_except, bind, modify, log_message, dispatch,
    gets, item, to_float.
  simpl. rewrite Hsplit. simpl. unfold bind. simpl. rewrite Hobj.
  simpl. rewrite Hnum. repeat split.
Qed.

Lemma freq_line_sets_frequency_witness :
  radio_queue
    (command_round Station.cfg Station.rotor Station.cos_taylor Station.decimal_float
       (fun f => f) "freq 1420.0" Station.fresh).2
  = [("freq"%string, VFloat 1420000000)].
Proof.
  exact (proj1 (proj2 (proj2
    (freq_line_sets_frequency Station.cfg Station.rotor Station.cos_taylor
       Station.decimal_float (fun f => f) "1420.0" 1420 Station.fresh eq_refl eq_refl)))).
Defined.

Lemma stop_recording_frame (d : Daemon) :
  let d' := (stop_recording d).2 in
  radio_sample_frequency d' = radio_sample_frequency d /\
  command_error_logs d' = command_error_logs d /\
  radio_queue d' = radio_queue d /\
  trace d' = trace d ++ terminations d.
Proof.
  cbv zeta. unfold terminations, stop_recording, bind, gets, modify, emit, ret. cbn.
  destruct (radio_save_raw_task d) eqn:Hr; cbn;
    destruct (radio_save_spec_task d) eqn:Hs; cbn; rewrite ?Hr, ?Hs; cbn;
    rewrite <- ?app_assoc, ?app_nil_r; auto.
Qed.

Lemma set_samp_rate_fields (rate : float) (d : Daemon) :
  let d' := (set_samp_rate rate d).2 in
  radio_sample_frequency d' = rate /\
  radio_queue d' = radio_queue d ++ [("samp_rate"%string, VFloat rate)] /\
  radio_save_spec_task d' = radio_save_spec_task d /\
  trace d' =
    trace d ++ match radio_save_raw_task d with
               | Some t => [TaskTerminate (task_call t)]
               | None => []
               end.
Proof.
  cbv zeta. unfold set_samp_rate, bind, gets, modify, emit, radio_put, ret. cbn.
  destruct (radio_save_raw_task d) eqn:Hr; cbn; rewrite ?app_nil_r; auto.
Qed.

(** X5: [set_samp_rate] keeps the new rate, queues it under the name
    "samp_rate" and leaves the spectral recorder task alone; with no raw
    recorder held it calls nothing.  A raw recording started after the next
    [stop_recording] is built with the new rate. *)
Theorem samp_rate_reaches_next_recording (cfg : Config) (rate : float)
    (name : option string) (d : Daemon) :
  raw_name name = true ->
  let d1 := (set_samp_rate rate d).2 in
  let d2 := (start_recording cfg name (stop_recording d1).2).2 in
  radio_sample_frequency d1 = rate /\
  radio_queue d1 = radio_queue d ++ [("samp_rate"%string, VFloat rate)] /\
  radio_save_spec_task d1 = radio_save_spec_task d /\
  (radio_save_raw_task d = None -> trace d1 = trace d) /\
  radio_save_raw_task d2 =
    Some {| task_call := RadioSaveRawTask rate (save_dir cfg) name;
            task_state := Started |} /\
  radio_save_spec_task d2 = None.
Proof.
  intros Hname. cbv zeta.
  destruct (stop_recording_clears (set_samp_rate rate d).2) as (_ & Hraw & Hspec).
  destruct (stop_recording_frame (set_samp_rate rate d).2) as (Hrate & _).
  destruct (set_samp_rate_fields rate d) as (Hrate1 & Hqueue1 & Hspec1 & Htrace1).
  rewrite (start_recording_raw cfg name _ Hraw Hspec Hname).
  cbn [snd radio_save_raw_task radio_save_spec_task set_trace set_radio_save_raw_task].
  rewrite Hrate, Hrate1.
  repeat match goal with |- _ /\ _ => split end; auto.
  intros Hnone. rewrite Htrace1, Hnone. apply app_nil_r.
Qed.

Lemma samp_rate_reaches_next_recording_witness :
  radio_save_raw_task
    (start_recording Station.cfg (Some "night.raw"%string)
       (stop_recording (set_samp_rate 2000000 Station.fresh).2).2).2
  = Some {| task_call := RadioSaveRawTask 2000000 "~/Desktop/SRT-Saves"
                           (Some "night.raw"%string);
            task_state := Started |}.
Proof.
  exact (proj1 (proj2 (proj2 (proj2 (proj2
    (samp_rate_reaches_next_recording Station.cfg 2000000 (Some "night.raw"%string)
       Station.fresh eq_refl)))))).
Defined.

(** X6: [stop_recording] terminates the raw task and then the spectral
    task, those that are held, logs nothing and leaves both attributes
    empty, so that the [start_recording] that follows it is never refused:
    it builds one task, by the name, and logs nothing. *)
Theorem recording_restarts_after_stop (cfg : Config) (name : option string)
    (d : Daemon) :
  let d1 := (stop_recording d).2 in
  let out := start_recording cfg name d1 in
  trace d1 = trace d ++ terminations d /\
  command_error_logs d1 = command_error_logs d /\
  out.1 = Val tt /\
  command_error_logs out.2 = command_error_logs d /\
  (if raw_name name
   then is_Some (radio_save_raw_task out.2) /\ radio_save_spec_task out.2 = None
   else radio_save_raw_task out.2 = None /\ is_Some (radio_save_spec_task out.2)).
Proof.
  cbv zeta.
  destruct (stop_recording_clears d) as (_ & Hraw & Hspec).
  destruct (stop_recording_frame d) as (_ & Hlogs & _ & Htrace).
  split; [exact Htrace |]. split; [exact Hlogs |].
  destruct (raw_name name) eqn:Hname.
  - rewrite (start_recording_raw cfg name _ Hraw Hspec Hname). cbn.
    repeat split; eauto.
  - destruct name as [n |]; [ | discriminate Hname].
    apply negb_false_iff in Hname.
    rewrite (start_recording_spec cfg n _ Hraw Hspec Hname). cbn.
    repeat split; eauto.
Qed.

(** ** The parameter relay *)

Lemma sleep_tenth (d : Daemon) :
  sleep (Seconds 0x1.999999999999ap-4) d = (Val tt, set_trace (trace d ++ [relay_pause]) d).
Proof. reflexivity. Qed.

(** The rounds of the relay over entries whose calls return. *)
Lemma relay_rounds_sent (rpc_server : rpc_call -> option exn)
    (sent behind : list (string * value)) (more : nat) (d : Daemon) :
  radio_queue d = sent ++ behind ->
  Forall (fun call => rpc_server call = None) (calls_of sent) ->
  exists d',
    update_radio_settings rpc_server (length sent + more) d =
      (calls_of sent ++ (update_radio_settings rpc_server more d').1,
       (update_radio_settings rpc_server more d').2) /\
    radio_queue d' = behind /\
    trace d' = trace d ++ repeat relay_pause (length sent) /\
    command_error_logs d' = command_error_logs d /\
    rotor_cmd_location d' = rotor_cmd_location d.
Proof.
  revert d. induction sent as [| [method v] sent IH]; intros d Hqueue Hsent.
  - exists d. cbn. rewrite app_nil_r.
    destruct (update_radio_settings rpc_server more d). auto.
  - apply Forall_cons in Hsent. destruct Hsent as [Hcall Hsent].
    destruct (IH (set_trace (trace (set_radio_queue (sent ++ behind) d) ++ [relay_pause])
                    (set_radio_queue (sent ++ behind) d)) eq_refl Hsent)
      as (d' & Hrun & Hbehind & Htrace & Hlogs & Hcmd).
    exists d'. cbn [length Nat.add update_radio_settings].
    unfold update_radio_settings_round. rewrite Hqueue. cbn [app].
    cbn [fst snd] in Hcall. rewrite Hcall, sleep_tenth, Hrun.
    repeat split; auto.
    rewrite Htrace. cbn. rewrite <- app_assoc. reflexivity.
Qed.

(** X9: the relay makes its calls in the order in which the entries were
    put, [set_<name>(value)] for each, and sleeps a tenth of a second
    behind each call that returns.  When every call returns, it ends up
    waiting on the empty queue.  When a call raises, nothing in the thread
    handles it: the relay ends there, with that entry taken off the queue
    and no sleep behind its call, and the entries behind it stay queued,
    with no thread left to send them.  The log and the commanded position
    are not touched. *)
Theorem relay_is_fifo (rpc_server : rpc_call -> option exn)
    (sent behind : list (string * value)) (rounds : nat) (d : Daemon) :
  radio_queue d = sent ++ behind ->
  Forall (fun call => rpc_server call = None) (calls_of sent) ->
  (length sent < rounds)%nat ->
  let out := update_radio_settings rpc_server rounds d in
  let left := relay_daemon out.2 in
  let settled queue :=
    radio_queue left = queue /\
    trace left = trace d ++ repeat relay_pause (length sent) /\
    command_error_logs left = command_error_logs d /\
    rotor_cmd_location left = rotor_cmd_location d in
  match behind with
  | [] => out.1 = calls_of sent /\ out.2 = RelayWaiting left /\ settled []
  | entry :: later =>
      forall e,
        rpc_server (("set_" +:+ entry.1)%string, entry.2) = Some e ->
        out.1 = calls_of (sent ++ [entry]) /\ out.2 = RelayDied e left /\ settled later
  end.
Proof.
  intros Hqueue Hsent Hrounds. cbv zeta.
  replace rounds with (length sent + S (rounds - length sent - 1))%nat by lia.
  destruct (relay_rounds_sent rpc_server sent behind (S (rounds - length sent - 1)) d
              Hqueue Hsent) as (d' & Hrun & Hbehind & Htrace & Hlogs & Hcmd).
  rewrite Hrun. cbn [fst snd update_radio_settings].
  unfold update_radio_settings_round. rewrite Hbehind.
  destruct behind as [| [method v] later].
  - cbn [fst snd relay_daemon]. rewrite app_nil_r. repeat split; assumption.
  - intros e He. cbn [fst snd] in He. rewrite He. cbn [fst snd relay_daemon].
    unfold calls_of. rewrite map_app. cbn. repeat split; assumption.
Qed.

Lemma relay_is_fifo_witness :
  let refused := fun _ : rpc_call => Some ConnectionRefusedError in
  let d := (send_settings Station.cfg Station.fresh).2 in
  let out := update_radio_settings refused 10 d in
  out.1 = [("set_freq"%string, VFloat 1420000000)] /\
  out.2 = RelayDied ConnectionRefusedError (relay_daemon out.2) /\
  length (radio_queue (relay_daemon out.2)) = 9%nat.
Proof.
  pose proof (relay_is_fifo (fun _ => Some ConnectionRefusedError) []
                (radio_queue (send_settings Station.cfg Station.fresh).2) 10
                (send_settings Station.cfg Station.fresh).2 eq_refl (List.Forall_nil _)) as H.
  cbv zeta in H. specialize (H ltac:(cbn; lia)).
  destruct (H ConnectionRefusedError eq_refl) as (Hcalls & Hstate & Hqueue & _).
  cbv zeta. split; [exact Hcalls |]. split; [exact Hstate |].
  rewrite Hqueue. reflexivity.
Defined.
(** ** Lines that the loop passes over *)

(** X10: a line of fewer than two characters, or one that begins with an
    asterisk, is logged as running and becomes the current item, and
    nothing else happens, whatever it holds: a single digit does not
    sleep, and a one-letter object name is not pointed at. *)
Theorem short_or_comment_line_ignored (cfg : Config) (rotor : Rotor)
    (np_cos : float -> float) (py_float : string -> option float)
    (radio_calibrate : file -> file) (line : string) (d : Daemon) :
  (String.length line <? 2)%nat || Ascii.eqb (first_char line) "*" = true ->
  command_round cfg rotor np_cos py_float radio_calibrate line d =
    (Val tt,
     set_current_queue_item line
       (set_command_error_logs
          (command_error_logs d ++ [Text ("Running Command '" +:+ line +:+ "'")])
          (set_current_queue_item "None" d))).
Proof.
  intros Hskip.
  unfold command_round, command_try, try_except, bind, modify, log_message.
  rewrite Hskip. reflexivity.
Qed.

Lemma short_or_comment_line_ignored_witness :
  trace (command_round Station.cfg Station.rotor Station.cos_taylor Station.decimal_float
           (fun f => f) "5" Station.fresh).2 = [] /\
  trace (command_round Station.cfg Station.rotor Station.cos_taylor Station.decimal_float
           (fun f => f) "* stow" Station.fresh).2 = [].
Proof.
  rewrite (short_or_comment_line_ignored Station.cfg Station.rotor Station.cos_taylor
             Station.decimal_float (fun f => f) "5" Station.fresh eq_refl).
  rewrite (short_or_comment_line_ignored Station.cfg Station.rotor Station.cos_taylor
             Station.decimal_float (fun f => f) "* stow" Station.fresh eq_refl).
  split; reflexivity.
Defined.

(** ** Offsets *)

(** X13: the offsets of [point_at_offset] are taken from the destination,
    not from the commanded position: a second accepted offset replaces the
    first, and leaves the state that it would have left alone; a second
    offset that is rejected leaves the first in force.  The destination, the
    tracked object and the radio queue are those of before in every case. *)
Theorem offsets_do_not_add_up (rotor : Rotor) (first second : azel) (d : Daemon) :
  within rotor (azel_add (rotor_destination d) first) = true ->
  let d1 := (point_at_offset rotor first.1 first.2 d).2 in
  let d2 := (point_at_offset rotor second.1 second.2 d1).2 in
  rotor_destination d2 = rotor_destination d /\
  ephemeris_cmd_location d2 = ephemeris_cmd_location d /\
  radio_queue d2 = radio_queue d /\
  (if within rotor (azel_add (rotor_destination d) second)
   then rotor_offsets d2 = second /\
        rotor_cmd_location d2 = azel_add (rotor_destination d) second /\
        rotor_cmd_location d2 = rotor_cmd_location (point_at_offset rotor second.1 second.2 d).2
   else rotor_offsets d2 = first /\
        rotor_cmd_location d2 = azel_add (rotor_destination d) first /\
        trace d2 = trace d1).
Proof.
  intros Hfirst. cbv zeta. destruct first as [az1 el1], second as [az2 el2].
  cbn [fst snd].
  rewrite (point_at_offset_accepted rotor az1 el1 d Hfirst). cbn [snd].
  set (d1 := set_trace _ _).
  assert (Hdest : rotor_destination d1 = rotor_destination d) by reflexivity.
  destruct (within rotor (azel_add (rotor_destination d) (az2, el2))) eqn:Hsecond.
  - rewrite (point_at_offset_accepted rotor az2 el2 d1) by (rewrite Hdest; exact Hsecond).
    rewrite (point_at_offset_accepted rotor az2 el2 d Hsecond).
    cbn. repeat split.
  - rewrite (point_at_offset_rejected rotor az2 el2 d1) by (rewrite Hdest; exact Hsecond).
    cbn. repeat split.
Qed.

Lemma offsets_do_not_add_up_witness :
  let d1 := (point_at_offset Station.rotor 3 0 Station.tracking_sun).2 in
  rotor_offsets (point_at_offset Station.rotor 0 2 d1).2 = (0, 2)%float.
Proof.
  pose proof (offsets_do_not_add_up Station.rotor (3, 0)%float (0, 2)%float
                Station.tracking_sun eq_refl) as H.
  cbv zeta in H. destruct H as (_ & _ & _ & H).
  change (within Station.rotor
            (azel_add (rotor_destination Station.tracking_sun) (0, 2)%float)) with true in H.
  exact (proj1 H).
Defined.

(** ** What a command round never takes back *)

#[global] Instance only_appends_preorder : PreOrder only_appends.
Proof.
  split.
  - intros d. repeat split; exists []; rewrite app_nil_r; reflexivity.
  - intros a b c ((l1 & Hl1) & (q1 & Hq1) & (t1 & Ht1)) ((l2 & Hl2) & (q2 & Hq2) & (t2 & Ht2)).
    repeat split.
    + exists (l1 ++ l2). rewrite Hl2, Hl1, app_assoc. reflexivity.
    + exists (q1 ++ q2). rewrite Hq2, Hq1, app_assoc. reflexivity.
    + exists (t1 ++ t2). rewrite Ht2, Ht1, app_assoc. reflexivity.
Qed.

Ltac appends_leaf :=
  lazymatch goal with
  | |- keeps _ (modify _) =>
      apply keeps_modify; intros ?; unfold only_appends; cbn;
      repeat split;
      first [ eexists; reflexivity | exists []; rewrite app_nil_r; reflexivity ]
  end.

Ltac appends :=
  repeat first [ keeps_step
               | progress unfold sleep, emit, radio_put, log_message,
                   assign_rotor_cmd_location, await_arrival
               | appends_leaf ].

Section MethodsAppend.

Variable cfg : Config.
Variable rotor : Rotor.
Variable np_cos : float -> float.
Variable py_float : string -> option float.
Variable radio_calibrate : file -> file.

Lemma dispatch_appends (command : string) :
  keeps only_appends (dispatch cfg rotor np_cos py_float radio_calibrate command).
Proof.
  unfold dispatch, n_point_scan, n_point_scan_round, beam_switch, beam_switch_round,
    point_at_object, point_at_azel, point_at_offset, stow, calibrate, quit,
    start_recording, stop_recording, set_freq, set_samp_rate.
  appends.
Qed.

Lemma command_round_rest (line : string) (d : Daemon) :
  command_round cfg rotor np_cos py_float radio_calibrate line d =
  try_except
    (modify (set_current_queue_item line) ;;
     if (String.length line <? 2)%nat || Ascii.eqb (first_char line) "*" then ret tt
     else dispatch cfg rotor np_cos py_float radio_calibrate (unprefixed line))
    handled (fun e => log_message (ExnStr e))
    (set_command_error_logs
       (command_error_logs d ++ [Text ("Running Command '" +:+ line +:+ "'")])
       (set_current_queue_item "None" d)).
Proof. reflexivity. Qed.

End MethodsAppend.

(** X8: whatever the line, a command round only adds to the log, to the
    radio queue and to the trace: what was logged, queued or done before
    stays, in its order, and the first thing that the round logs is the
    line that it runs. *)
Theorem command_round_only_appends (cfg : Config) (rotor : Rotor)
    (np_cos : float -> float) (py_float : string -> option float)
    (radio_calibrate : file -> file) (line : string) (d : Daemon) :
  let out := (command_round cfg rotor np_cos py_float radio_calibrate line d).2 in
  (exists logs,
     command_error_logs out =
       command_error_logs d ++ Text ("Running Command '" +:+ line +:+ "'") :: logs) /\
  (exists puts, radio_queue out = radio_queue d ++ puts) /\
  (exists events, trace out = trace d ++ events).
Proof.
  cbv zeta. rewrite command_round_rest.
  set (d1 := set_command_error_logs _ _).
  assert (Hrest : only_appends d1
            (try_except
               (modify (set_current_queue_item line) ;;
                if (String.length line <? 2)%nat || Ascii.eqb (first_char line) "*"
                then ret tt
                else dispatch cfg rotor np_cos py_float radio_calibrate (unprefixed line))
               handled (fun e => log_message (ExnStr e)) d1).2).
  { refine ((_ : keeps only_appends _) d1).
    refine (keeps_try_except _ _ _ _ _ _).
    - refine (keeps_bind _ _ _ _ _); [appends | intros _].
      destruct (_ || _); [appends | apply dispatch_appends].
    - intros e. appends. }
  destruct Hrest as ((logs & Hlogs) & (puts & Hputs) & (events & Hevents)).
  repeat split.
  - exists logs. rewrite Hlogs. subst d1. cbn. rewrite <- app_assoc. reflexivity.
  - exists puts. rewrite Hputs. reflexivity.
  - exists events. rewrite Hevents. reflexivity.
Qed.

(** ** One recorder at a time *)

#[global] Instance one_recorder_kept_preorder : PreOrder one_recorder_kept.
Proof.
  split.
  - intros d H. exact H.
  - intros a b c Hab Hbc H. auto.
Qed.

Lemma start_recording_one (cfg : Config) (name : option string) :
  keeps one_recorder_kept (start_recording cfg name).
Proof.
  intros d Hone. unfold one_recorder in *.
  destruct (radio_save_raw_task d) as [t |] eqn:Hraw.
  - rewrite start_recording_refused by (left; rewrite Hraw; eauto).
    destruct Hone as [Hone | Hone]; [discriminate | right; exact Hone].
  - destruct (radio_save_spec_task d) as [t |] eqn:Hspec.
    + rewrite start_recording_refused by (right; rewrite Hspec; eauto). cbn. auto.
    + destruct (raw_name name) eqn:Hname.
      * rewrite (start_recording_raw cfg name d Hraw Hspec Hname). right. exact Hspec.
      * destruct name as [n |]; [ | discriminate Hname].
        apply negb_false_iff in Hname.
        rewrite (start_recording_spec cfg n d Hraw Hspec Hname). left. exact Hraw.
Qed.

Lemma stop_recording_one : keeps one_recorder_kept stop_recording.
Proof.
  intros d _. left. apply stop_recording_clears.
Qed.

Lemma set_samp_rate_one (rate : float) : keeps one_recorder_kept (set_samp_rate rate).
Proof.
  intros d Hone. unfold one_recorder in *.
  unfold set_samp_rate, bind, gets, modify, emit, radio_put.
  destruct (radio_save_raw_task d) eqn:Hraw; cbn; rewrite ?Hraw.
  - destruct Hone as [Hone | Hone]; [discriminate | auto].
  - auto.
Qed.

Create HintDb recorders discriminated.
#[export] Hint Resolve start_recording_one stop_recording_one set_samp_rate_one : recorders.

Ltac recorders_leaf :=
  lazymatch goal with
  | |- keeps _ (modify _) =>
      apply keeps_modify; intros ? ?; unfold one_recorder in *; cbn; assumption
  | |- _ => solve [eauto with recorders]
  end.

Ltac recorders :=
  repeat first [ keeps_step
               | progress unfold sleep, emit, radio_put, log_message,
                   assign_rotor_cmd_location, await_arrival
               | recorders_leaf ].

Lemma command_round_one cfg rotor np_cos py_float radio_calibrate (line : string) :
  keeps one_recorder_kept (command_round cfg rotor np_cos py_float radio_calibrate line).
Proof.
  unfold command_round, command_try, dispatch, n_point_scan, n_point_scan_round,
    beam_switch, beam_switch_round, point_at_object, point_at_azel, point_at_offset,
    stow, calibrate, quit, set_freq.
  recorders.
Qed.

(** X7: a command round that starts with at most one recorder task held
    ends with at most one held, whatever the line and however the round
    ends; a new daemon holds none, so that through every sequence of
    command lines the raw and the spectral recorder are never held
    together. *)
Theorem never_two_recorders (cfg : Config) (rotor : Rotor) (np_cos : float -> float)
    (py_float : string -> option float) (radio_calibrate : file -> file)
    (input_file : file) (table : gmap string azel) (now : Z) (queue : list string) :
  let round := command_round cfg rotor np_cos py_float radio_calibrate in
  (forall line d, one_recorder d -> one_recorder (round line d).2) /\
  one_recorder (after_commands round queue (init cfg input_file table now).2).
Proof.
  cbv zeta.
  assert (Hround : forall line d,
            one_recorder d ->
            one_recorder (command_round cfg rotor np_cos py_float radio_calibrate line d).2).
  { intros line d. apply command_round_one. }
  split; [exact Hround |].
  assert (Hinit : one_recorder (init cfg input_file table now).2).
  { left. unfold init.
    destruct (temp_sys cfg + temp_cal cfg =? 0)%float eqn:Hsum.
    - rewrite (init_calibration_zero cfg _ Hsum). reflexivity.
    - rewrite (init_calibration_divides cfg _ Hsum).
      unfold try_except, bind, modify, gets. cbn.
      destruct input_file as [| | [v |] [p |]]; cbn; try reflexivity;
        destruct (length v =? radio_num_bins cfg)%nat; reflexivity. }
  revert Hinit. generalize (init cfg input_file table now).2.
  induction queue as [| line queue IH]; intros d Hd; cbn [after_commands fold_left].
  - exact Hd.
  - apply IH, Hround, Hd.
Qed.

(** ** The tracked object is a known object *)

#[global] Instance tracks_only_preorder (allowed : string -> Prop) :
  PreOrder (tracks_only allowed).
Proof.
  split.
  - intros d. split; auto.
  - intros a b c [Htable1 H1] [Htable2 H2]. split; [congruence |].
    destruct H2 as [H2 | [H2 | H2]]; [rewrite H2; exact H1 | auto | auto].
Qed.

Ltac tracks_leaf :=
  lazymatch goal with
  | |- keeps _ (modify _) =>
      apply keeps_modify; intros ?; split;
      [ reflexivity
      | first [ left; reflexivity
              | right; left; reflexivity
              | right; right; eexists; split; [eassumption | reflexivity] ] ]
  end.

Ltac tracks :=
  repeat first [ keeps_step
               | progress unfold sleep, emit, radio_put, log_message,
                   assign_rotor_cmd_location, await_arrival
               | tracks_leaf ].

Lemma dispatch_tracks cfg rotor np_cos py_float radio_calibrate (command : string)
    (d : Daemon) :
  tracks_only (fun id => is_Some (ephemeris_locations d !! id)) d
    (dispatch cfg rotor np_cos py_float radio_calibrate command d).2.
Proof.
  unfold dispatch. unfold bind at 1. unfold gets at 1. cbv beta iota zeta.
  destruct (bool_decide
              (is_Some (ephemeris_locations d !! hd EmptyString (Py.split " " command))))
    eqn:Hobj.
  - apply bool_decide_eq_true in Hobj.
    refine ((_ : keeps (tracks_only (fun id => is_Some (ephemeris_locations d !! id))) _) d).
    unfold n_point_scan, n_point_scan_round, beam_switch, beam_switch_round,
      point_at_object, point_at_offset.
    tracks.
  - refine ((_ : keeps (tracks_only (fun id => is_Some (ephemeris_locations d !! id))) _) d).
    unfold point_at_azel, point_at_offset, stow, calibrate, quit,
      start_recording, stop_recording, set_freq, set_samp_rate.
    tracks.
Qed.

(** X14: a command round leaves the table of objects as it is, and the
    object that is tracked after it is the one tracked before, or none, or
    an object of the table; so when the tracked object was in the table
    before the round, it is after it, whatever the line and however the
    round ends. *)
Theorem tracked_object_is_known (cfg : Config) (rotor : Rotor) (np_cos : float -> float)
    (py_float : string -> option float) (radio_calibrate : file -> file)
    (line : string) (d : Daemon) :
  let out := (command_round cfg rotor np_cos py_float radio_calibrate line d).2 in
  tracks_only (fun id => is_Some (ephemeris_locations d !! id)) d out /\
  (tracks_known d -> tracks_known out).
Proof.
  cbv zeta.
  assert (Hround : tracks_only (fun id => is_Some (ephemeris_locations d !! id)) d
            (command_round cfg rotor np_cos py_float radio_calibrate line d).2).
  { rewrite command_round_rest.
    set (d1 := set_command_error_logs _ _).
    unfold try_except, bind, modify, log_message.
    destruct (_ || _).
    - cbn. split; auto.
    - pose proof (dispatch_tracks cfg rotor np_cos py_float radio_calibrate
                    (unprefixed line) (set_current_queue_item line d1)) as Hdispatch.
      destruct (dispatch cfg rotor np_cos py_float radio_calibrate (unprefixed line)
                  (set_current_queue_item line d1)) as [[[] | e] d2];
        [ | destruct (handled e)]; exact Hdispatch. }
  split; [exact Hround |].
  intros Hknown id Hid. destruct Hround as [Htable Htracked]. rewrite Htable.
  destruct Htracked as [Hsame | [Hnone | (id' & Hallowed & Hsome)]].
  - apply Hknown. rewrite <- Hsame. exact Hid.
  - rewrite Hnone in Hid. discriminate Hid.
  - rewrite Hsome in Hid. injection Hid as <-. exact Hallowed.
Qed.

(** ** The lines that raise nothing unhandled *)

Lemma mild_ret {A} (a : A) : mild (ret a).
Proof. intros d. exact I. Qed.

Lemma mild_gets {A} (field : Daemon -> A) : mild (gets field).
Proof. intros d. exact I. Qed.

Lemma mild_modify (f : Daemon -> Daemon) : mild (modify f).
Proof. intros d. exact I. Qed.

Lemma mild_raise {A} (e : exn) : handled e = true -> mild (@raise A e).
Proof. intros H d. exact H. Qed.

Lemma mild_bind {A B} (m : M A) (k : A -> M B) :
  mild m -> (forall a, mild (k a)) -> mild (bind m k).
Proof.
  intros Hm Hk d. unfold bind. specialize (Hm d).
  destruct (m d) as [[a | e] d']; cbn in *; [apply Hk | exact Hm].
Qed.

Lemma mild_for_each {A} (xs : list A) (body : A -> M unit) :
  (forall x, mild (body x)) -> mild (for_each xs body).
Proof.
  intros Hbody. induction xs as [| x xs IH]; cbn [for_each].
  - apply mild_ret.
  - apply mild_bind; [apply Hbody | intros _; exact IH].
Qed.

Lemma mild_item (parts : list string) (i : nat) : mild (item parts i).
Proof.
  unfold item. destruct (nth_error parts i); [apply mild_ret | apply mild_raise; reflexivity].
Qed.

Lemma mild_to_float (py_float : string -> option float) (s : string) :
  mild (to_float py_float s).
Proof.
  unfold to_float. destruct (py_float s); [apply mild_ret | apply mild_raise; reflexivity].
Qed.

Lemma mild_dwell : mild (sleep (Seconds 5)).
Proof. rewrite sleep_five. apply mild_modify. Qed.

Ltac mild_step :=
  lazymatch goal with
  | |- mild (bind _ _) => apply mild_bind; [ | intros ? ]
  | |- mild (ret _) => apply mild_ret
  | |- mild (raise _) => apply mild_raise; reflexivity
  | |- mild (gets _) => apply mild_gets
  | |- mild (modify _) => apply mild_modify
  | |- mild (item _ _) => apply mild_item
  | |- mild (to_float _ _) => apply mild_to_float
  | |- mild (for_each _ _) => apply mild_for_each; intros ?
  | |- mild (sleep (Seconds 5)) => apply mild_dwell
  | |- mild (if ?b then _ else _) => destruct b eqn:?
  | |- mild (match ?x with _ => _ end) => destruct x eqn:?
  | |- mild ((fun _ => _) _) => cbv beta
  | |- mild (let _ := _ in _) => cbv zeta
  end.

Ltac mildly :=
  repeat first [ mild_step
               | progress unfold emit, radio_put, log_message, assign_rotor_cmd_location,
                   await_arrival ].

Lemma point_at_offset_mild rotor az el : mild (point_at_offset rotor az el).
Proof. unfold point_at_offset. mildly. Qed.

Lemma point_at_object_returns rotor (id : string) (p : azel) (d : Daemon) :
  ephemeris_locations d !! id = Some p ->
  (point_at_object rotor id d).1 = Val tt.
Proof.
  intros Hp. unfold point_at_object, locate, bind, modify, radio_put, gets.
  simpl. rewrite Hp. simpl. destruct (within rotor p); reflexivity.
Qed.

Lemma n_point_scan_returns cfg rotor np_cos (id : string) (p : azel) (d : Daemon) :
  ephemeris_locations d !! id = Some p ->
  (n_point_scan cfg rotor np_cos id d).1 = Val tt.
Proof.
  intros Hp. destruct (within rotor p) eqn:Hin.
  - destruct (n_point_scan_runs cfg rotor np_cos id p d Hp Hin) as (d' & Hrun & _).
    rewrite Hrun. reflexivity.
  - apply (n_point_scan_outside_bounds cfg rotor np_cos id p d Hp Hin).
Qed.

Lemma beam_switch_after_locate cfg rotor np_cos (id : string) (p : azel) (d : Daemon) :
  ephemeris_locations d !! id = Some p ->
  beam_switch cfg rotor np_cos id d =
    (for_each (seq 0 3) (beam_switch_round cfg rotor np_cos p) ;;
     modify (set_rotor_offsets (0.0, 0.0)%float) ;;
     radio_put "beam_switch" (VInt 0) ;;
     modify (set_ephemeris_cmd_location (Some id)))
      (set_radio_queue (radio_queue d ++ [("soutrack"%string, VStr id)])
         (set_ephemeris_cmd_location None d)).
Proof.
  intros Hp. unfold beam_switch. unfold bind at 1 2. cbn [modify radio_put].
  unfold locate, bind at 1 2, gets.
  change (ephemeris_locations (set_radio_queue _ (set_ephemeris_cmd_location None d)))
    with (ephemeris_locations d).
  rewrite Hp. reflexivity.
Qed.

Lemma beam_switch_returns cfg rotor np_cos (id : string) (p : azel) (d : Daemon) :
  ephemeris_locations d !! id = Some p ->
  (beam_switch cfg rotor np_cos id d).1 = Val tt.
Proof.
  intros Hp. rewrite (beam_switch_after_locate cfg rotor np_cos id p d Hp).
  set (d0 := set_radio_queue _ _).
  assert (Hval : forall d1,
            match (for_each (seq 0 3) (beam_switch_round cfg rotor np_cos p) d1).1 with
            | Val _ => True
            | Raise _ => False
            end).
  { generalize (seq 0 3). intros legs. induction legs as [| j legs IH]; intros d1.
    - exact I.
    - cbn [for_each]. unfold bind at 1.
      destruct (within rotor p) eqn:Hin.
      + destruct (beam_switch_round_runs cfg rotor np_cos p j d1 Hin) as (d2 & Hrun & _).
        rewrite Hrun. apply IH.
      + assert (Hround : exists d2,
                  beam_switch_round cfg rotor np_cos p j d1 = (Val tt, d2)).
        { unfold beam_switch_round, radio_put, bind, modify. cbv zeta. rewrite Hin.
          unfold ret. rewrite sleep_five. eexists. reflexivity. }
        destruct Hround as (d2 & Hrun). rewrite Hrun. apply IH. }
  unfold bind at 1. specialize (Hval d0).
  destruct (for_each (seq 0 3) (beam_switch_round cfg rotor np_cos p) d0) as [[[] | e] d1];
    [reflexivity | contradiction].
Qed.

Lemma lookup_of_object (d : Daemon) (name : string) :
  bool_decide (is_Some (ephemeris_locations d !! name)) = true ->
  exists p, ephemeris_locations d !! name = Some p.
Proof. intros H. apply bool_decide_eq_true in H. destruct H as [p Hp]. eauto. Qed.

Lemma lookup_of_no_object (d : Daemon) (name : string) :
  bool_decide (is_Some (ephemeris_locations d !! name)) = false ->
  ephemeris_locations d !! name = None.
Proof.
  intros H. apply bool_decide_eq_false in H.
  destruct (ephemeris_locations d !! name) eqn:Hp; [ | reflexivity].
  exfalso. apply H. eauto.
Qed.

Lemma dispatch_mild cfg rotor np_cos py_float radio_calibrate (command : string) :
  let name := Py.lower (hd EmptyString (Py.split " " command)) in
  name <> "calibrate"%string ->
  name <> "wait"%string ->
  Py.isnumeric name = false ->
  length (Py.split ":" name) <> 5%nat ->
  mild (dispatch cfg rotor np_cos py_float radio_calibrate command).
Proof.
  intros name Hcal Hwait Hnum Hfive d.
  destruct (bool_decide
              (is_Some (ephemeris_locations d !! hd EmptyString (Py.split " " command))))
    eqn:Hobj.
  - destruct (lookup_of_object d _ Hobj) as (p & Hp).
    unfold dispatch. unfold bind at 1. unfold gets at 1. cbv beta iota zeta.
    rewrite Hobj.
    destruct (String.eqb _ "n"); [ | destruct (String.eqb _ "b")].
    + rewrite (n_point_scan_returns cfg rotor np_cos _ p d Hp). exact I.
    + rewrite (beam_switch_returns cfg rotor np_cos _ p d Hp). exact I.
    + rewrite (point_at_object_returns rotor _ p d Hp). exact I.
  - apply lookup_of_no_object in Hobj.
    destruct (String.eqb_spec (hd EmptyString (Py.split ":" name)) "lst") as [Hlst | Hlst].
    + rewrite (dispatch_lst cfg rotor np_cos py_float radio_calibrate command d Hobj Hlst).
      reflexivity.
    + apply not_an_object in Hobj.
      unfold dispatch. unfold bind at 1. unfold gets at 1. cbv beta iota zeta.
      rewrite Hobj. fold name.
      apply String.eqb_neq in Hcal, Hwait, Hlst. apply Nat.eqb_neq in Hfive.
      rewrite Hcal, Hwait, Hnum, Hlst, Hfive.
      refine ((_ : mild _) d).
      unfold point_at_azel, point_at_offset, stow, quit, start_recording, stop_recording,
        set_freq, set_samp_rate.
      mildly.
Qed.

Lemma safe_line_raises_none cfg rotor np_cos py_float radio_calibrate (line : string)
    (d : Daemon) :
  command_name_of line <> "calibrate"%string ->
  command_name_of line <> "wait"%string ->
  Py.isnumeric (command_name_of line) = false ->
  length (Py.split ":" (command_name_of line)) <> 5%nat ->
  exists d', command_round cfg rotor np_cos py_float radio_calibrate line d = (Val tt, d').
Proof.
  intros Hcal Hwait Hnum Hfive.
  assert (Hmild : mild (command_try cfg rotor np_cos py_float radio_calibrate line)).
  { unfold command_try. mildly.
    apply dispatch_mild; assumption. }
  pose proof (command_round_handles cfg rotor np_cos py_float radio_calibrate line d)
    as Hround.
  cbv zeta in Hround. specialize (Hmild d).
  destruct (command_try cfg rotor np_cos py_float radio_calibrate line d) as [[[] | e] d1];
    cbn in Hmild.
  - exists d1. exact Hround.
  - rewrite Hmild in Hround. eexists. exact Hround.
Qed.

(** X15: a line whose name is not [calibrate], not [wait], not a number
    and not a time stamp of five fields raises nothing that the command
    loop does not handle, whatever it holds and whatever the state: every
    exception of the body of its round is of a handled class, none leaves
    the round, and a command loop that dies on a queue beginning with such a
    line dies on a line behind it.  Whether the arrival waits of the line
    end is up to the rotor thread. *)
Theorem safe_line_raises_nothing (cfg : Config) (rotor : Rotor) (np_cos : float -> float)
    (py_float : string -> option float) (radio_calibrate : file -> file)
    (line : string) (rest : list string) (d : Daemon) :
  command_name_of line <> "calibrate"%string ->
  command_name_of line <> "wait"%string ->
  Py.isnumeric (command_name_of line) = false ->
  length (Py.split ":" (command_name_of line)) <> 5%nat ->
  let out := command_round cfg rotor np_cos py_float radio_calibrate line d in
  (forall e, (command_try cfg rotor np_cos py_float radio_calibrate line d).1 = Raise e ->
             handled e = true) /\
  (forall e, out.1 <> Raise e) /\
  (forall e d',
     command_loop cfg rotor np_cos py_float radio_calibrate true (line :: rest) d
       = Died e d' ->
     command_loop cfg rotor np_cos py_float radio_calibrate true rest out.2 = Died e d').
Proof.
  intros Hcal Hwait Hnum Hfive. cbv zeta.
  destruct (safe_line_raises_none cfg rotor np_cos py_float radio_calibrate line d
              Hcal Hwait Hnum Hfive) as (d' & Hround).
  repeat split.
  - intros e Htry.
    assert (Hmild : mild (command_try cfg rotor np_cos py_float radio_calibrate line)).
    { unfold command_try. mildly. apply dispatch_mild; assumption. }
    specialize (Hmild d). rewrite Htry in Hmild. exact Hmild.
  - intros e. rewrite Hround. discriminate.
  - intros e d''. rewrite (command_loop_next _ _ _ _ _ line rest d d' Hround), Hround.
    auto.
Qed.

Lemma safe_line_raises_nothing_witness :
  (command_round Station.cfg Station.rotor Station.cos_taylor Station.decimal_float
     (fun f => f) "Zenith n" Station.fresh).1 = Val tt.
Proof.
  assert (H : forall e,
            (command_round Station.cfg Station.rotor Station.cos_taylor
               Station.decimal_float (fun f => f) "Zenith n" Station.fresh).1 <> Raise e).
  { refine (proj1 (proj2
      (safe_line_raises_nothing Station.cfg Station.rotor Station.cos_taylor
         Station.decimal_float (fun f => f) "Zenith n" [] Station.fresh _ _ _ _))).
    - intros H. vm_compute in H. discriminate H.
    - intros H. vm_compute in H. discriminate H.
    - reflexivity.
    - intros H. vm_compute in H. discriminate H. }
  destruct (command_round _ _ _ _ _ _ _).1 as [[] | e]; [reflexivity |].
  destruct (H e eq_refl).
Defined.

(** ** Scans and the ephemeris loop *)

Lemma beam_switch_outside_bounds cfg rotor np_cos (id : string) (p : azel) (d : Daemon) :
  ephemeris_locations d !! id = Some p ->
  within rotor p = false ->
  exists d',
    beam_switch cfg rotor np_cos id d = (Val tt, d') /\
    trace d' = trace d ++ repeat (Sleep (Seconds 5)) 3 /\
    rotor_cmd_location d' = rotor_cmd_location d /\
    command_error_logs d' = command_error_logs d /\
    ephemeris_cmd_location d' = Some id.
Proof.
  intros Hp Hout. rewrite (beam_switch_after_locate cfg rotor np_cos id p d Hp).
  set (d0 := set_radio_queue _ _).
  assert (Hloop : forall legs d1,
            exists d2,
              for_each legs (beam_switch_round cfg rotor np_cos p) d1 = (Val tt, d2) /\
              trace d2 = trace d1 ++ repeat (Sleep (Seconds 5)) (length legs) /\
              rotor_cmd_location d2 = rotor_cmd_location d1 /\
              command_error_logs d2 = command_error_logs d1).
  { induction legs as [| j legs IH]; intros d1.
    - exists d1. cbn. rewrite app_nil_r. auto.
    - assert (Hround :
        beam_switch_round cfg rotor np_cos p j d1 =
          (Val tt,
           set_trace (trace d1 ++ [Sleep (Seconds 5)])
             (set_radio_queue
                (radio_queue d1 ++ [("beam_switch"%string, VInt (Z.of_nat j + 1))]) d1))).
      { unfold beam_switch_round, radio_put, bind, modify. cbv zeta. rewrite Hout.
        unfold ret. rewrite sleep_five. reflexivity. }
      destruct (IH (set_trace (trace d1 ++ [Sleep (Seconds 5)])
                      (set_radio_queue
                         (radio_queue d1
                          ++ [("beam_switch"%string, VInt (Z.of_nat j + 1))]) d1)))
        as (d2 & Hrun & Htrace & Hcmd & Hlogs).
      exists d2. cbn [for_each]. unfold bind at 1. rewrite Hround.
      split; [exact Hrun |]. rewrite Htrace, Hcmd, Hlogs. cbn.
      rewrite <- app_assoc. auto. }
  destruct (Hloop (seq 0 3) d0) as (d2 & Hrun & Htrace & Hcmd & Hlogs).
  eexists. split.
  - unfold bind at 1. rewrite Hrun. reflexivity.
  - cbn. rewrite Htrace, Hcmd, Hlogs. auto.
Qed.

(** The log is left alone by an n-point scan about an object outside the
    bounds: no offset is tried, so none is rejected. *)
Lemma n_point_scan_outside_bounds_logs cfg rotor np_cos (id : string) (p : azel)
    (d : Daemon) :
  ephemeris_locations d !! id = Some p ->
  within rotor p = false ->
  command_error_logs (n_point_scan cfg rotor np_cos id d).2 = command_error_logs d.
Proof.
  intros Hp Hout.
  set (d0 := set_radio_queue (radio_queue d ++ [("soutrack"%string, VStr id)])
               (set_ephemeris_cmd_location None d)).
  assert (Hround : forall scan d1,
            ephemeris_locations d1 !! id = Some p ->
            n_point_scan_round cfg rotor np_cos id scan d1 =
              (Val tt, set_trace (trace d1 ++ [Sleep (Seconds 5)]) d1)).
  { intros scan d1 Hp1. unfold n_point_scan_round, locate, bind, gets. rewrite Hp1.
    unfold ret. cbv beta iota zeta. rewrite Hout. reflexivity. }
  assert (Hloop : forall scans d1,
            ephemeris_locations d1 !! id = Some p ->
            exists d',
              for_each scans (n_point_scan_round cfg rotor np_cos id) d1 = (Val tt, d') /\
              command_error_logs d' = command_error_logs d1).
  { induction scans as [| scan scans IH]; intros d1 Hp1.
    - exists d1. cbn. auto.
    - destruct (IH (set_trace (trace d1 ++ [Sleep (Seconds 5)]) d1) Hp1)
        as (d' & Hrun & Hlogs).
      exists d'. cbn [for_each]. unfold bind. rewrite (Hround scan d1 Hp1), Hrun.
      split; [reflexivity |]. rewrite Hlogs. reflexivity. }
  destruct (Hloop (seq 0 25) d0 Hp) as (d' & Hrun & Hlogs).
  assert (Hscan : n_point_scan cfg rotor np_cos id d =
                    (Val tt, set_ephemeris_cmd_location (Some id)
                               (set_rotor_offsets (0.0, 0.0)%float d'))).
  { unfold n_point_scan. unfold bind at 1 2. cbn [modify radio_put].
    change (set_radio_queue _ (set_ephemeris_cmd_location None d)) with d0.
    unfold bind at 1. rewrite Hrun. reflexivity. }
  rewrite Hscan. cbn. rewrite Hlogs. reflexivity.
Qed.

(** C1, amended: every commanded position that [point_at_object],
    [point_at_azel], [point_at_offset], the scans or a round of the
    ephemeris loop assign has passed the bounds check of the rotor.  For a
    target outside the bounds none of them commits a commanded position:
    [point_at_object] and [point_at_azel] log the rejection and leave the
    tracked object unset; the ephemeris round logs it and clears the
    tracked object; [point_at_offset] logs it and leaves the tracked
    object, the offsets and the commanded position as they were; the
    n-point scan and the beam switch about an object outside the bounds log
    nothing, only dwell, 25 and 3 times five seconds, and end with the
    object set as the tracked one. *)
Theorem commanded_position_within_bounds (cfg : Config) (rotor : Rotor)
    (np_cos : float -> float) (d : Daemon) :
  (forall op, commands_within rotor d (run_pointing cfg rotor np_cos op d).2) /\
  (forall id p,
     ephemeris_locations d !! id = Some p -> within rotor p = false ->
     let out := (point_at_object rotor id d).2 in
     trace out = trace d /\
     rotor_cmd_location out = rotor_cmd_location d /\
     rotor_destination out = rotor_destination d /\
     ephemeris_cmd_location out = None /\
     command_error_logs out =
       command_error_logs d ++ [Text ("Object " +:+ id +:+ " Not in Motor Bounds")]) /\
  (forall az el,
     within rotor (az, el) = false ->
     let out := (point_at_azel rotor az el d).2 in
     trace out = trace d /\
     rotor_cmd_location out = rotor_cmd_location d /\
     rotor_destination out = rotor_destination d /\
     ephemeris_cmd_location out = None /\
     command_error_logs out = command_error_logs d ++ [ObjectAtNotInBounds (az, el)]) /\
  (forall az_off el_off,
     within rotor (azel_add (rotor_destination d) (az_off, el_off)) = false ->
     let out := (point_at_offset rotor az_off el_off d).2 in
     trace out = trace d /\
     rotor_cmd_location out = rotor_cmd_location d /\
     rotor_offsets out = rotor_offsets d /\
     ephemeris_cmd_location out = ephemeris_cmd_location d /\
     command_error_logs out =
       command_error_logs d ++ [OffsetOutOfBounds (az_off, el_off)]) /\
  (forall fresh id p,
     ephemeris_cmd_location d = Some id -> fresh !! id = Some p ->
     within rotor p && within rotor (azel_add p (rotor_offsets d)) = false ->
     let out := (update_ephemeris_location_round rotor fresh d).2 in
     trace out = trace d ++ [Sleep (Seconds 1)] /\
     rotor_cmd_location out = rotor_cmd_location d /\
     rotor_destination out = rotor_destination d /\
     ephemeris_cmd_location out = None /\
     command_error_logs out =
       command_error_logs d ++ [Text ("Object " +:+ id +:+ " moved out of motor bounds")]) /\
  (forall id p,
     ephemeris_locations d !! id = Some p -> within rotor p = false ->
     let scan := (n_point_scan cfg rotor np_cos id d).2 in
     let switch := (beam_switch cfg rotor np_cos id d).2 in
     trace scan = trace d ++ repeat (Sleep (Seconds 5)) 25 /\
     rotor_cmd_location scan = rotor_cmd_location d /\
     command_error_logs scan = command_error_logs d /\
     ephemeris_cmd_location scan = Some id /\
     trace switch = trace d ++ repeat (Sleep (Seconds 5)) 3 /\
     rotor_cmd_location switch = rotor_cmd_location d /\
     command_error_logs switch = command_error_logs d /\
     ephemeris_cmd_location switch = Some id).
Proof.
  repeat match goal with |- _ /\ _ => split end.
  - intros op. apply run_pointing_within.
  - intros id p Hp Hout. cbv zeta.
    rewrite (point_at_object_rejected rotor id p d Hp Hout). repeat split.
  - intros az el Hout. cbv zeta.
    rewrite (point_at_azel_rejected rotor az el d Hout). repeat split.
  - intros az_off el_off Hout. cbv zeta.
    rewrite (point_at_offset_rejected rotor az_off el_off d Hout). repeat split.
  - intros fresh id p Hid Hp Hout. cbv zeta.
    rewrite (ephemeris_round_rejected rotor fresh id p d Hid Hp Hout). repeat split.
  - intros id p Hp Hout. cbv zeta.
    destruct (n_point_scan_outside_bounds cfg rotor np_cos id p d Hp Hout)
      as (_ & H2 & H3 & H4).
    destruct (beam_switch_outside_bounds cfg rotor np_cos id p d Hp Hout)
      as (d' & Hrun & H5 & H6 & H7 & H8).
    pose proof (n_point_scan_outside_bounds_logs cfg rotor np_cos id p d Hp Hout) as Hlogs.
    rewrite Hrun. cbn [fst snd]. repeat split; assumption.
Qed.

(** C1 as stated fails twice.  While the Sun is tracked, an offset that
    leads out of the bounds is rejected and the Sun stays the tracked
    object; and [stow] commits a stow position that the bounds check
    rejects. *)
Lemma pointing_bounds_counterexample :
  let rejected := (point_at_offset Station.rotor 0 60 Station.tracking_sun).2 in
  let stowed := (stow Station.low_stow_cfg Station.fresh).2 in
  ephemeris_cmd_location Station.tracking_sun = Some "Sun"%string /\
  within Station.rotor (azel_add (rotor_destination Station.tracking_sun) (0, 60)%float)
    = false /\
  ephemeris_cmd_location rejected = Some "Sun"%string /\
  rotor_cmd_location stowed = (0, -5)%float /\
  within Station.rotor (rotor_cmd_location stowed) = false /\
  In (SetCmd (0, -5)%float) (trace stowed).
Proof.
  cbv zeta. repeat match goal with |- _ /\ _ => split end; vm_compute; auto.
Qed.

(** X16: a scan about an object of the table that is outside the bounds
    commands no position and logs no rejection: the n-point scan only
    dwells 25 times and the beam switch 3 times, the commanded position
    stays as it was, and both end with the object as the tracked one. *)
Theorem scans_outside_bounds_track (cfg : Config) (rotor : Rotor)
    (np_cos : float -> float) (id : string) (p : azel) (d : Daemon) :
  ephemeris_locations d !! id = Some p ->
  within rotor p = false ->
  let scan := n_point_scan cfg rotor np_cos id d in
  let switch := beam_switch cfg rotor np_cos id d in
  scan.1 = Val tt /\
  trace scan.2 = trace d ++ repeat (Sleep (Seconds 5)) 25 /\
  rotor_cmd_location scan.2 = rotor_cmd_location d /\
  command_error_logs scan.2 = command_error_logs d /\
  ephemeris_cmd_location scan.2 = Some id /\
  switch.1 = Val tt /\
  trace switch.2 = trace d ++ repeat (Sleep (Seconds 5)) 3 /\
  rotor_cmd_location switch.2 = rotor_cmd_location d /\
  command_error_logs switch.2 = command_error_logs d /\
  ephemeris_cmd_location switch.2 = Some id.
Proof.
  intros Hp Hout. cbv zeta.
  destruct (n_point_scan_outside_bounds cfg rotor np_cos id p d Hp Hout)
    as (H1 & H2 & H3 & H4).
  destruct (beam_switch_outside_bounds cfg rotor np_cos id p d Hp Hout)
    as (d' & Hrun & H5 & H6 & H7 & H8).
  pose proof (n_point_scan_outside_bounds_logs cfg rotor np_cos id p d Hp Hout) as Hlogs.
  rewrite Hrun. cbn [fst snd]. repeat split; assumption.
Qed.

Lemma scans_outside_bounds_track_witness :
  ephemeris_cmd_location
    (n_point_scan Station.cfg Station.rotor Station.cos_taylor "Below" Station.fresh).2
  = Some "Below"%string.
Proof.
  exact (proj1 (proj2 (proj2 (proj2 (proj2
    (scans_outside_bounds_track Station.cfg Station.rotor Station.cos_taylor "Below"
       (90, -10)%float Station.fresh eq_refl eq_refl)))))).
Defined.

(** X17: when the tracked object is not in the table that the tracker
    returns, the round of the ephemeris loop raises [KeyError] with the new
    table in place and the object still set as tracked; the pointing, the
    log and the trace are as they were, and the round has not slept. *)
Theorem ephemeris_round_missing_object (rotor : Rotor) (fresh : gmap string azel)
    (id : string) (d : Daemon) :
  ephemeris_cmd_location d = Some id ->
  fresh !! id = None ->
  let out := update_ephemeris_location_round rotor fresh d in
  out.1 = Raise KeyError /\
  ephemeris_locations out.2 = fresh /\
  ephemeris_cmd_location out.2 = Some id /\
  rotor_destination out.2 = rotor_destination d /\
  rotor_cmd_location out.2 = rotor_cmd_location d /\
  command_error_logs out.2 = command_error_logs d /\
  trace out.2 = trace d.
Proof.
  intros Hid Hmissing. cbv zeta.
  unfold update_ephemeris_location_round, locate, bind, modify, gets.
  simpl. rewrite Hid. simpl. rewrite Hmissing. simpl. repeat split. exact Hid.
Qed.

Lemma ephemeris_round_missing_object_witness :
  (update_ephemeris_location_round Station.rotor ∅ Station.tracking_sun).1 = Raise KeyError.
Proof.
  exact (proj1 (ephemeris_round_missing_object Station.rotor ∅ "Sun" Station.tracking_sun
                  eq_refl eq_refl)).
Defined.

Lemma for_each_app {A} (xs ys : list A) (body : A -> M unit) (d : Daemon) :
  for_each (xs ++ ys) body d = (for_each xs body ;; for_each ys body) d.
Proof.
  revert d. induction xs as [| x xs IH]; intros d; cbn [app for_each].
  - reflexivity.
  - unfold bind. destruct (body x d) as [[[] | e] d1]; [ | reflexivity].
    rewrite IH. reflexivity.
Qed.

Lemma n_point_scan_rounds_keep_table cfg rotor np_cos (id : string) (p : azel)
    (scans : list nat) (d : Daemon) :
  ephemeris_locations d !! id = Some p ->
  within rotor p = true ->
  exists d',
    for_each scans (n_point_scan_round cfg rotor np_cos id) d = (Val tt, d') /\
    ephemeris_locations d' = ephemeris_locations d.
Proof.
  intros Hp Hin. revert d Hp. induction scans as [| scan scans IH]; intros d Hp.
  - exists d. auto.
  - destruct (n_point_scan_round_runs cfg rotor np_cos id p scan d Hp Hin)
      as (d1 & Hrun & Htable & _).
    rewrite <- Htable in Hp. destruct (IH d1 Hp) as (d' & Hrest & Htable').
    exists d'. cbn [for_each]. unfold bind at 1. rewrite Hrun.
    split; [exact Hrest | congruence].
Qed.

Lemma sleep_one : sleep (Seconds 1) = emit (Sleep (Seconds 1)).
Proof. reflexivity. Qed.

Lemma n_point_scan_ends_on_last_cell cfg rotor np_cos (id : string) (p : azel)
    (d : Daemon) :
  ephemeris_locations d !! id = Some p ->
  within rotor p = true ->
  within rotor (azel_add p (grid_offset cfg np_cos p 2 2)) = true ->
  exists d',
    n_point_scan cfg rotor np_cos id d = (Val tt, d') /\
    rotor_offsets d' = (0.0, 0.0)%float /\
    rotor_destination d' = p /\
    rotor_cmd_location d' = azel_add p (grid_offset cfg np_cos p 2 2) /\
    ephemeris_cmd_location d' = Some id.
Proof.
  intros Hp Hin Hlast.
  set (d0 := set_radio_queue (radio_queue d ++ [("soutrack"%string, VStr id)])
               (set_ephemeris_cmd_location None d)).
  destruct (n_point_scan_rounds_keep_table cfg rotor np_cos id p (seq 0 24) d0 Hp Hin)
    as (d1 & Hrun & Htable).
  assert (Hp1 : ephemeris_locations d1 !! id = Some p) by (rewrite Htable; exact Hp).
  assert (Hround :
    n_point_scan_round cfg rotor np_cos id 24 d1 =
      (Val tt,
       set_trace
         ((trace d1 ++ [SetCmd (azel_add p (grid_offset cfg np_cos p 2 2));
                        Await (azel_add p (grid_offset cfg np_cos p 2 2))])
          ++ [Sleep (Seconds 5)])
         (set_rotor_cmd_location (azel_add p (grid_offset cfg np_cos p 2 2))
            (set_rotor_offsets (grid_offset cfg np_cos p 2 2)
               (set_rotor_destination p d1))))).
  { unfold n_point_scan_round, locate, bind, gets. rewrite Hp1.
    unfold ret. cbv beta iota zeta. rewrite Hin. cbn [modify].
    change (Z.of_nat 24 / 5 - 2) with 2. change (Z.of_nat 24 mod 5 - 2) with 2.
    fold (grid_offset cfg np_cos p 2 2).
    rewrite (point_at_offset_accepted rotor _ _ (set_rotor_destination p d1))
      by exact Hlast.
    rewrite sleep_five. reflexivity. }
  eexists. split.
  - unfold n_point_scan. unfold bind at 1 2. cbn [modify radio_put].
    change (set_radio_queue _ (set_ephemeris_cmd_location None d)) with d0.
    change (seq 0 25) with (seq 0 24 ++ [24%nat]).
    unfold bind at 1. rewrite for_each_app. unfold bind at 1. rewrite Hrun.
    cbn [for_each]. unfold bind at 1. rewrite Hround. reflexivity.
  - cbn. auto.
Qed.

Lemma ephemeris_round_follows rotor (fresh : gmap string azel) (id : string)
    (p : azel) (d : Daemon) :
  ephemeris_cmd_location d = Some id ->
  fresh !! id = Some p ->
  within rotor p && within rotor (azel_add p (rotor_offsets d)) = true ->
  update_ephemeris_location_round rotor fresh d =
    (Val tt,
     set_trace ((trace d ++ [SetCmd (azel_add p (rotor_offsets d))])
                ++ [Sleep (Seconds 1)])
       (set_rotor_cmd_location (azel_add p (rotor_offsets d))
          (set_rotor_destination p (set_ephemeris_locations fresh d)))).
Proof.
  intros Hid Hp Hin.
  unfold update_ephemeris_location_round, locate, bind, modify, gets,
    assign_rotor_cmd_location.
  simpl. rewrite Hid. simpl. rewrite Hp. simpl. rewrite Hin. reflexivity.
Qed.

(** X20: after an n-point scan whose last cell was commanded, the offsets
    read (0, 0) and the destination is the object, while the commanded
    position is still that of the last cell, the corner [i = j = 2] of the
    grid.  The next round of the ephemeris loop, finding the object within
    the bounds, commands the object's own position, with the zero offsets
    added, and goes on tracking it. *)
Theorem refresh_after_scan_recommands (cfg : Config) (rotor : Rotor)
    (np_cos : float -> float) (fresh : gmap string azel) (id : string)
    (p p' : azel) (d : Daemon) :
  ephemeris_locations d !! id = Some p ->
  within rotor p = true ->
  within rotor (azel_add p (grid_offset cfg np_cos p 2 2)) = true ->
  fresh !! id = Some p' ->
  within rotor p' && within rotor (azel_add p' (0.0, 0.0)%float) = true ->
  let scanned := (n_point_scan cfg rotor np_cos id d).2 in
  let out := update_ephemeris_location_round rotor fresh scanned in
  rotor_offsets scanned = (0.0, 0.0)%float /\
  rotor_destination scanned = p /\
  rotor_cmd_location scanned = azel_add p (grid_offset cfg np_cos p 2 2) /\
  out.1 = Val tt /\
  rotor_destination out.2 = p' /\
  rotor_cmd_location out.2 = azel_add p' (0.0, 0.0)%float /\
  rotor_offsets out.2 = (0.0, 0.0)%float /\
  ephemeris_cmd_location out.2 = Some id.
Proof.
  intros Hp Hin Hlast Hp' Hin'. cbv zeta.
  destruct (n_point_scan_ends_on_last_cell cfg rotor np_cos id p d Hp Hin Hlast)
    as (d1 & Hrun & Hoff & Hdest & Hcmd & Hid).
  rewrite Hrun. cbn [snd].
  rewrite (ephemeris_round_follows rotor fresh id p' d1 Hid Hp')
    by (rewrite Hoff; exact Hin').
  cbn. rewrite Hoff. repeat split; assumption.
Qed.

Lemma refresh_after_scan_recommands_witness :
  let scanned :=
    (n_point_scan Station.cfg Station.rotor Station.cos_taylor "Sun" Station.fresh).2 in
  rotor_offsets scanned = (0.0, 0.0)%float /\
  rotor_cmd_location
    (update_ephemeris_location_round Station.rotor Station.table scanned).2
  = (180, 45)%float.
Proof.
  pose proof (refresh_after_scan_recommands Station.cfg Station.rotor Station.cos_taylor
                Station.table "Sun" (180, 45)%float (180, 45)%float Station.fresh
                eq_refl eq_refl eq_refl eq_refl eq_refl) as H.
  cbv zeta in H. destruct H as (Hoff & _ & _ & _ & _ & Hcmd & _).
  split; [exact Hoff | exact Hcmd].
Defined.

(** ** Arguments that are missing or malformed *)

(** X19: the lines [freq], [samp], [azel], [offset] and [wait] read and
    convert all their arguments before anything is done: when one of them
    raises, for a missing argument ([IndexError]), a text that is no number
    ([ValueError]) or a time that [sleep] does not take, the state is
    exactly as it was, nothing queued, nothing commanded. *)
Theorem bad_arguments_change_nothing (cfg : Config) (rotor : Rotor)
    (np_cos : float -> float) (py_float : string -> option float)
    (radio_calibrate : file -> file) (command : string) (e : exn) (d : Daemon) :
  ephemeris_locations d !! hd EmptyString (Py.split " " command) = None ->
  In (Py.lower (hd EmptyString (Py.split " " command)))
     ["freq"; "samp"; "azel"; "offset"; "wait"]%string ->
  (dispatch cfg rotor np_cos py_float radio_calibrate command d).1 = Raise e ->
  (dispatch cfg rotor np_cos py_float radio_calibrate command d).2 = d /\
  (e = IndexError \/ e = ValueError \/
   (Py.lower (hd EmptyString (Py.split " " command)) = "wait"%string /\ e = OverflowError)).
Proof.
  intros Hobj Hname. apply not_an_object in Hobj.
  destruct (dispatch cfg rotor np_cos py_float radio_calibrate command d) as [r d']
    eqn:Hrun.
  cbn [fst snd]. revert Hrun.
  unfold dispatch. unfold bind at 1. unfold gets at 1. cbv beta iota zeta.
  rewrite Hobj.
  set (name := Py.lower (hd EmptyString (Py.split " " command))) in *.
  set (parts := Py.split " " command).
  clearbody name parts.
  cbn [In] in Hname.
  destruct Hname as [<- | [<- | [<- | [<- | [<- | []]]]]];
    cbn [String.eqb Ascii.eqb Bool.eqb Py.isnumeric Py.all_chars Py.is_digit];
    unfold item, to_float, bind, sleep;
    repeat first
      [ progress (unfold ret, raise; cbv beta iota)
      | match goal with
        | |- context [nth_error parts ?i] => destruct (nth_error parts i)
        | |- context [py_float ?s] => destruct (py_float s)
        | |- context [if ?b then _ else _] => destruct b
        end ];
    cbn;
    repeat (match goal with
            | |- context [if ?b then _ else _] => destruct b
            | |- context [radio_save_raw_task d] => destruct (radio_save_raw_task d)
            end; cbn);
    intros [= <- <-]; intros He; try discriminate He; injection He as <-; auto.
Qed.

Lemma bad_arguments_change_nothing_witness :
  let out := dispatch Station.cfg Station.rotor Station.cos_taylor Station.decimal_float
               (fun f => f) "azel 10 abc" Station.fresh in
  out.1 = Raise ValueError /\ out.2 = Station.fresh.
Proof.
  split; [reflexivity |].
  refine (proj1 (bad_arguments_change_nothing Station.cfg Station.rotor Station.cos_taylor
                   Station.decimal_float (fun f => f) "azel 10 abc" ValueError
                   Station.fresh eq_refl _ eq_refl)).
  right. right. left. reflexivity.
Defined.

(** ** Waiting *)

(** The round of a line that is not passed over, by what [dispatch] makes
    of it. *)
Lemma command_round_of_dispatch cfg rotor np_cos py_float radio_calibrate
    (line : string) (d : Daemon) :
  (String.length line <? 2)%nat || Ascii.eqb (first_char line) "*" = false ->
  let d1 := set_current_queue_item line
              (set_command_error_logs
                 (command_error_logs d ++ [Text ("Running Command '" +:+ line +:+ "'")])
                 (set_current_queue_item "None" d)) in
  command_round cfg rotor np_cos py_float radio_calibrate line d =
    match dispatch cfg rotor np_cos py_float radio_calibrate (unprefixed line) d1 with
    | (Val a, d') => (Val a, d')
    | (Raise e, d') =>
        if handled e
        then (Val tt, set_command_error_logs (command_error_logs d' ++ [ExnStr e]) d')
        else (Raise e, d')
    end.
Proof.
  intros Hskip. cbv zeta. rewrite command_round_rest.
  unfold try_except, bind, modify, log_message. rewrite Hskip. reflexivity.
Qed.

Lemma digits_have_no_colon (s : string) :
  Py.all_chars Py.is_digit s = true -> Py.split ":" s = [s].
Proof.
  induction s as [| c s IH]; cbn [Py.all_chars Py.split]; [reflexivity |].
  intros H. apply andb_prop in H. destruct H as [Hc Hs].
  destruct (Ascii.eqb_spec c ":") as [-> | _]; [discriminate Hc |].
  rewrite (IH Hs). reflexivity.
Qed.

Lemma numeric_has_one_field (s : string) :
  Py.isnumeric s = true -> length (Py.split ":" s) = 1%nat.
Proof.
  destruct s as [| c s]; [discriminate |]. unfold Py.isnumeric. intros H.
  rewrite (digits_have_no_colon _ H). reflexivity.
Qed.

(** A name that [strptime] takes as a time stamp is no keyword, no number
    and no [lst] time, and has five fields. *)
Lemma time_stamp_name (name : string) (t : Z) :
  Py.strptime_YjHMS name = Some t ->
  length (Py.split ":" name) = 5%nat /\
  Py.isnumeric name = false /\
  hd EmptyString (Py.split ":" name) <> "lst"%string /\
  (forall keyword, length (Py.split ":" keyword) = 1%nat -> String.eqb name keyword = false).
Proof.
  intros Hparse.
  assert (Hfive : length (Py.split ":" name) = 5%nat /\
                  Py.isnumeric (hd EmptyString (Py.split ":" name)) = true).
  { unfold Py.strptime_YjHMS in Hparse.
    destruct (Py.split ":" name) as [| y [| j [| h [| m [| sec [| ? ?]]]]]];
      try discriminate Hparse.
    destruct (Py.isnumeric y) eqn:Hy; [auto | discriminate Hparse]. }
  destruct Hfive as [Hfive Hyear].
  repeat split.
  - exact Hfive.
  - destruct (Py.isnumeric name) eqn:Hnum; [ | reflexivity].
    apply numeric_has_one_field in Hnum. congruence.
  - intros Hlst. rewrite Hlst in Hyear. discriminate Hyear.
  - intros keyword Hone. destruct (String.eqb_spec name keyword) as [<- | _];
      [congruence | reflexivity].
Qed.

Lemma dispatch_time_stamp cfg rotor np_cos py_float radio_calibrate (command : string)
    (t : Z) (d : Daemon) :
  ephemeris_locations d !! hd EmptyString (Py.split " " command) = None ->
  Py.strptime_YjHMS (Py.lower (hd EmptyString (Py.split " " command))) = Some t ->
  dispatch cfg rotor np_cos py_float radio_calibrate command d =
    sleep (Micros (t - clock d)) d.
Proof.
  intros Hobj Hparse. apply not_an_object in Hobj.
  destruct (time_stamp_name _ t Hparse) as (Hfive & Hnum & Hlst & Hkw).
  unfold dispatch. unfold bind at 1. unfold gets at 1. cbv beta iota zeta.
  rewrite Hobj.
  set (name := Py.lower (hd EmptyString (Py.split " " command))) in *.
  rewrite (Hkw "stow"%string eq_refl), (Hkw "cal"%string eq_refl),
    (Hkw "calibrate"%string eq_refl), (Hkw "quit"%string eq_refl),
    (Hkw "record"%string eq_refl), (Hkw "roff"%string eq_refl),
    (Hkw "freq"%string eq_refl), (Hkw "samp"%string eq_refl),
    (Hkw "azel"%string eq_refl), (Hkw "offset"%string eq_refl),
    (Hkw "wait"%string eq_refl).
  rewrite Hnum. apply String.eqb_neq in Hlst. rewrite Hlst, Hfive.
  cbn [Nat.eqb]. rewrite Hparse. reflexivity.
Qed.

(** A float below 2^62 is neither above 2^63 nor equal to it. *)
Lemma below_2_62 (ns : float) :
  (0x1p+62 <=? ns)%float = false ->
  (0x1p+63 <? ns)%float = false /\ (ns =? 0x1p+63)%float = false.
Proof.
  rewrite FloatAxioms.leb_spec, FloatAxioms.ltb_spec, FloatAxioms.eqb_spec.
  replace (Prim2SF 0x1p+62) with (S754_finite false 4503599627370496 10)
    by (vm_compute; reflexivity).
  replace (Prim2SF 0x1p+63) with (S754_finite false 4503599627370496 11)
    by (vm_compute; reflexivity).
  unfold SFleb, SFltb, SFeqb, SFcompare.
  destruct (Prim2SF ns) as [s | s | | s m e]; try destruct s; auto; try discriminate.
  destruct (Z.compare_spec 10 e) as [<- | H | H].
  - replace (Z.compare 11 10) with Gt by reflexivity.
    replace (Z.compare 10 11) with Lt by reflexivity. auto.
  - discriminate.
  - intros _. destruct (Z.compare_spec 11 e) as [<- | H' | H']; try lia.
    destruct (Z.compare_spec e 11) as [-> | H'' | H'']; try lia; auto.
Qed.

(** What [sleep] makes of a time of less than 2^62 ns. *)
Lemma sleep_outcome (t : duration) (d : Daemon) :
  (0x1p+62 <=? seconds_of t * 1e9)%float = false ->
  sleep t d =
    if PrimFloat.is_nan (seconds_of t) then (Raise ValueError, d)
    else if (seconds_of t * 1e9 <? -0x1p+63)%float then (Raise OverflowError, d)
    else if (seconds_of t <? 0)%float then (Raise ValueError, d)
    else (Val tt, set_trace (trace d ++ [Sleep t]) d).
Proof.
  intros Hrange. destruct (below_2_62 _ Hrange) as [Habove Hequal].
  unfold sleep. cbv zeta. rewrite Habove, Hequal, !orb_false_r.
  destruct (PrimFloat.is_nan (seconds_of t)); [reflexivity |].
  destruct (seconds_of t * 1e9 <? -0x1p+63)%float; [reflexivity |].
  destruct (seconds_of t <? 0)%float; reflexivity.
Qed.

(** The round of a line that is not passed over and that [dispatch] takes
    to a [sleep] of less than 2^62 ns. *)
Lemma command_round_sleeps cfg rotor np_cos py_float radio_calibrate (line : string)
    (t : duration) (d : Daemon) :
  (String.length line <? 2)%nat || Ascii.eqb (first_char line) "*" = false ->
  (let d1 := set_current_queue_item line
               (set_command_error_logs
                  (command_error_logs d ++ [Text ("Running Command '" +:+ line +:+ "'")])
                  (set_current_queue_item "None" d)) in
   dispatch cfg rotor np_cos py_float radio_calibrate (unprefixed line) d1 = sleep t d1) ->
  (0x1p+62 <=? seconds_of t * 1e9)%float = false ->
  let out := command_round cfg rotor np_cos py_float radio_calibrate line d in
  let overflows :=
    negb (PrimFloat.is_nan (seconds_of t)) && (seconds_of t * 1e9 <? -0x1p+63)%float in
  let refused := PrimFloat.is_nan (seconds_of t) || (seconds_of t <? 0)%float in
  out.1 = (if overflows then Raise OverflowError else Val tt) /\
  trace out.2 = trace d ++ (if overflows || refused then [] else [Sleep t]) /\
  command_error_logs out.2 =
    command_error_logs d
    ++ Text ("Running Command '" +:+ line +:+ "'")
       :: (if overflows then [] else if refused then [ExnStr ValueError] else []) /\
  (overflows = true ->
   forall rest,
     command_loop cfg rotor np_cos py_float radio_calibrate true (line :: rest) d =
       Died OverflowError out.2).
Proof.
  intros Hskip Hdispatch Hrange. cbv zeta. cbn [command_loop].
  rewrite (command_round_of_dispatch _ _ _ _ _ line d Hskip). cbv zeta.
  cbv zeta in Hdispatch. rewrite Hdispatch. rewrite (sleep_outcome t _ Hrange).
  destruct (PrimFloat.is_nan (seconds_of t)); cbn.
  - rewrite <- app_assoc, app_nil_r. repeat split; auto. discriminate.
  - destruct (seconds_of t * 1e9 <? -0x1p+63)%float; cbn.
    + rewrite app_nil_r. repeat split; auto.
    + destruct (seconds_of t <? 0)%float; cbn.
      * rewrite <- app_assoc, app_nil_r. repeat split; auto. discriminate.
      * repeat split; auto. discriminate.
Qed.

(** X11: a line whose name is a time stamp [Year:Day:H:M:S] sleeps for the
    time from the clock to that instant, as far as that is less than
    2^62 ns.  When the instant is past, [sleep] refuses the negative time,
    the [ValueError] is logged and nothing is slept; when it is past by
    more than 2^63 ns (some 292 years), [sleep] raises [OverflowError],
    which no handler takes: the round raises it, nothing more is logged and
    the command loop ends there, the lines behind unread. *)
Theorem time_stamp_line_waits (cfg : Config) (rotor : Rotor) (np_cos : float -> float)
    (py_float : string -> option float) (radio_calibrate : file -> file)
    (line : string) (t : Z) (d : Daemon) :
  (String.length line <? 2)%nat || Ascii.eqb (first_char line) "*" = false ->
  ephemeris_locations d !! hd EmptyString (Py.split " " (unprefixed line)) = None ->
  Py.strptime_YjHMS (command_name_of line) = Some t ->
  (0x1p+62 <=? total_seconds (t - clock d) * 1e9)%float = false ->
  let secs := total_seconds (t - clock d) in
  let out := command_round cfg rotor np_cos py_float radio_calibrate line d in
  let overflows := negb (PrimFloat.is_nan secs) && (secs * 1e9 <? -0x1p+63)%float in
  let refused := PrimFloat.is_nan secs || (secs <? 0)%float in
  out.1 = (if overflows then Raise OverflowError else Val tt) /\
  trace out.2 =
    trace d ++ (if overflows || refused then [] else [Sleep (Micros (t - clock d))]) /\
  command_error_logs out.2 =
    command_error_logs d
    ++ Text ("Running Command '" +:+ line +:+ "'")
       :: (if overflows then [] else if refused then [ExnStr ValueError] else []) /\
  (overflows = true ->
   forall rest,
     command_loop cfg rotor np_cos py_float radio_calibrate true (line :: rest) d =
       Died OverflowError out.2).
Proof.
  intros Hskip Hobj Hparse Hrange.
  apply (command_round_sleeps cfg rotor np_cos py_float radio_calibrate line
           (Micros (t - clock d)) d Hskip); [| exact Hrange].
  cbv zeta.
  rewrite (dispatch_time_stamp _ _ _ _ _ (unprefixed line) t) by assumption.
  reflexivity.
Qed.

Lemma time_stamp_line_waits_witness :
  let round := command_round Station.cfg Station.rotor Station.cos_taylor
                 Station.decimal_float (fun f => f) in
  trace (round "2020:002:00:00:01" Station.fresh).2 = [Sleep (Micros 2000000)] /\
  (round "1700:001:00:00:00" Station.fresh).1 = Raise OverflowError.
Proof.
  split.
  - exact (proj1 (proj2
      (time_stamp_line_waits Station.cfg Station.rotor Station.cos_taylor
         Station.decimal_float (fun f => f) "2020:002:00:00:01" 1577923201000000
         Station.fresh eq_refl eq_refl eq_refl eq_refl))).
  - exact (proj1
      (time_stamp_line_waits Station.cfg Station.rotor Station.cos_taylor
         Station.decimal_float (fun f => f) "1700:001:00:00:00" (-8520336000000000)
         Station.fresh eq_refl eq_refl eq_refl eq_refl)).
Defined.

Lemma dispatch_wait cfg rotor np_cos py_float radio_calibrate (args : string) (x : float)
    (d : Daemon) :
  ephemeris_locations d !! "wait"%string = None ->
  py_float (hd EmptyString (Py.split " " args)) = Some x ->
  dispatch cfg rotor np_cos py_float radio_calibrate ("wait " +:+ args) d =
    sleep (Seconds x) d.
Proof.
  intros Hobj Hnum. apply not_an_object in Hobj.
  destruct (split_cons " " args) as (token & tokens & Hsplit).
  rewrite Hsplit in Hnum. cbn [hd] in Hnum.
  change ("wait " +:+ args)%string
    with (String "w" (String "a" (String "i" (String "t" (String " " args))))).
  unfold dispatch, bind, gets, item, to_float.
  simpl. rewrite Hsplit. simpl. rewrite Hobj.
  simpl. rewrite Hnum. reflexivity.
Qed.

(** X12: a line [wait] followed by a number of seconds sleeps for that
    time, once, as far as that is less than 2^62 ns.  A negative number or
    a not-a-number is refused by [sleep], the [ValueError] is logged and
    nothing is slept; a number below -2^63 ns makes [sleep] raise
    [OverflowError], which no handler takes: the round raises it, nothing
    more is logged and the command loop ends there, the lines behind
    unread. *)
Theorem wait_line_sleeps (cfg : Config) (rotor : Rotor) (np_cos : float -> float)
    (py_float : string -> option float) (radio_calibrate : file -> file)
    (args : string) (x : float) (d : Daemon) :
  ephemeris_locations d !! "wait"%string = None ->
  py_float (hd EmptyString (Py.split " " args)) = Some x ->
  (0x1p+62 <=? x * 1e9)%float = false ->
  let line := ("wait " +:+ args)%string in
  let out := command_round cfg rotor np_cos py_float radio_calibrate line d in
  let overflows := negb (PrimFloat.is_nan x) && (x * 1e9 <? -0x1p+63)%float in
  let refused := PrimFloat.is_nan x || (x <? 0)%float in
  out.1 = (if overflows then Raise OverflowError else Val tt) /\
  trace out.2 = trace d ++ (if overflows || refused then [] else [Sleep (Seconds x)]) /\
  command_error_logs out.2 =
    command_error_logs d
    ++ Text ("Running Command '" +:+ line +:+ "'")
       :: (if overflows then [] else if refused then [ExnStr ValueError] else []) /\
  (overflows = true ->
   forall rest,
     command_loop cfg rotor np_cos py_float radio_calibrate true (line :: rest) d =
       Died OverflowError out.2).
Proof.
  intros Hobj Hnum Hrange.
  apply (command_round_sleeps cfg rotor np_cos py_float radio_calibrate
           ("wait " +:+ args) (Seconds x) d); [reflexivity | | exact Hrange].
  cbv zeta. apply dispatch_wait; assumption.
Qed.

Lemma wait_line_sleeps_witness :
  let round := command_round Station.cfg Station.rotor Station.cos_taylor
                 Station.decimal_float (fun _ => NoFile) in
  trace (round "wait 3" Station.fresh).2 = [Sleep (Seconds 3)] /\
  (command_round Station.cfg Station.rotor Station.cos_taylor
     (fun _ => Some (-1e10)%float) (fun _ => NoFile) "wait -1e10" Station.fresh).1
  = Raise OverflowError.
Proof.
  split.
  - exact (proj1 (proj2
      (wait_line_sleeps Station.cfg Station.rotor Station.cos_taylor Station.decimal_float
         (fun _ => NoFile) "3" 3 Station.fresh eq_refl eq_refl eq_refl))).
  - exact (proj1
      (wait_line_sleeps Station.cfg Station.rotor Station.cos_taylor
         (fun _ => Some (-1e10)%float) (fun _ => NoFile) "-1e10" (-1e10) Station.fresh
         eq_refl eq_refl eq_refl)).
Defined.

(** ** Lines that are not identified *)

(** X18: a line that is not passed over and whose name is no object, no
    keyword, no number, no [lst] time and no time stamp of five fields is
    logged as not identified, under the text that is left of it after a
    leading colon and the blanks around it are taken off, and nothing else
    happens: nothing is queued, commanded or slept. *)
Theorem unidentified_line_only_logged (cfg : Config) (rotor : Rotor)
    (np_cos : float -> float) (py_float : string -> option float)
    (radio_calibrate : file -> file) (line : string) (d : Daemon) :
  (String.length line <? 2)%nat || Ascii.eqb (first_char line) "*" = false ->
  ephemeris_locations d !! hd EmptyString (Py.split " " (unprefixed line)) = None ->
  Forall (fun keyword => command_name_of line <> keyword)
    ["stow"; "cal"; "calibrate"; "quit"; "record"; "roff"; "freq"; "samp"; "azel";
     "offset"; "wait"]%string ->
  Py.isnumeric (command_name_of line) = false ->
  hd EmptyString (Py.split ":" (command_name_of line)) <> "lst"%string ->
  length (Py.split ":" (command_name_of line)) <> 5%nat ->
  command_round cfg rotor np_cos py_float radio_calibrate line d =
    (Val tt,
     set_command_error_logs
       (command_error_logs d
        ++ [Text ("Running Command '" +:+ line +:+ "'");
            Text ("Command Not Identified '" +:+ unprefixed line +:+ "'")])
       (set_current_queue_item line (set_current_queue_item "None" d))).
Proof.
  intros Hskip Hobj Hkeys Hnum Hlst Hfive.
  rewrite (command_round_of_dispatch _ _ _ _ _ line d Hskip). cbv zeta.
  rewrite unidentified_command_logged by assumption.
  cbn. rewrite <- app_assoc. reflexivity.
Qed.

Lemma unidentified_line_only_logged_witness :
  command_error_logs
    (command_round Station.cfg Station.rotor Station.cos_taylor Station.decimal_float
       (fun f => f) ":  park  " Station.fresh).2
  = [Text "Running Command ':  park  '"; Text "Command Not Identified 'park'"].
Proof.
  rewrite (unidentified_line_only_logged Station.cfg Station.rotor Station.cos_taylor
             Station.decimal_float (fun f => f) ":  park  " Station.fresh).
  - reflexivity.
  - reflexivity.
  - reflexivity.
  - repeat constructor; intros H; vm_compute in H; discriminate H.
  - reflexivity.
  - intros H. vm_compute in H. discriminate H.
  - intros H. vm_compute in H. discriminate H.
Defined.

(** ** Queues of lines *)

Lemma safe_queue_loop cfg rotor np_cos py_float radio_calibrate (queue : list string)
    (d : Daemon) :
  Forall safe_line queue ->
  command_loop cfg rotor np_cos py_float radio_calibrate true queue d =
    Waiting (set_current_queue_item "None"
               (after_commands (command_round cfg rotor np_cos py_float radio_calibrate)
                  queue d)).
Proof.
  intros Hsafe. revert d. induction Hsafe as [| line queue Hline _ IH]; intros d.
  - reflexivity.
  - destruct Hline as (Hcal & Hwait & Hnum & Hfive).
    destruct (safe_line_raises_none cfg rotor np_cos py_float radio_calibrate line d
                Hcal Hwait Hnum Hfive) as (d' & Hround).
    rewrite (command_loop_next _ _ _ _ _ line queue d d' Hround).
    rewrite IH. cbn [after_commands fold_left]. rewrite Hround. reflexivity.
Qed.

(** X22: a queue that holds no [calibrate], no [wait], no number and no
    time stamp never ends the daemon: the command loop neither dies of an
    exception on it nor leaves through its condition.  When the loop is
    back in [get()] behind the last line, the current item reads "None" and
    the state is otherwise the one that the rounds have left, one after the
    other in the order of the queue. *)
Theorem safe_queue_never_ends_daemon (cfg : Config) (rotor : Rotor)
    (np_cos : float -> float) (py_float : string -> option float)
    (radio_calibrate : file -> file) (queue : list string) (d : Daemon) :
  Forall safe_line queue ->
  let loop := command_loop cfg rotor np_cos py_float radio_calibrate true queue d in
  (forall e d', loop <> Died e d') /\
  (forall r d', loop <> Ended r d') /\
  (forall d',
     loop = Waiting d' ->
     d' = set_current_queue_item "None"
            (after_commands (command_round cfg rotor np_cos py_float radio_calibrate)
               queue d)).
Proof.
  intros Hsafe. cbv zeta.
  rewrite (safe_queue_loop cfg rotor np_cos py_float radio_calibrate queue d Hsafe).
  repeat split; try discriminate. intros d' Heq. injection Heq as <-. reflexivity.
Qed.

Lemma safe_queue_never_ends_daemon_witness :
  exists d',
    command_loop Station.cfg Station.rotor Station.cos_taylor Station.decimal_float
      (fun f => f) true ["Sun"; "offset 1 1"; "record"; "quit"; "stow"]%string
      Station.fresh = Waiting d'.
Proof.
  destruct (safe_queue_never_ends_daemon Station.cfg Station.rotor Station.cos_taylor
              Station.decimal_float (fun f => f)
              ["Sun"; "offset 1 1"; "record"; "quit"; "stow"]%string Station.fresh)
    as (Hdied & Hended & _).
  - repeat constructor; try (intros H; vm_compute in H; discriminate H).
  - destruct (command_loop _ _ _ _ _ _ _ _) as [d' | r d' | e d'].
    + exists d'. reflexivity.
    + destruct (Hended r d' eq_refl).
    + destruct (Hdied e d' eq_refl).
Defined.

(** ** Rolling a time of day forward *)

Lemma roll_days_adds_days (fuel : nat) (time_val now : Z) :
  exists days, 0 <= days /\ roll_days fuel time_val now = time_val + days * day_us.
Proof.
  revert time_val. induction fuel as [| fuel IH]; intros time_val; cbn [roll_days].
  - exists 0. lia.
  - destruct (time_val <? now).
    + destruct (IH (time_val + day_us)) as (days & Hdays & Hroll).
      exists (days + 1). rewrite Hroll. split; lia.
    + exists 0. lia.
Qed.

(** X21: the loop that adds days to a parsed time of day until it is not
    in the past ends, and gives the first such instant: a whole number of
    days after the parsed time, not before the clock, less than a day after
    the clock when the parsed time was in the past, and the parsed time
    itself when it was not. *)
Theorem next_occurrence_is_next (time_val now : Z) :
  let next := next_occurrence time_val now in
  now <= next /\
  (exists days, 0 <= days /\ next = time_val + days * day_us) /\
  (time_val < now -> next < now + day_us) /\
  (now <= time_val -> next = time_val).
Proof.
  cbv zeta. destruct (next_occurrence_reaches time_val now) as [Hreach Hnext].
  repeat split; auto.
  - apply roll_days_adds_days.
  - intros Hfuture. unfold next_occurrence.
    destruct (Z.to_nat ((now - time_val) / day_us + 1)) as [| fuel]; cbn [roll_days].
    + reflexivity.
    + destruct (Z.ltb_spec time_val now); [lia | reflexivity].
Qed.

(** ** Startup *)

Lemma send_settings_run (cfg : Config) (d : Daemon) :
  send_settings cfg d =
    (Val tt,
     set_radio_queue
       (radio_queue d
        ++ [("freq"%string, VFloat (radio_center_frequency d));
            ("samp_rate"%string, VFloat (radio_sample_frequency d));
            ("motor_az"%string, VFloat (rotor_location d).1);
            ("motor_el"%string, VFloat (rotor_location d).2);
            ("soutrack"%string, VStr "at_stow");
            ("tsys"%string, VFloat (temp_sys cfg));
            ("tcal"%string, VFloat (temp_cal cfg));
            ("cal_pwr"%string, VFloat (cal_power d));
            ("cal_values"%string, VFloats (cal_values d));
            ("is_running"%string, VBool true)])
       (set_command_error_logs
          (command_error_logs d
           ++ map (fun name => Text ("Setting " +:+ name))
                ["Frequency"; "Sample Rate"; "Motor Azimuth"; "Motor Elevation";
                 "Object Tracking"; "System Temp"; "Calibration Temp";
                 "Calibration Power"; "Calibration Values"; "Is Running"]%string)
          d)).
Proof.
  unfold send_settings, bind, gets, log_message, radio_put, modify. cbn.
  rewrite <- !app_assoc. reflexivity.
Qed.

(** X23: a daemon started on a calibration document, under temperatures
    whose sum is not zero, queues before it takes any line the ten settings
    for the signal processing in their order, from the frequency to
    [("is_running", True)], logging each: the motor position is the stow
    location and the calibration power and values are those that the
    startup loaded from the document, or the neutral ones.  With the
    autostart set, the start of the process comes first, then five seconds
    of sleep; a [RuntimeError] of the start is logged and the startup goes
    on the same, while any other exception of the start ends
    [srt_daemon_main] with nothing queued. *)
Theorem startup_sends_settings (cfg : Config) (rotor : Rotor) (np_cos : float -> float)
    (py_float : string -> option float) (radio_calibrate : file -> file)
    (table : gmap string azel) (now : Z) (doc : option (list float * float))
    (start_raises : bool) :
  (temp_sys cfg + temp_cal cfg =? 0)%float = false ->
  let profile :=
    match doc with
    | Some (values, power) =>
        if (length values =? radio_num_bins cfg)%nat then (values, power)
        else neutral_profile cfg
    | None => neutral_profile cfg
    end in
  let new := init cfg (persisted doc) table now in
  let main start := srt_daemon_main cfg rotor np_cos py_float radio_calibrate start [] new.2 in
  new.1 = Val tt /\
  (exists d,
     main (if start_raises then Some RuntimeError else None) = Waiting d /\
     radio_queue d =
       [("freq"%string, VFloat (radio_cf cfg));
        ("samp_rate"%string, VFloat (radio_sf cfg));
        ("motor_az"%string, VFloat (stow_location cfg).1);
        ("motor_el"%string, VFloat (stow_location cfg).2);
        ("soutrack"%string, VStr "at_stow");
        ("tsys"%string, VFloat (temp_sys cfg));
        ("tcal"%string, VFloat (temp_cal cfg));
        ("cal_pwr"%string, VFloat profile.2);
        ("cal_values"%string, VFloats profile.1);
        ("is_running"%string, VBool true)] /\
     trace d = (if radio_autostart cfg then [ProcessStart; Sleep (Seconds 5)] else []) /\
     command_error_logs d =
       (if radio_autostart cfg && start_raises then [ExnStr RuntimeError] else [])
       ++ map (fun name => Text ("Setting " +:+ name))
            ["Frequency"; "Sample Rate"; "Motor Azimuth"; "Motor Elevation";
             "Object Tracking"; "System Temp"; "Calibration Temp";
             "Calibration Power"; "Calibration Values"; "Is Running"]%string /\
     current_queue_item d = "None"%string) /\
  (forall e,
     radio_autostart cfg = true -> is_RuntimeError e = false ->
     exists d, main (Some e) = Died e d /\ radio_queue d = [] /\ trace d = [ProcessStart]).
Proof.
  intros Hsum. cbv zeta.
  assert (Hnew : exists d0,
            init cfg (persisted doc) table now = (Val tt, d0) /\
            (cal_values d0, cal_power d0) =
              match doc with
              | Some (values, power) =>
                  if (length values =? radio_num_bins cfg)%nat then (values, power)
                  else neutral_profile cfg
              | None => neutral_profile cfg
              end /\
            radio_queue d0 = [] /\ trace d0 = [] /\ command_error_logs d0 = [] /\
            radio_center_frequency d0 = radio_cf cfg /\
            radio_sample_frequency d0 = radio_sf cfg /\
            rotor_location d0 = stow_location cfg).
  { unfold init. rewrite (init_calibration_divides cfg _ Hsum).
    destruct doc as [[values power] |];
      unfold persisted, try_except, bind, modify, gets; cbn;
      [destruct (length values =? radio_num_bins cfg)%nat | ]; cbn;
      eexists; repeat split; reflexivity. }
  destruct Hnew as (d0 & Hinit & Hprofile & Hqueue & Htrace & Hlogs & Hcf & Hsf & Hloc).
  rewrite Hinit. cbn [fst snd].
  assert (Hvalues : cal_values d0 = (cal_values d0, cal_power d0).1) by reflexivity.
  assert (Hpower : cal_power d0 = (cal_values d0, cal_power d0).2) by reflexivity.
  rewrite Hprofile in Hvalues, Hpower.
  split; [reflexivity |]. split.
  - unfold srt_daemon_main. unfold bind at 1.
    destruct (radio_autostart cfg).
    + unfold bind at 1. unfold try_except, start_radio_process, bind, emit, modify.
      destruct start_raises; cbn [is_RuntimeError log_message modify raise ret];
        rewrite sleep_five; cbn [emit modify];
        rewrite send_settings_run; eexists; (split; [reflexivity |]); cbn;
        rewrite Hqueue, Htrace, Hlogs, Hcf, Hsf, Hloc, <- Hvalues, <- Hpower; auto.
    + cbn [ret]. rewrite send_settings_run. eexists. split; [reflexivity |]. cbn.
      rewrite Hqueue, Hlogs, Hcf, Hsf, Hloc, Htrace, <- Hvalues, <- Hpower. auto.
  - intros e Hauto He. unfold srt_daemon_main. unfold bind at 1. rewrite Hauto.
    unfold bind at 1. unfold try_except, start_radio_process, bind, emit, modify.
    cbn [raise]. rewrite He. eexists. split; [reflexivity |]. cbn.
    rewrite Hqueue, Htrace. auto.
Qed.

Lemma startup_sends_settings_witness :
  exists d,
    srt_daemon_main Station.cfg Station.rotor Station.cos_taylor Station.decimal_float
      (fun f => f) (Some RuntimeError) [] (init Station.cfg NoFile Station.table 0).2
    = Waiting d /\
    trace d = [ProcessStart; Sleep (Seconds 5)] /\
    hd_error (command_error_logs d) = Some (ExnStr RuntimeError).
Proof.
  destruct (startup_sends_settings Station.cfg Station.rotor Station.cos_taylor
              Station.decimal_float (fun f => f) Station.table 0 None true eq_refl)
    as (_ & (d & Hmain & _ & Htrace & Hlogs & _) & _).
  exists d. split; [exact Hmain |]. split; [exact Htrace |]. rewrite Hlogs. reflexivity.
Defined.
